(** * Agentic workflow: the plan / execute / reflect / finalize loop

    A shallow embedding of the orchestration code of the repository
    ([src/workflows/agentic_workflow.py], [src/agents/*.py],
    [src/tools/registry.py], [src/utils/state.py]) and the properties of
    its control loop.

    External collaborators are oracles.  The LLM client and the tools
    answer over the network, so the answer to a call is taken from an
    arbitrary sequence indexed by the number of external calls made so
    far; that number is threaded through every function that calls out.
    [json.loads] belongs to Python's library and is a parameter. *)

From Stdlib Require Import String Ascii List ZArith Lia Bool Arith DecimalString FinFun Sorted.
Import ListNotations.
Open Scope string_scope.
Set Warnings "-register-all".

(** ** Python string operations used by the agents

    Text is a sequence of characters with code points below 256. *)
Module PyStr.

(** [str.isspace] on one character. *)
Definition is_space (c : ascii) : bool :=
  let n := nat_of_ascii c in
  (((9 <=? n) && (n <=? 13)) || ((28 <=? n) && (n <=? 32))
   || (n =? 133) || (n =? 160))%nat.

Fixpoint lstrip (s : string) : string :=
  match s with
  | String c r => if is_space c then lstrip r else s
  | EmptyString => EmptyString
  end.

Fixpoint rstrip (s : string) : string :=
  match s with
  | String c r =>
      match rstrip r with
      | EmptyString => if is_space c then EmptyString else String c EmptyString
      | r' => String c r'
      end
  | EmptyString => EmptyString
  end.

(** [s.strip()] *)
Definition strip (s : string) : string := rstrip (lstrip s).

Definition lower_char (c : ascii) : ascii :=
  let n := nat_of_ascii c in
  if (((65 <=? n) && (n <=? 90))
      || ((192 <=? n) && (n <=? 222) && negb (n =? 215)))%nat
  then ascii_of_nat (n + 32) else c.

(** [s.lower()] *)
Fixpoint lower (s : string) : string :=
  match s with
  | String c r => String (lower_char c) (lower r)
  | EmptyString => EmptyString
  end.

(** [s.startswith(p)] *)
Definition startswith (p s : string) : bool := String.prefix p s.

(** [sub in s] *)
Fixpoint contains (sub s : string) : bool :=
  String.prefix sub s ||
  match s with
  | String _ r => contains sub r
  | EmptyString => false
  end.

(** [s[a:-b]] for literal non-negative [a] and [b]. *)
Definition slice (a b : nat) (s : string) : string :=
  String.substring a (String.length s - b - a) s.

(** [s.split(sep)] for a one-character separator. *)
Fixpoint split (sep : ascii) (s : string) : list string :=
  match s with
  | EmptyString => [EmptyString]
  | String c r =>
      if Ascii.eqb c sep then EmptyString :: split sep r
      else match split sep r with
           | p :: ps => String c p :: ps
           | [] => [String c EmptyString]
           end
  end.

(** [s.count(c)] for one character. *)
Fixpoint count (c : ascii) (s : string) : nat :=
  match s with
  | String c' r => (if Ascii.eqb c' c then 1 else 0) + count c r
  | EmptyString => 0
  end.

(** [sep.join(parts)] *)
Fixpoint join (sep : string) (parts : list string) : string :=
  match parts with
  | [] => EmptyString
  | [p] => p
  | p :: rest => p ++ sep ++ join sep rest
  end.

(** [s.replace(old, new)] for [old] of one character. *)
Fixpoint replace1 (old : ascii) (new s : string) : string :=
  match s with
  | String c r =>
      if Ascii.eqb c old then new ++ replace1 old new r
      else String c (replace1 old new r)
  | EmptyString => EmptyString
  end.

(** [s.replace(old, new)] for [old] of the two characters [a], [b]:
    occurrences are found left to right and do not overlap. *)
Fixpoint replace2 (a b : ascii) (new s : string) : string :=
  match s with
  | String x ((String y r) as t) =>
      if Ascii.eqb x a && Ascii.eqb y b then new ++ replace2 a b new r
      else String x (replace2 a b new t)
  | _ => s
  end.

(** Whether the character [c] occurs in [s]. *)
Fixpoint occurs (c : ascii) (s : string) : bool :=
  match s with
  | String c' r => Ascii.eqb c' c || occurs c r
  | EmptyString => false
  end.

(** The line feed. *)
Definition nl : string := String (ascii_of_nat 10) EmptyString.

(** The characters of a string, as Python iterates over it. *)
Fixpoint chars (s : string) : list string :=
  match s with
  | String c r => String c EmptyString :: chars r
  | EmptyString => []
  end.

End PyStr.

(** ** Python dicts with string keys, in insertion order *)
Module Dict.

Definition dict (A : Type) : Type := list (string * A).

(** [d.get(k)] *)
Fixpoint get {A} (d : dict A) (k : string) : option A :=
  match d with
  | [] => None
  | (k', v) :: d' => if String.eqb k' k then Some v else get d' k
  end.

(** [d[k] = v] *)
Fixpoint set {A} (d : dict A) (k : string) (v : A) : dict A :=
  match d with
  | [] => [(k, v)]
  | (k', v') :: d' =>
      if String.eqb k' k then (k', v) :: d' else (k', v') :: set d' k v
  end.

(** [list(d.keys())] *)
Definition keys {A} (d : dict A) : list string := map fst d.

(** [del d[k]], for a key that is there. *)
Fixpoint remove {A} (d : dict A) (k : string) : dict A :=
  match d with
  | [] => []
  | (k', v) :: d' => if String.eqb k' k then d' else (k', v) :: remove d' k
  end.

(** [k in d] *)
Definition mem {A} (d : dict A) (k : string) : bool :=
  match get d k with Some _ => true | None => false end.

(** A dict holds a key once. *)
Definition wf {A} (d : dict A) : Prop := NoDup (keys d).

End Dict.

(** ** The state model ([src/utils/state.py]) *)
Module State.

(** Values [json.loads] returns.  A float is carried by the text
    [str()] gives for it: the code only ever formats it. *)
Inductive json_value : Type :=
| JNull
| JBool (b : bool)
| JInt (n : Z)
| JFloat (shown : string)
| JStr (s : string)
| JArr (items : list json_value)
| JObj (members : Dict.dict json_value).

(** [class Task].  [description] and [tool_used] are declared [str] and
    [Optional[str]]; planning stores in them whatever the parsed
    response holds, so they carry a [json_value] ([JNull] is [None]). *)
Record Task : Type := mkTask {
  id : Z;
  description : json_value;
  status : string;
  tool_used : json_value;
  result : option string;
  error : option string
}.

(** [class WorkflowState].  [should_continue] and [needs_replan] are
    read with [state.get(key, False)]: [None] is a missing key (or,
    for [needs_replan], the value [None]). *)
Record WorkflowState : Type := mkState {
  original_query : string;
  tasks : list Task;
  current_task_id : option Z;
  iteration_count : Z;
  final_answer : option string;
  should_continue : option bool;
  feedback : list string;
  needs_replan : option bool
}.

Definition set_tasks (s : WorkflowState) (ts : list Task) : WorkflowState :=
  mkState (original_query s) ts (current_task_id s) (iteration_count s)
          (final_answer s) (should_continue s) (feedback s) (needs_replan s).

Definition set_needs_replan (s : WorkflowState) (b : option bool) : WorkflowState :=
  mkState (original_query s) (tasks s) (current_task_id s) (iteration_count s)
          (final_answer s) (should_continue s) (feedback s) b.

Definition set_iteration_count (s : WorkflowState) (n : Z) : WorkflowState :=
  mkState (original_query s) (tasks s) (current_task_id s) n
          (final_answer s) (should_continue s) (feedback s) (needs_replan s).

Definition set_should_continue (s : WorkflowState) (b : option bool) : WorkflowState :=
  mkState (original_query s) (tasks s) (current_task_id s) (iteration_count s)
          (final_answer s) b (feedback s) (needs_replan s).

Definition set_final_answer (s : WorkflowState) (a : option string) : WorkflowState :=
  mkState (original_query s) (tasks s) (current_task_id s) (iteration_count s)
          a (should_continue s) (feedback s) (needs_replan s).

(** The state [src/app.py] starts a run from; it has no
    [needs_replan] key. *)
Definition initial_state (query : string) : WorkflowState :=
  mkState query [] None 0%Z None (Some true) [] None.

(** [[t for t in tasks if t.status == st]] *)
Definition with_status (st : string) (ts : list Task) : list Task :=
  filter (fun t => String.eqb (status t) st) ts.

End State.
Import State.

(** ** Effects: the count of external calls, and exceptions *)

(** The exceptions that cross a function boundary in the modelled code. *)
Inductive exn : Type :=
| TypeError (msg : string)
| KeyError (key : string).

Inductive outcome (A : Type) : Type :=
| Ok (a : A)
| Raise (e : exn).
Arguments Ok {A} a.
Arguments Raise {A} e.

(** A computation reads and advances the count of external calls. *)
Definition M (A : Type) : Type := nat -> outcome (A * nat).

Definition ret {A} (a : A) : M A := fun n => Ok (a, n).

Definition bind {A B} (m : M A) (k : A -> M B) : M B :=
  fun n => match m n with
           | Ok (a, n') => k a n'
           | Raise e => Raise e
           end.

Definition raise {A} (e : exn) : M A := fun _ => Raise e.

(** One external call: the answer is a function of how many came before. *)
Definition call {A} (oracle : nat -> A) : M A := fun n => Ok (oracle n, S n).

Notation "x <- m ;; k" := (bind m (fun x => k))
  (at level 61, m at next level, right associativity).

(** ** The tool registry ([src/tools/registry.py]) *)
Module Registry.

(** What [ToolAgent] reads of the dictionary a tool returns: the keys
    [success], [result] and [error] when present, and [str()] of the
    whole dictionary. *)
Record reply : Type := mkReply {
  success : option bool;
  reply_result : option string;
  reply_error : option string;
  shown : string
}.

(** A tool answers with a dictionary or raises; [Raised msg] carries
    [str(e)]. *)
Inductive tool_outcome : Type :=
| Replied (r : reply)
| Raised (msg : string).

(** [class BaseTool] *)
Record BaseTool : Type := mkTool {
  name : string;
  tool_description : string;
  execute : nat -> string -> tool_outcome
}.

(** [ToolRegistry._tools] *)
Definition ToolRegistry : Type := Dict.dict BaseTool.

Definition empty : ToolRegistry := [].

(** [self._tools[tool.name] = tool] *)
Definition register_tool (r : ToolRegistry) (t : BaseTool) : ToolRegistry :=
  Dict.set r (name t) t.

(** [self._tools.get(tool_name)].  The keys are strings; a list or a
    dict as [tool_name] cannot be hashed and [dict.get] raises
    [TypeError]; any other value that is not a string is absent. *)
Definition get_tool (r : ToolRegistry) (tool_name : json_value)
  : outcome (option BaseTool) :=
  match tool_name with
  | JStr k => Ok (Dict.get r k)
  | JArr _ => Raise (TypeError "unhashable type: 'list'")
  | JObj _ => Raise (TypeError "unhashable type: 'dict'")
  | _ => Ok None
  end.

(** [list(self._tools.keys())] *)
Definition list_tools (r : ToolRegistry) : list string := Dict.keys r.

(** [get_tool_descriptions] *)
Definition get_tool_descriptions (r : ToolRegistry) : Dict.dict string :=
  map (fun kv => (fst kv, tool_description (snd kv))) r.

(** [remove_tool]: the answer and the registry afterwards. *)
Definition remove_tool (r : ToolRegistry) (tool_name : string)
  : bool * ToolRegistry :=
  if Dict.mem r tool_name then (true, Dict.remove r tool_name) else (false, r).

(** [clear] *)
Definition clear (r : ToolRegistry) : ToolRegistry := [].

(** [__len__] *)
Definition len (r : ToolRegistry) : nat := List.length r.

(** [__contains__] *)
Definition contains (r : ToolRegistry) (tool_name : string) : bool :=
  Dict.mem r tool_name.

End Registry.

(** ** The planning agent ([src/agents/plan_agent.py]) *)
Module PlanAgent.
Section WithCollaborators.

(** [self.llm.invoke]: the text answered to the n-th external call. *)
Variable llm : nat -> string.
(** [json.loads]: [None] is [json.JSONDecodeError].  It can also raise
    [RecursionError] (deep nesting) and [ValueError] (an integer literal
    beyond the digit limit), which [plan] does not catch; texts that do
    so are outside this model. *)
Variable json_loads : string -> option json_value.

(** [_create_fallback_task] *)
Definition create_fallback_task (state : WorkflowState) : list Task :=
  [mkTask 1 (JStr ("Search for information about: " ++ original_query state))
          "pending" (JStr "web_search") None None].

(** What [enumerate(tasks_data)] walks over: the items of a list, the
    keys of a dict, the characters of a string; anything else is not
    iterable. *)
Definition iterate (tasks_data : json_value) : outcome (list json_value) :=
  match tasks_data with
  | JArr items => Ok items
  | JObj members => Ok (map JStr (Dict.keys members))
  | JStr s => Ok (map JStr (PyStr.chars s))
  | JNull => Raise (TypeError "'NoneType' object is not iterable")
  | JBool _ => Raise (TypeError "'bool' object is not iterable")
  | JInt _ => Raise (TypeError "'int' object is not iterable")
  | JFloat _ => Raise (TypeError "'float' object is not iterable")
  end.

(** The body of [for i, task_data in enumerate(tasks_data)], started
    at index [i]. *)
Fixpoint collect (i : Z) (tasks_data : list json_value) : list Task :=
  match tasks_data with
  | [] => []
  | task_data :: rest =>
      match task_data with
      | JObj members =>
          match Dict.get members "description", Dict.get members "tool" with
          | Some d, Some t =>
              mkTask (i + 1) d "pending" t None None :: collect (i + 1) rest
          | _, _ => collect (i + 1) rest
          end
      | _ => collect (i + 1) rest
      end
  end.

(** The markdown fence removal at the head of the [try] block. *)
Definition clean (response : string) : string :=
  let clean_response := PyStr.strip response in
  if PyStr.startswith "```json" clean_response
  then PyStr.slice 7 3 clean_response
  else if PyStr.startswith "```" clean_response
  then PyStr.slice 3 3 clean_response
  else clean_response.

(** [PlanAgent.plan].  The [except] clause catches
    [json.JSONDecodeError] and [KeyError] only. *)
Definition plan (state : WorkflowState) (available_tools : list string)
  : M (list Task) :=
  response <- call llm ;;
  match json_loads (clean response) with
  | None => ret (create_fallback_task state)
  | Some tasks_data =>
      match iterate tasks_data with
      | Raise e => raise e
      | Ok items =>
          match collect 0 items with
          | [] => ret (create_fallback_task state)
          | tasks => ret tasks
          end
      end
  end.

End WithCollaborators.
End PlanAgent.

(** ** The tool agent ([src/agents/tool_agent.py]) *)
Module ToolAgent.
Section WithCollaborators.

Variable llm : nat -> string.
Variable tool_registry : Registry.ToolRegistry.

(** [str(v)] as an f-string shows [task.tool_used].  A list or a dict
    never gets here: [get_tool] raises on it first. *)
Definition py_str (v : json_value) : string :=
  match v with
  | JStr s => s
  | JNull => "None"
  | JBool true => "True"
  | JBool false => "False"
  | JInt n => NilZero.string_of_int (Z.to_int n)
  | JFloat shown => shown
  | JArr _ => "[...]"
  | JObj _ => "{...}"
  end.

(** [str(e)] *)
Definition exn_str (e : exn) : string :=
  match e with
  | TypeError msg => msg
  | KeyError key => "'" ++ key ++ "'"
  end.

(** [task.status = "failed"; task.error = msg] *)
Definition failed_with (task : Task) (msg : string) : Task :=
  mkTask (id task) (description task) "failed" (tool_used task)
         (result task) (Some msg).

(** [task.result = r; task.status = "completed"] *)
Definition completed_with (task : Task) (r : string) : Task :=
  mkTask (id task) (description task) "completed" (tool_used task)
         (Some r) (error task).

Definition get_default {A} (d : A) (o : option A) : A :=
  match o with Some a => a | None => d end.

(** [ToolAgent.execute_task] *)
Definition execute_task (task : Task) : M Task :=
  match Registry.get_tool tool_registry (tool_used task) with
  | Raise e => ret (failed_with task ("Execution error: " ++ exn_str e))
  | Ok None =>
      ret (failed_with task ("Tool '" ++ py_str (tool_used task) ++ "' not available"))
  | Ok (Some tool) =>
      query_response <- call llm ;;
      let tool_input := PyStr.strip query_response in
      r <- call (fun n => Registry.execute tool n tool_input) ;;
      match r with
      | Registry.Raised msg => ret (failed_with task ("Execution error: " ++ msg))
      | Registry.Replied d =>
          if get_default true (Registry.success d)
          then ret (completed_with task
                      (get_default (Registry.shown d) (Registry.reply_result d)))
          else ret (failed_with task
                      (get_default "Tool execution failed" (Registry.reply_error d)))
      end
  end.

End WithCollaborators.
End ToolAgent.

(** ** The reflection agent ([src/agents/reflection_agent.py]) *)
Module ReflectionAgent.
Section WithCollaborators.

Variable llm : nat -> string.

Definition nonempty {A} (l : list A) : bool :=
  match l with [] => false | _ => true end.

(** [ReflectionAgent.should_refine_plan] *)
Definition should_refine_plan (state : WorkflowState) : M bool :=
  let completed_tasks := with_status "completed" (tasks state) in
  let failed_tasks := with_status "failed" (tasks state) in
  let pending_tasks := with_status "pending" (tasks state) in
  if (3 <=? iteration_count state)%Z then ret false
  else if nonempty failed_tasks && (iteration_count state <? 2)%Z then ret true
  else if negb (nonempty completed_tasks) && negb (nonempty pending_tasks)
          && (iteration_count state <? 1)%Z then ret true
  else if nonempty completed_tasks then
    response <- call llm ;;
    ret (PyStr.contains "no" (PyStr.lower response))
  else ret false.

(** The dictionaries [suggest_refinements] returns, by their [action]
    key. *)
Inductive refinement : Type :=
| Modify (task_id : Z) (new_description : string) (new_tool : json_value)
| Add (description : string) (tool : string).

(** [for task in failed_tasks]: one LLM call per failed task. *)
Fixpoint modify_failed (failed_tasks : list Task) : M (list refinement) :=
  match failed_tasks with
  | [] => ret []
  | task :: rest =>
      response <- call llm ;;
      refinements <- modify_failed rest ;;
      ret (Modify (id task) (PyStr.strip response) (tool_used task) :: refinements)
  end.

(** [ReflectionAgent.suggest_refinements] *)
Definition suggest_refinements (state : WorkflowState) : M (list refinement) :=
  let failed_tasks := with_status "failed" (tasks state) in
  let completed_tasks := with_status "completed" (tasks state) in
  refinements <- modify_failed failed_tasks ;;
  if negb (nonempty completed_tasks) then
    response <- call llm ;;
    if PyStr.contains "|" response then
      match PyStr.split "|"%char (PyStr.strip response) with
      | [d; t] => ret (refinements ++ [Add (PyStr.strip d) (PyStr.strip t)])%list
      | _ => ret refinements
      end
    else ret refinements
  else ret refinements.

End WithCollaborators.
End ReflectionAgent.

(** ** The workflow graph ([src/workflows/agentic_workflow.py]) *)
Module Workflow.
Section WithCollaborators.

Variable llm : nat -> string.
Variable json_loads : string -> option json_value.
(** What the three registered tools answer. *)
Variables web_search calculator weather : nat -> string -> Registry.tool_outcome.

Definition WebSearchTool : Registry.BaseTool :=
  Registry.mkTool "web_search"
    "Search the web for information using Tavily API" web_search.
Definition CalculatorTool : Registry.BaseTool :=
  Registry.mkTool "calculator"
    "Perform mathematical calculations and arithmetic operations" calculator.
Definition WeatherTool : Registry.BaseTool :=
  Registry.mkTool "weather"
    "Get current weather information for a specified location" weather.

(** The registry [create_workflow] builds. *)
Definition tool_registry : Registry.ToolRegistry :=
  Registry.register_tool
    (Registry.register_tool
       (Registry.register_tool Registry.empty WebSearchTool)
       CalculatorTool)
    WeatherTool.

(** Truth value of [state.get(key, False)]. *)
Definition truthy (o : option bool) : bool :=
  match o with Some b => b | None => false end.

(** [plan_node] *)
Definition plan_node (state : WorkflowState) : M WorkflowState :=
  if negb (ReflectionAgent.nonempty (tasks state)) || truthy (needs_replan state)
  then
    let available_tools := Registry.list_tools tool_registry in
    new_tasks <- PlanAgent.plan llm json_loads state available_tools ;;
    ret (set_needs_replan (set_tasks state new_tasks) (Some false))
  else ret state.

(** The loop of [execute_node]: the first pending task is executed and
    its [status], [result] and [error] are written back. *)
Fixpoint execute_first (ts : list Task) : M (list Task) :=
  match ts with
  | [] => ret []
  | task :: rest =>
      if String.eqb (status task) "pending" then
        executed_task <- ToolAgent.execute_task llm tool_registry task ;;
        ret (mkTask (id task) (description task) (status executed_task)
                    (tool_used task) (result executed_task)
                    (error executed_task) :: rest)
      else
        rest' <- execute_first rest ;;
        ret (task :: rest')
  end.

(** [execute_node] *)
Definition execute_node (state : WorkflowState) : M WorkflowState :=
  ts <- execute_first (tasks state) ;;
  ret (set_tasks state ts).

(** The inner loop of the [modify] action: the first task whose id is
    [task_id]. *)
Fixpoint modify_first (task_id : Z) (new_description : string)
         (ts : list Task) : list Task :=
  match ts with
  | [] => []
  | task :: rest =>
      if (id task =? task_id)%Z then
        mkTask (id task) (JStr new_description) "pending" (tool_used task)
               (result task) None :: rest
      else task :: modify_first task_id new_description rest
  end.

(** One turn of [for refinement in refinements]. *)
Definition apply_refinement (ts : list Task)
           (refinement : ReflectionAgent.refinement) : list Task :=
  match refinement with
  | ReflectionAgent.Modify task_id new_description _ =>
      modify_first task_id new_description ts
  | ReflectionAgent.Add d tool =>
      (ts ++ [mkTask (Z.of_nat (List.length ts) + 1) (JStr d) "pending"
                     (JStr tool) None None])%list
  end.

(** [reflect_node] *)
Definition reflect_node (state : WorkflowState) : M WorkflowState :=
  needs_refinement <- ReflectionAgent.should_refine_plan llm state ;;
  if needs_refinement && (iteration_count state <? 3)%Z then
    refinements <- ReflectionAgent.suggest_refinements llm state ;;
    let ts := fold_left apply_refinement refinements (tasks state) in
    ret (set_should_continue
           (set_iteration_count (set_tasks state ts) (iteration_count state + 1))
           (Some true))
  else ret (set_should_continue state (Some false)).

Definition apology : string :=
  "I apologize, but I wasn't able to complete any tasks to answer your query. Please try rephrasing your question or check if the required tools are available.".

(** [finalize_node] *)
Definition finalize_node (state : WorkflowState) : M WorkflowState :=
  let completed_tasks := with_status "completed" (tasks state) in
  if ReflectionAgent.nonempty completed_tasks then
    answer <- call llm ;;
    ret (set_final_answer state (Some answer))
  else ret (set_final_answer state (Some apology)).

(** [should_continue]: the routing function of both conditional
    edges. *)
Definition should_continue (state : WorkflowState) : string :=
  let pending_tasks := with_status "pending" (tasks state) in
  if ReflectionAgent.nonempty pending_tasks then "execute"
  else if truthy (State.should_continue state) then "reflect"
  else "finalize".

(** The stages of the graph; [DONE] is langgraph's [END]. *)
Inductive node : Type := PLAN | EXECUTE | REFLECT | FINALIZE | DONE.

Definition node_eq_dec (a b : node) : {a = b} + {a <> b}.
Proof. decide equality. Defined.

(** The path map given to [add_conditional_edges] for [execute]. *)
Definition execute_edges : Dict.dict node :=
  [("execute", EXECUTE); ("reflect", REFLECT); ("finalize", FINALIZE)].

(** The path map given to [add_conditional_edges] for [reflect]. *)
Definition reflect_edges : Dict.dict node :=
  [("execute", PLAN); ("finalize", FINALIZE)].

(** A conditional edge: the routing result is looked up in the path
    map, and a result that is not a key of it raises [KeyError]. *)
Definition branch (edges : Dict.dict node) (state : WorkflowState)
  : M node :=
  match Dict.get edges (should_continue state) with
  | Some n => ret n
  | None => raise (KeyError (should_continue state))
  end.

(** One stage of the compiled graph and the edge out of it. *)
Definition step (n : node) (state : WorkflowState) : M (node * WorkflowState) :=
  match n with
  | PLAN => s <- plan_node state ;; ret (EXECUTE, s)
  | EXECUTE => s <- execute_node state ;; n' <- branch execute_edges s ;; ret (n', s)
  | REFLECT => s <- reflect_node state ;; n' <- branch reflect_edges s ;; ret (n', s)
  | FINALIZE => s <- finalize_node state ;; ret (DONE, s)
  | DONE => ret (DONE, state)
  end.

(** The graph run for at most [fuel] stages; [None] when the fuel ran
    out before [DONE].  langgraph bounds the number of stages as well
    (its recursion limit, which [src/app.py] leaves at the default) and
    raises [GraphRecursionError] beyond it: of the program, [fuel] is
    that bound and [None] that error. *)
Fixpoint run (fuel : nat) (n : node) (state : WorkflowState)
  : M (option WorkflowState) :=
  match n with
  | DONE => ret (Some state)
  | _ =>
      match fuel with
      | O => ret None
      | S fuel' =>
          ns <- step n state ;;
          run fuel' (fst ns) (snd ns)
      end
  end.

(** The configuration after [k] more stages. *)
Fixpoint advance (k : nat) (n : node) (state : WorkflowState)
  : M (node * WorkflowState) :=
  match k with
  | O => ret (n, state)
  | S k' => ns <- step n state ;; advance k' (fst ns) (snd ns)
  end.

(** [workflow.invoke(initial_state)] *)
Definition invoke (fuel : nat) (query : string) : outcome (option WorkflowState * nat) :=
  run fuel PLAN (initial_state query) 0.

(** The configurations a run from the initial state passes through:
    the stage about to run, the state, and the number of external calls
    made. *)
Inductive reachable (query : string) : node -> WorkflowState -> nat -> Prop :=
| reach_init : reachable query PLAN (initial_state query) 0
| reach_step n s c n' s' c' :
    reachable query n s c ->
    step n s c = Ok ((n', s'), c') ->
    reachable query n' s' c'.

End WithCollaborators.
End Workflow.

(** ** Concrete collaborators for the scenarios below *)
Module Scenario.
Import Registry.

(** The double-quote character of a JSON text. *)
Definition dq : string := String (ascii_of_nat 34) EmptyString.

(** The JSON text of one planner entry. *)
Definition entry (d t : string) : string :=
  "{" ++ dq ++ "description" ++ dq ++ ": " ++ dq ++ d ++ dq ++ ", "
      ++ dq ++ "tool" ++ dq ++ ": " ++ dq ++ t ++ dq ++ "}".

(** The parsed value of one planner entry. *)
Definition entry_value (d t : string) : json_value :=
  JObj [("description", JStr d); ("tool", JStr t)].

(** A [json.loads] known on the listed texts; every other text is a
    decode error. *)
Definition loads_table (tbl : Dict.dict json_value) (text : string)
  : option json_value := Dict.get tbl text.

(** A tool that succeeds with result [r]. *)
Definition succeeds (r : string) (_ : nat) (_ : string) : tool_outcome :=
  Replied (mkReply (Some true) (Some r) None EmptyString).

(** A tool whose call raises. *)
Definition offline (_ : nat) (_ : string) : tool_outcome :=
  Raised "offline".

Definition query : string := "What is 15% tip on $67?".

(** Scenario A of the specification, with the adequacy question
    answered in the negative: one calculator task that succeeds. *)
Definition plan_one : string := "[" ++ entry "67 * 0.15" "calculator" ++ "]".

Definition loads_one : string -> option json_value :=
  loads_table [(plan_one, JArr [entry_value "67 * 0.15" "calculator"])].

Definition llm_one (n : nat) : string :=
  match n with
  | 0 => "```json" ++ plan_one ++ "```"
  | 1 => "67 * 0.15"
  | 3 => "no"
  | _ => EmptyString
  end%nat.

(** A planner array whose first entry is not a task. *)
Definition plan_gap : string := "[1, " ++ entry "67 * 0.15" "calculator" ++ "]".

Definition loads_gap : string -> option json_value :=
  loads_table [(plan_gap, JArr [JInt 1; entry_value "67 * 0.15" "calculator"])].

(** The first input extracted for the calculator holds letters, which
    the calculator refuses; the second is an expression it computes.
    The reflection adds a task for a tool that is not registered. *)
Definition llm_gap (n : nat) : string :=
  match n with
  | 0 => plan_gap
  | 1 => "15% of 67"
  | 3 => "compute 67 * 0.15"
  | 4 => "translate the answer|translate"
  | 5 => "67 * 0.15"
  | 7 => "say it in plain words"
  | _ => EmptyString
  end%nat.

(** A planner entry whose [tool] is a JSON array. *)
Definition plan_list : string :=
  "[{" ++ dq ++ "description" ++ dq ++ ": " ++ dq ++ "67 * 0.15" ++ dq ++ ", "
       ++ dq ++ "tool" ++ dq ++ ": [" ++ dq ++ "calculator" ++ dq ++ "]}]".

Definition loads_list : string -> option json_value :=
  loads_table
    [(plan_list,
      JArr [JObj [("description", JStr "67 * 0.15");
                  ("tool", JArr [JStr "calculator"])]])].

Definition llm_list (n : nat) : string :=
  match n with
  | 0 => plan_list
  | _ => EmptyString
  end%nat.

(** The task planned from [plan_list], and the state the execute stage
    receives it in. *)
Definition list_task : Task :=
  mkTask 1 (JStr "67 * 0.15") "pending" (JArr [JStr "calculator"]) None None.

Definition list_planned : WorkflowState :=
  mkState query [list_task] None 0%Z None (Some true) [] (Some false).

(** A planner that answers the JSON number 5. *)
Definition loads_five : string -> option json_value :=
  loads_table [("5", JInt 5)].

Definition llm_five (_ : nat) : string := "5".

(** A reflection LLM that proposes a retry. *)
Definition llm_retry (_ : nat) : string := "retry|web_search".

(** A state with one failed task, before any reflection. *)
Definition one_failed : WorkflowState :=
  mkState query
    [mkTask 1 (JStr "translate it") "failed" (JStr "translate") None
            (Some "Tool 'translate' not available")]
    None 0%Z None (Some true) [] None.

(** A state with one completed task. *)
Definition one_completed : WorkflowState :=
  mkState query
    [mkTask 1 (JStr "67 * 0.15") "completed" (JStr "calculator")
            (Some "10.05") None]
    None 3%Z None (Some false) [] (Some false).

(** Scenario A after its execute stage, about to reflect. *)
Definition before_reflection : WorkflowState :=
  mkState query
    [mkTask 1 (JStr "67 * 0.15") "completed" (JStr "calculator")
            (Some "10.05") None]
    None 0%Z None (Some true) [] (Some false).

(** Scenario A after the reflect stage: nothing to refine, nothing
    pending, and [should_continue] true. *)
Definition after_reflection : WorkflowState :=
  mkState query
    [mkTask 1 (JStr "67 * 0.15") "completed" (JStr "calculator")
            (Some "10.05") None]
    None 1%Z None (Some true) [] (Some false).

(** The run on [plan_gap] after its second reflect stage: the task
    that had completed is pending again and still holds its result. *)
Definition after_second_reflection : WorkflowState :=
  mkState query
    [mkTask 2 (JStr "say it in plain words") "pending" (JStr "calculator")
            (Some "10.05") None;
     mkTask 2 (JStr "translate the answer") "failed" (JStr "translate")
            None (Some "Tool 'translate' not available")]
    None 2%Z None (Some true) [] (Some false).

End Scenario.

(** ** The task field invariant, as the specification words it *)

(** [status = pending] implies no result and no error; [completed]
    implies a result and no error; [failed] implies an error and no
    result. *)
Definition task_invariant (t : Task) : Prop :=
  (status t = "pending" -> result t = None /\ error t = None) /\
  (status t = "completed" -> result t <> None /\ error t = None) /\
  (status t = "failed" -> error t <> None /\ result t = None).

(** ** The measure of the loop *)

Definition pending_count (ts : list Task) : nat :=
  List.length (with_status "pending" ts).

(** The stages in the order the graph leaves them within one cycle. *)
Definition rank (n : Workflow.node) : nat :=
  match n with
  | Workflow.PLAN => 4
  | Workflow.EXECUTE => 3
  | Workflow.REFLECT => 2
  | Workflow.FINALIZE => 1
  | Workflow.DONE => 0
  end.

(** The reflect stages still ahead: one plus what is left of the
    iteration ceiling while the loop may still reflect, none once
    [should_continue] is off. *)
Definition budget (n : Workflow.node) (s : WorkflowState) : nat :=
  match n with
  | Workflow.REFLECT => 1 + Z.to_nat (3 - iteration_count s)
  | _ => if Workflow.truthy (State.should_continue s)
         then 1 + Z.to_nat (3 - iteration_count s) else 0
  end.

(** Lexicographic order on (budget, rank, pending tasks). *)
Definition lex_lt (x y : nat * nat * nat) : Prop :=
  let '(a', b', p') := x in
  let '(a, b, p) := y in
  a' < a \/ (a' = a /\ (b' < b \/ (b' = b /\ p' < p))).

Definition measure (n : Workflow.node) (s : WorkflowState) : nat * nat * nat :=
  (budget n s, rank n, pending_count (tasks s)).

(** A run that has ended: with a final state or with an exception. *)
Definition ended {A} (r : outcome (option A * nat)) : Prop :=
  match r with
  | Ok (None, _) => False
  | _ => True
  end.

(** Ids that count up from 1 along the list: what [len(tasks) + 1]
    relies on when reflection adds a task. *)
Definition consecutive_ids (ts : list Task) : Prop :=
  map id ts = map Z.of_nat (seq 1 (List.length ts)).

(** A task as planning and the [add] action create it. *)
Definition fresh (t : Task) : Prop :=
  status t = "pending" /\ result t = None /\ error t = None.

(** The [modify] refinements name tasks of [targets] only. *)
Definition aims_at (targets : list Z) (r : ReflectionAgent.refinement) : Prop :=
  match r with
  | ReflectionAgent.Modify task_id _ _ => In task_id targets
  | ReflectionAgent.Add _ _ => True
  end.

(** ** What a refinement may do to a task list *)

Definition is_add (r : ReflectionAgent.refinement) : bool :=
  match r with
  | ReflectionAgent.Add _ _ => true
  | ReflectionAgent.Modify _ _ _ => false
  end.

(** A task after refinements: same id, tool and result; either
    untouched, or pending again with its error cleared. *)
Definition kept (t t' : Task) : Prop :=
  id t' = id t /\ tool_used t' = tool_used t /\ result t' = result t /\
  (t' = t \/ (status t' = "pending" /\ error t' = None)).

(** Every task of [ts] is still at its position in [ts']. *)
Definition extends (ts ts' : list Task) : Prop :=
  forall k t, nth_error ts k = Some t ->
              exists t', nth_error ts' k = Some t' /\ kept t t'.

(** The three values the code writes into [status]. *)
Definition valid_status (t : Task) : Prop :=
  status t = "pending" \/ status t = "completed" \/ status t = "failed".

Definition no_pending (s : WorkflowState) : Prop :=
  forall t, In t (tasks s) -> status t <> "pending".

Definition has_pending (ts : list Task) : Prop :=
  exists t, In t ts /\ status t = "pending".

(** An entry of the planner's array that [plan] turns into a task. *)
Definition valid_entry (v : json_value) : Prop :=
  exists members d t,
    v = JObj members /\
    Dict.get members "description" = Some d /\
    Dict.get members "tool" = Some t.

(** ** The tools ([src/tools/web_search.py], [src/tools/calculator.py]) *)

(** The dictionaries these tools return: [{"success": True, "result":
    r}] or [{"success": False, "error": e}]. *)
Inductive tool_dict : Type :=
| Succeeded (r : string)
| Failed (e : string).

(** The dictionary as [ToolAgent] reads it; [shown] is [str()] of it,
    which is read only of a dictionary without the key [result]. *)
Definition to_reply (shown : string) (d : tool_dict) : Registry.reply :=
  match d with
  | Succeeded r => Registry.mkReply (Some true) (Some r) None shown
  | Failed e => Registry.mkReply (Some false) None (Some e) shown
  end.

Module WebSearch.

(** One entry of [response["results"]]: the keys [title], [content]
    and [url], each possibly missing. *)
Record hit : Type := mkHit {
  title : option string;
  content : option string;
  url : option string
}.

(** What [self.client.search] does: it raises, or returns a response
    that is empty or has no key [results], or one that has the key. *)
Inductive search_response : Type :=
| SearchRaised (msg : string)
| NoResults
| Results (hits : list hit).

Definition get_or (default : string) (o : option string) : string :=
  match o with Some v => v | None => default end.

(** The text built for one result. *)
Definition format_hit (h : hit) : string :=
  "Title: " ++ get_or "N/A" (title h) ++ PyStr.nl
  ++ "Content: " ++ String.substring 0 200 (get_or "N/A" (content h)) ++ "..."
  ++ PyStr.nl
  ++ "URL: " ++ get_or "N/A" (url h).

(** [WebSearchTool.execute], given what the search client answers. *)
Definition execute (search : string -> search_response) (query : string)
  : tool_dict :=
  match search query with
  | SearchRaised msg => Failed ("Search failed: " ++ msg)
  | NoResults => Failed "No search results found"
  | Results hits =>
      Succeeded (PyStr.join (PyStr.nl ++ PyStr.nl) (map format_hit (firstn 3 hits)))
  end.

End WebSearch.

Module Calculator.

(** [str(math.pi)] and [str(math.e)] *)
Definition pi_text : string := "3.141592653589793".
Definition e_text : string := "2.718281828459045".

(** The head of [execute]: strip, then the replacements of "pi", "e"
    and "^".  The first replacement of the source looks for a
    two-character text whose second character is U+20AC; no text of
    this model holds it, so it changes nothing. *)
Definition prepare (expression : string) : string :=
  let expression := PyStr.strip expression in
  let expression := PyStr.replace2 "p" "i" pi_text expression in
  let expression := PyStr.replace1 "e" e_text expression in
  PyStr.replace1 "^" "**" expression.

(** The test that opens the rewriting of priced expressions. *)
Definition price_words (clean_exp : string) : bool :=
  PyStr.contains "flight" (PyStr.lower clean_exp)
  || PyStr.contains "tax" (PyStr.lower clean_exp)
  || PyStr.contains "fee" (PyStr.lower clean_exp)
  || PyStr.contains "price" (PyStr.lower clean_exp).

(** A character of the class [[a-zA-Z_]]. *)
Definition is_ident (c : ascii) : bool :=
  let n := nat_of_ascii c in
  (((65 <=? n) && (n <=? 90)) || ((97 <=? n) && (n <=? 122)) || (n =? 95))%nat.

(** [re.search(r'[a-zA-Z_]', s)] finds something. *)
Fixpoint has_ident (s : string) : bool :=
  match s with
  | String c r => is_ident c || has_ident r
  | EmptyString => false
  end.

Definition invalid_characters : string :=
  "Invalid characters in expression. Only numbers, operators, and basic math functions are allowed.".

Section WithPython.

(** The expression the price branch builds from the numbers it finds
    with [re.findall] and formats as floats; [None] when it finds none
    and leaves the expression alone. *)
Variable price_expression : string -> option string.
(** [eval], the formatting of its value and the [except] clauses that
    follow. *)
Variable evaluate : string -> tool_dict.

(** [CalculatorTool.execute].  The [for] loop over the allowed function
    names has no [break], so its [else] clause runs whenever the loop is
    entered: an expression with a letter or an underscore is refused
    before [eval]. *)
Definition execute (expression : string) : tool_dict :=
  let expression := prepare expression in
  let clean_exp :=
    if price_words expression then
      match price_expression expression with
      | Some rewritten => rewritten
      | None => expression
      end
    else expression in
  if has_ident clean_exp then Failed invalid_characters
  else evaluate clean_exp.

End WithPython.

(** The calculator as the registry calls it: whatever happens inside
    [execute] is caught there, so a call always answers a dictionary. *)
Definition tool (price_expression : string -> option string)
           (evaluate : string -> tool_dict) (shown : string)
  : nat -> string -> Registry.tool_outcome :=
  fun _ expression =>
    Registry.Replied (to_reply shown (execute price_expression evaluate expression)).

End Calculator.

(** [eval] and the formatting of its value, known on the expression of
    the scenarios: [67 * 0.15] is the float 10.049999999999999, which
    [round(result, 8)] turns into 10.05.  No other text is evaluated in
    them. *)
Definition evaluate_tip (expression : string) : tool_dict :=
  if String.eqb expression "67 * 0.15" then Succeeded "10.05"
  else Failed "Invalid syntax in mathematical expression".

(** * Properties *)

(** ** Reasoning about computations *)

Lemma bind_ok {A B} (m : M A) (k : A -> M B) c b c' :
  bind m k c = Ok (b, c') ->
  exists a c1, m c = Ok (a, c1) /\ k a c1 = Ok (b, c').
Proof.
  unfold bind. destruct (m c) as [[a c1]|e]; intros H.
  - exists a, c1. split; [reflexivity | exact H].
  - discriminate H.
Qed.

Lemma ret_ok {A} (a b : A) c c' : ret a c = Ok (b, c') -> a = b /\ c = c'.
Proof. unfold ret. intros H. inversion H. split; reflexivity. Qed.

Lemma call_ok {A} (oracle : nat -> A) c a c' :
  call oracle c = Ok (a, c') -> a = oracle c /\ c' = S c.
Proof. unfold call. intros H. inversion H. split; reflexivity. Qed.

(** Takes a successful computation apart, one bind at a time. *)
Ltac unbind H :=
  repeat match type of H with
    | bind _ _ _ = Ok _ =>
        let a := fresh "a" in let c := fresh "c" in
        let H1 := fresh "Hm" in
        apply bind_ok in H; destruct H as (a & c & H1 & H)
    end.

Lemma nonempty_with_status st ts :
  ReflectionAgent.nonempty (with_status st ts) = true <->
  exists t, In t ts /\ status t = st.
Proof.
  unfold with_status. split.
  - intros H. destruct (filter _ ts) as [|t l] eqn:E; [discriminate H|].
    assert (Hin : In t (filter (fun t => String.eqb (status t) st) ts))
      by (rewrite E; left; reflexivity).
    apply filter_In in Hin. destruct Hin as [Hin Hst].
    exists t. split; [exact Hin | apply String.eqb_eq; exact Hst].
  - intros (t & Hin & Hst).
    assert (Hf : In t (filter (fun t => String.eqb (status t) st) ts)).
    { apply filter_In. split; [exact Hin | apply String.eqb_eq; exact Hst]. }
    destruct (filter _ ts); [destruct Hf | reflexivity].
Qed.

Lemma empty_with_status st ts :
  ReflectionAgent.nonempty (with_status st ts) = false <->
  ~ exists t, In t ts /\ status t = st.
Proof.
  rewrite <- nonempty_with_status.
  destruct (ReflectionAgent.nonempty _); split; intros H;
    try reflexivity; try discriminate; try (intros H'; discriminate H').
  exfalso. apply H. reflexivity.
Qed.

(** ** Routing *)

(** C4. The routing function answers "execute" exactly when some task is
    pending; otherwise "reflect" exactly when [should_continue] is true;
    otherwise "finalize". *)
Theorem should_continue_routes (state : WorkflowState) :
  let pending := exists t, In t (tasks state) /\ status t = "pending" in
  (Workflow.should_continue state = "execute" <-> pending) /\
  (Workflow.should_continue state = "reflect" <->
     ~ pending /\ State.should_continue state = Some true) /\
  (Workflow.should_continue state = "finalize" <->
     ~ pending /\ State.should_continue state <> Some true).
Proof.
  cbv zeta. unfold Workflow.should_continue.
  destruct (ReflectionAgent.nonempty (with_status "pending" (tasks state))) eqn:E.
  - apply nonempty_with_status in E.
    split; [split; [intros _; exact E | reflexivity] |].
    split; (split; [intros H; discriminate H | intros [Hn _]; contradiction]).
  - apply empty_with_status in E.
    destruct (State.should_continue state) as [[|]|]; cbn;
      (split; [split; [intros H; discriminate H | intros Hp; contradiction] |]).
    + split; [split; [intros _; split; [exact E | reflexivity] | reflexivity] |].
      split; [intros H; discriminate H | intros [_ Hf]; congruence].
    + split; [split; [intros H; discriminate H | intros [_ Hf]; discriminate Hf] |].
      split; [intros _; split; [exact E | discriminate] | reflexivity].
    + split; [split; [intros H; discriminate H | intros [_ Hf]; discriminate Hf] |].
      split; [intros _; split; [exact E | discriminate] | reflexivity].
Qed.

(** ** Where the two conditional edges lead *)

(** After an execute stage the graph follows the routing result: to
    EXECUTE, REFLECT or FINALIZE. *)
Lemma execute_stage_routes llm json_loads web_search calculator weather
      s c n' s' c' :
  Workflow.step llm json_loads web_search calculator weather
                Workflow.EXECUTE s c = Ok ((n', s'), c') ->
  (Workflow.should_continue s' = "execute" /\ n' = Workflow.EXECUTE) \/
  (Workflow.should_continue s' = "reflect" /\ n' = Workflow.REFLECT) \/
  (Workflow.should_continue s' = "finalize" /\ n' = Workflow.FINALIZE).
Proof.
  intros H. unfold Workflow.step in H. unbind H.
  apply ret_ok in H. destruct H as [H _]. inversion H; subst; clear H.
  unfold Workflow.branch in Hm0. revert Hm0.
  unfold Workflow.should_continue.
  destruct (ReflectionAgent.nonempty _); [| destruct (Workflow.truthy _)];
    cbn; intros Hb; apply ret_ok in Hb; destruct Hb as [<- _]; auto.
Qed.

(** After a reflect stage that does not raise, the graph goes back to
    PLAN when a task is pending and to FINALIZE otherwise. *)
Lemma reflect_stage_routes llm json_loads web_search calculator weather
      s c n' s' c' :
  Workflow.step llm json_loads web_search calculator weather
                Workflow.REFLECT s c = Ok ((n', s'), c') ->
  (Workflow.should_continue s' = "execute" /\ n' = Workflow.PLAN) \/
  (Workflow.should_continue s' = "finalize" /\ n' = Workflow.FINALIZE).
Proof.
  intros H. unfold Workflow.step in H. unbind H.
  apply ret_ok in H. destruct H as [H _]. inversion H; subst; clear H.
  unfold Workflow.branch in Hm0. revert Hm0.
  unfold Workflow.should_continue.
  destruct (ReflectionAgent.nonempty _); [| destruct (Workflow.truthy _)];
    cbn; intros Hb; try discriminate Hb;
    apply ret_ok in Hb; destruct Hb as [<- _]; auto.
Qed.

(** ** The stages, one at a time *)
Section Stages.

Variable llm : nat -> string.
Variable json_loads : string -> option json_value.
Variables web_search calculator weather : nat -> string -> Registry.tool_outcome.

Local Abbreviation plan_node := (Workflow.plan_node llm json_loads web_search calculator weather).
Local Abbreviation execute_node := (Workflow.execute_node llm web_search calculator weather).
Local Abbreviation reflect_node := (Workflow.reflect_node llm).
Local Abbreviation finalize_node := (Workflow.finalize_node llm).
Local Abbreviation step := (Workflow.step llm json_loads web_search calculator weather).
Local Abbreviation reachable := (Workflow.reachable llm json_loads web_search calculator weather).

(** C10. With a non-empty task list and [needs_replan] false or
    absent, the plan step returns the state as it is and makes no
    external call; the graph moves on to EXECUTE. *)
Theorem plan_node_frame (state : WorkflowState) (c : nat) :
  tasks state <> [] ->
  needs_replan state = Some false \/ needs_replan state = None ->
  plan_node state c = Ok (state, c) /\
  step Workflow.PLAN state c = Ok ((Workflow.EXECUTE, state), c).
Proof.
  intros Hne Hflag.
  assert (Hp : plan_node state c = Ok (state, c)).
  { unfold Workflow.plan_node.
    destruct (tasks state) as [|t ts]; [contradiction|].
    destruct Hflag as [-> | ->]; reflexivity. }
  split; [exact Hp|].
  unfold Workflow.step, bind. rewrite Hp. reflexivity.
Qed.

(** C9. Without a completed task the finalize step stores the fixed
    apology in [final_answer] and makes no external call; with one it
    makes exactly one LLM call and stores the text it returns as it is.
    No other field of the state changes. *)
Theorem finalize_node_answer (state : WorkflowState) (c : nat) :
  ((forall t, In t (tasks state) -> status t <> "completed") ->
   exists s',
     finalize_node state c = Ok (s', c) /\
     final_answer s' =
       Some "I apologize, but I wasn't able to complete any tasks to answer your query. Please try rephrasing your question or check if the required tools are available." /\
     s' = mkState (original_query state) (tasks state) (current_task_id state)
                  (iteration_count state) (final_answer s')
                  (State.should_continue state) (feedback state)
                  (needs_replan state)) /\
  ((exists t, In t (tasks state) /\ status t = "completed") ->
   exists s',
     finalize_node state c = Ok (s', S c) /\
     final_answer s' = Some (llm c) /\
     s' = mkState (original_query state) (tasks state) (current_task_id state)
                  (iteration_count state) (final_answer s')
                  (State.should_continue state) (feedback state)
                  (needs_replan state)).
Proof.
  unfold Workflow.finalize_node. split.
  - intros Hnone.
    assert (E : ReflectionAgent.nonempty (with_status "completed" (tasks state)) = false).
    { apply empty_with_status. intros (t & Hin & Hst). exact (Hnone t Hin Hst). }
    rewrite E. eexists. split; [reflexivity|]. split; reflexivity.
  - intros Hsome. apply nonempty_with_status in Hsome. rewrite Hsome.
    eexists. split; [reflexivity|]. split; reflexivity.
Qed.

(** The reflect step increments [iteration_count] by one when it saw
    it below 3 and leaves it alone otherwise. *)
Lemma reflect_node_iteration state c s' c' :
  reflect_node state c = Ok (s', c') ->
  iteration_count s' = iteration_count state \/
  ((iteration_count state < 3)%Z /\
   iteration_count s' = (iteration_count state + 1)%Z).
Proof.
  unfold Workflow.reflect_node. intros H. unbind H.
  destruct (a && (iteration_count state <? 3)%Z) eqn:E.
  - unbind H. apply ret_ok in H. destruct H as [<- _].
    right. apply andb_true_iff in E. destruct E as [_ E].
    apply Z.ltb_lt in E. split; [exact E | reflexivity].
  - apply ret_ok in H. destruct H as [<- _]. left. reflexivity.
Qed.

Lemma reflect_node_needs_replan state c s' c' :
  reflect_node state c = Ok (s', c') -> needs_replan s' = needs_replan state.
Proof.
  unfold Workflow.reflect_node. intros H. unbind H.
  destruct (a && (iteration_count state <? 3)%Z).
  - unbind H. apply ret_ok in H. destruct H as [<- _]. reflexivity.
  - apply ret_ok in H. destruct H as [<- _]. reflexivity.
Qed.

Lemma plan_node_fields state c s' c' :
  plan_node state c = Ok (s', c') ->
  iteration_count s' = iteration_count state /\
  (needs_replan s' = needs_replan state \/ needs_replan s' = Some false).
Proof.
  unfold Workflow.plan_node. intros H.
  destruct (negb _ || _).
  - unbind H. apply ret_ok in H. destruct H as [<- _].
    split; [reflexivity | right; reflexivity].
  - apply ret_ok in H. destruct H as [<- _].
    split; [reflexivity | left; reflexivity].
Qed.

Lemma execute_node_fields state c s' c' :
  execute_node state c = Ok (s', c') ->
  iteration_count s' = iteration_count state /\
  needs_replan s' = needs_replan state.
Proof.
  unfold Workflow.execute_node. intros H. unbind H.
  apply ret_ok in H. destruct H as [<- _]. split; reflexivity.
Qed.

Lemma finalize_node_fields state c s' c' :
  finalize_node state c = Ok (s', c') ->
  iteration_count s' = iteration_count state /\
  needs_replan s' = needs_replan state.
Proof.
  unfold Workflow.finalize_node. intros H.
  destruct (ReflectionAgent.nonempty _).
  - unbind H. apply ret_ok in H. destruct H as [<- _]. split; reflexivity.
  - apply ret_ok in H. destruct H as [<- _]. split; reflexivity.
Qed.

(** What one stage of the graph does to the two counters of the loop. *)
Lemma step_fields n state c n' s' c' :
  step n state c = Ok ((n', s'), c') ->
  (iteration_count s' = iteration_count state \/
   (n = Workflow.REFLECT /\ (iteration_count state < 3)%Z /\
    iteration_count s' = (iteration_count state + 1)%Z)) /\
  (needs_replan s' = needs_replan state \/ needs_replan s' = Some false).
Proof.
  unfold Workflow.step. intros H. destruct n; unbind H;
    apply ret_ok in H; destruct H as [H _]; inversion H; subst; clear H.
  - apply plan_node_fields in Hm. destruct Hm as [Hi Hr].
    split; [left; exact Hi | exact Hr].
  - apply execute_node_fields in Hm. destruct Hm as [Hi Hr].
    split; left; assumption.
  - pose proof (reflect_node_needs_replan _ _ _ _ Hm) as Hr.
    apply reflect_node_iteration in Hm.
    split; [| left; exact Hr].
    destruct Hm as [Hi | [Hlt Hi]]; [left; exact Hi | right; auto].
  - apply finalize_node_fields in Hm. destruct Hm as [Hi Hr].
    split; left; assumption.
  - split; left; reflexivity.
Qed.

(** C2. [should_refine_plan] answers false, without asking the LLM,
    whenever [iteration_count >= 3]; every stage leaves
    [iteration_count] as it is except a reflect stage that saw it below
    3, which adds one; so it stays within 0..3 throughout a run. *)
Theorem iteration_ceiling :
  (forall state c, (3 <= iteration_count state)%Z ->
     ReflectionAgent.should_refine_plan llm state c = Ok (false, c)) /\
  (forall n state c n' s' c', step n state c = Ok ((n', s'), c') ->
     iteration_count s' = iteration_count state \/
     (n = Workflow.REFLECT /\ (iteration_count state < 3)%Z /\
      iteration_count s' = (iteration_count state + 1)%Z)) /\
  (forall query n state c, reachable query n state c ->
     (0 <= iteration_count state <= 3)%Z).
Proof.
  split; [| split].
  - intros state c H. unfold ReflectionAgent.should_refine_plan.
    apply Z.leb_le in H. rewrite H. reflexivity.
  - intros n state c n' s' c' H. apply step_fields in H. tauto.
  - intros query n state c H. induction H as [|n s c n' s' c' _ IH Hs].
    + cbn. lia.
    + apply step_fields in Hs. destruct Hs as [[Hi | (_ & Hlt & Hi)] _]; lia.
Qed.

End Stages.

(** ** Runs *)

Lemma reachable_advance llm json_loads web_search calculator weather query k :
  forall n s c n' s' c',
    Workflow.reachable llm json_loads web_search calculator weather query n s c ->
    Workflow.advance llm json_loads web_search calculator weather k n s c
      = Ok ((n', s'), c') ->
    Workflow.reachable llm json_loads web_search calculator weather query n' s' c'.
Proof.
  induction k as [|k IH]; intros n s c n' s' c' Hr Ha.
  - apply ret_ok in Ha. destruct Ha as [Ha <-]. inversion Ha; subst. exact Hr.
  - cbn [Workflow.advance] in Ha. unbind Ha. destruct a as [n1 s1].
    apply (IH n1 s1 c0); [| exact Ha].
    eapply Workflow.reach_step; [exact Hr | exact Hm].
Qed.

(** ** Execution of a task whose tool does not resolve *)

(** The loop of the execute stage on a list whose first pending task
    fails before any external call. *)
Lemma execute_first_unresolved llm web_search calculator weather
      pre task post c msg :
  (forall t, In t pre -> status t <> "pending") ->
  status task = "pending" ->
  ToolAgent.execute_task llm
    (Workflow.tool_registry web_search calculator weather) task c =
    Ok (ToolAgent.failed_with task msg, c) ->
  Workflow.execute_first llm web_search calculator weather
    (pre ++ task :: post) c =
  Ok ((pre ++ ToolAgent.failed_with task msg :: post)%list, c).
Proof.
  intros Hpre Hst Hex. induction pre as [|p pre IH]; cbn [app Workflow.execute_first].
  - rewrite Hst. cbn [String.eqb Ascii.eqb Bool.eqb]. unfold bind.
    rewrite Hex. reflexivity.
  - destruct (String.eqb (status p) "pending") eqn:E.
    + apply String.eqb_eq in E. exfalso. apply (Hpre p); [left; reflexivity | exact E].
    + unfold bind at 1. rewrite IH; [reflexivity|].
      intros t Ht. apply Hpre. right. exact Ht.
Qed.

(** The routing result after an execute stage is always a key of its
    path map. *)
Lemma branch_execute_total state c :
  exists n, Workflow.branch Workflow.execute_edges state c = Ok (n, c).
Proof.
  unfold Workflow.branch, Workflow.should_continue.
  destruct (ReflectionAgent.nonempty _); [eexists; reflexivity|].
  destruct (Workflow.truthy _); eexists; reflexivity.
Qed.

(** What [execute_task] does when the registry gives no tool for
    [tool_used]: the lookup answers [None], or it raises because a list
    or a dict cannot be hashed, which the [except] clause catches. *)
Lemma execute_task_unresolved llm reg task c :
  (forall tool, Registry.get_tool reg (tool_used task) <> Ok (Some tool)) ->
  ToolAgent.execute_task llm reg task c =
    Ok (ToolAgent.failed_with task
          match tool_used task with
          | JArr _ => "Execution error: unhashable type: 'list'"
          | JObj _ => "Execution error: unhashable type: 'dict'"
          | v => "Tool '" ++ ToolAgent.py_str v ++ "' not available"
          end, c).
Proof.
  intros Hnone. unfold ToolAgent.execute_task.
  destruct (tool_used task) as [| b | z | f | k | items | members] eqn:Et;
    cbn [Registry.get_tool] in *; try reflexivity.
  destruct (Dict.get reg k) as [tool|] eqn:Eg; [| reflexivity].
  exfalso. exact (Hnone tool eq_refl).
Qed.

(** C8, as the specification states it, fails.  The planner may answer
    an entry whose [tool] is an array; the task planned from it reaches
    the execute stage, its [tool_used] resolves to no tool, and the
    error [execute_task] writes is not the "not available" text. *)
Lemma unhashable_tool_error_text :
  let registry :=
    Workflow.tool_registry Scenario.offline (Scenario.succeeds "10.05")
                           Scenario.offline in
  Workflow.reachable Scenario.llm_list Scenario.loads_list Scenario.offline
    (Scenario.succeeds "10.05") Scenario.offline Scenario.query
    Workflow.EXECUTE Scenario.list_planned 1 /\
  tasks Scenario.list_planned = [Scenario.list_task] /\
  status Scenario.list_task = "pending" /\
  (forall tool,
     Registry.get_tool registry (tool_used Scenario.list_task) <> Ok (Some tool)) /\
  exists t',
    ToolAgent.execute_task Scenario.llm_list registry Scenario.list_task 1
      = Ok (t', 1%nat) /\
    status t' = "failed" /\
    error t' = Some "Execution error: unhashable type: 'list'" /\
    forall shown, error t' <> Some ("Tool '" ++ shown ++ "' not available").
Proof.
  cbv zeta. split; [| split; [| split; [| split]]].
  - apply (reachable_advance _ _ _ _ _ _ 1 Workflow.PLAN
             (initial_state Scenario.query) 0%nat).
    + apply Workflow.reach_init.
    + vm_compute. reflexivity.
  - reflexivity.
  - reflexivity.
  - intros tool H. discriminate H.
  - eexists. split; [vm_compute; reflexivity|].
    split; [reflexivity|]. split; [reflexivity|].
    intros shown H. discriminate H.
Qed.

(** C8, amended.  A task whose [tool_used] does not resolve in the
    registry comes back from [execute_task] failed, its result as it
    was, with no external call made and no exception raised.  The error
    text is "Tool '<tool_used>' not available" when the lookup answers
    [None] (a string that is not registered, or [None], a number, a
    boolean), and "Execution error: unhashable type: ..." when
    [tool_used] is a list or a dict.  The execute stage then changes
    that task only and the graph moves on. *)
Theorem unresolved_tool_fails
        (llm : nat -> string) (json_loads : string -> option json_value)
        (web_search calculator weather : nat -> string -> Registry.tool_outcome) :
  (forall reg task c,
     (forall tool, Registry.get_tool reg (tool_used task) <> Ok (Some tool)) ->
     ToolAgent.execute_task llm reg task c =
       Ok (mkTask (id task) (description task) "failed" (tool_used task)
                  (result task)
                  (Some match tool_used task with
                        | JArr _ => "Execution error: unhashable type: 'list'"
                        | JObj _ => "Execution error: unhashable type: 'dict'"
                        | v => "Tool '" ++ ToolAgent.py_str v ++ "' not available"
                        end), c)) /\
  (forall reg task c k,
     tool_used task = JStr k ->
     Dict.get reg k = None ->
     ToolAgent.execute_task llm reg task c =
       Ok (mkTask (id task) (description task) "failed" (JStr k) (result task)
                  (Some ("Tool '" ++ k ++ "' not available")), c)) /\
  (forall state pre task post c,
     tasks state = (pre ++ task :: post)%list ->
     (forall t, In t pre -> status t <> "pending") ->
     status task = "pending" ->
     (forall tool,
        Registry.get_tool (Workflow.tool_registry web_search calculator weather)
                          (tool_used task) <> Ok (Some tool)) ->
     exists n',
       Workflow.step llm json_loads web_search calculator weather
                     Workflow.EXECUTE state c =
       Ok ((n',
            mkState (original_query state)
              (pre ++ mkTask (id task) (description task) "failed"
                        (tool_used task) (result task)
                        (Some match tool_used task with
                              | JArr _ => "Execution error: unhashable type: 'list'"
                              | JObj _ => "Execution error: unhashable type: 'dict'"
                              | v => ("Tool '" ++ ToolAgent.py_str v
                                        ++ "' not available")%string
                              end)
                   :: post)%list
              (current_task_id state) (iteration_count state)
              (final_answer state) (State.should_continue state)
              (feedback state) (needs_replan state)), c)).
Proof.
  split; [| split].
  - intros reg task c Hnone.
    exact (execute_task_unresolved llm reg task c Hnone).
  - intros reg task c k Hk Hget.
    rewrite (execute_task_unresolved llm reg task c).
    + unfold ToolAgent.failed_with. rewrite Hk. reflexivity.
    + intros tool. rewrite Hk. cbn [Registry.get_tool]. rewrite Hget. discriminate.
  - intros state pre task post c Hts Hpre Hst Hnone.
    unfold Workflow.step, Workflow.execute_node.
    unfold bind at 1. unfold bind at 1. rewrite Hts.
    rewrite (execute_first_unresolved llm web_search calculator weather
               pre task post c _ Hpre Hst
               (execute_task_unresolved llm _ task c Hnone)).
    cbn [ret]. unfold bind.
    match goal with
    | |- context [Workflow.branch _ ?s c] =>
        destruct (branch_execute_total s c) as [n Hn]; rewrite Hn
    end.
    exists n. reflexivity.
Qed.

(** ** The reflect stage and [needs_replan] *)

(** C6, as the specification states it, fails: from a state with one
    failed task and [iteration_count = 0] the reflect stage keeps
    iterating ([should_continue] becomes true, [iteration_count] becomes
    1, the task is pending again) and [needs_replan] is not true: it is
    still absent. *)
Lemma reflect_node_does_not_set_needs_replan :
  exists s' c',
    Workflow.reflect_node Scenario.llm_retry Scenario.one_failed 0 = Ok (s', c') /\
    State.should_continue s' = Some true /\
    iteration_count s' = 1%Z /\
    needs_replan s' = None /\
    needs_replan s' <> Some true.
Proof.
  eexists. eexists. split; [vm_compute; reflexivity|].
  cbn. repeat split; discriminate.
Qed.

(** C6, amended.  The reflect stage never writes [needs_replan]; the
    plan stage sets it to false whenever it replans; and no stage sets
    it to true, so it is never true in a run from the initial state. *)
Theorem needs_replan_protocol
        (llm : nat -> string) (json_loads : string -> option json_value)
        (web_search calculator weather : nat -> string -> Registry.tool_outcome) :
  (forall s c s' c',
     Workflow.reflect_node llm s c = Ok (s', c') ->
     needs_replan s' = needs_replan s) /\
  (forall s c s' c',
     Workflow.plan_node llm json_loads web_search calculator weather s c
       = Ok (s', c') ->
     tasks s = [] \/ needs_replan s = Some true ->
     needs_replan s' = Some false) /\
  (forall query n s c,
     Workflow.reachable llm json_loads web_search calculator weather query n s c ->
     needs_replan s <> Some true).
Proof.
  split; [| split].
  - intros s c s' c' H. exact (reflect_node_needs_replan llm s c s' c' H).
  - intros s c s' c' H Hact. unfold Workflow.plan_node in H.
    assert (E : negb (ReflectionAgent.nonempty (tasks s))
                || Workflow.truthy (needs_replan s) = true).
    { destruct Hact as [-> | ->]; [reflexivity | apply orb_true_r]. }
    rewrite E in H. unbind H. apply ret_ok in H. destruct H as [<- _]. reflexivity.
  - intros query n s c H. induction H as [|n s c n' s' c' _ IH Hs].
    + discriminate.
    + apply step_fields in Hs. destruct Hs as [_ [Hr | Hr]]; congruence.
Qed.

(** ** Planning *)

(** Whatever [plan] returns is not empty, and it made one LLM call. *)
Lemma plan_returns_nonempty llm json_loads state tools c ts c' :
  PlanAgent.plan llm json_loads state tools c = Ok (ts, c') ->
  ts <> [] /\ c' = S c.
Proof.
  unfold PlanAgent.plan, bind, call. intros H.
  destruct (json_loads _) as [v|].
  - destruct (PlanAgent.iterate v) as [items|e]; [| discriminate H].
    destruct (PlanAgent.collect 0 items) as [|t l] eqn:E;
      apply ret_ok in H; destruct H as [<- <-]; split;
      try reflexivity; discriminate.
  - apply ret_ok in H. destruct H as [<- <-]. split; [discriminate | reflexivity].
Qed.

(** When the response does not parse, or parses to something iterable
    that yields no valid entry, [plan] returns the single fallback task. *)
Lemma plan_fallback llm json_loads state tools c :
  (json_loads (PlanAgent.clean (llm c)) = None \/
   exists v items, json_loads (PlanAgent.clean (llm c)) = Some v /\
                   PlanAgent.iterate v = Ok items /\
                   PlanAgent.collect 0 items = []) ->
  PlanAgent.plan llm json_loads state tools c =
  Ok ([mkTask 1 (JStr ("Search for information about: " ++ original_query state))
              "pending" (JStr "web_search") None None], S c).
Proof.
  unfold PlanAgent.plan, bind, call.
  intros [-> | (v & items & -> & -> & ->)]; reflexivity.
Qed.

(** The id of a collected task is one more than the position of its
    entry in the array, so ids grow strictly along the result. *)
Lemma collect_ids i items :
  forall k t, nth_error (PlanAgent.collect i items) k = Some t ->
              (i + Z.of_nat k + 1 <= id t <= i + Z.of_nat (List.length items))%Z.
Proof.
  revert i. induction items as [|x items IH]; intros i k t H.
  - destruct k; discriminate H.
  - assert (Hskip : forall k t,
              nth_error (PlanAgent.collect (i + 1) items) k = Some t ->
              (i + Z.of_nat k + 1 <= id t
               <= i + Z.of_nat (List.length (x :: items)))%Z).
    { intros k0 t0 H0. apply IH in H0. cbn [List.length]. lia. }
    cbn [PlanAgent.collect] in H.
    destruct x as [| | | | | |members]; try (apply Hskip; exact H).
    destruct (Dict.get members "description") as [d|]; [| apply Hskip; exact H].
    destruct (Dict.get members "tool") as [tl|]; [| apply Hskip; exact H].
    destruct k as [|k].
    + cbn in H. inversion H; subst. cbn [id List.length]. lia.
    + cbn [nth_error] in H. apply IH in H. cbn [List.length]. lia.
Qed.

(** C5 at a failing input.  The planner answers a two-element array
    whose first element is the number 1 and whose second is a valid
    entry: the task list [plan] returns has one task, and its id is 2. *)
Theorem plan_ids_skip_malformed
        (llm : nat -> string) (json_loads : string -> option json_value)
        (state : WorkflowState) (tools : list string) (c : nat)
        (d t : json_value) :
  json_loads (PlanAgent.clean (llm c)) =
    Some (JArr [JInt 1; JObj [("description", d); ("tool", t)]]) ->
  PlanAgent.plan llm json_loads state tools c =
    Ok ([mkTask 2 d "pending" t None None], S c).
Proof.
  intros H. unfold PlanAgent.plan, bind, call. rewrite H. reflexivity.
Qed.

(** C7 at a failing input.  The planner answers a JSON number:
    [enumerate] raises [TypeError], the [except] clause does not catch
    it, [plan] returns nothing and the run started on it ends with that
    exception. *)
Theorem plan_raises_on_number
        (llm : nat -> string) (json_loads : string -> option json_value)
        (web_search calculator weather : nat -> string -> Registry.tool_outcome)
        (n : Z) :
  json_loads (PlanAgent.clean (llm 0%nat)) = Some (JInt n) ->
  (forall state tools,
     PlanAgent.plan llm json_loads state tools 0 =
       Raise (TypeError "'int' object is not iterable")) /\
  (forall fuel query,
     Workflow.invoke llm json_loads web_search calculator weather (S fuel) query =
       Raise (TypeError "'int' object is not iterable")).
Proof.
  intros H.
  assert (Hp : forall state tools,
             PlanAgent.plan llm json_loads state tools 0 =
             Raise (TypeError "'int' object is not iterable")).
  { intros state tools. unfold PlanAgent.plan, bind, call. rewrite H. reflexivity. }
  split; [exact Hp|].
  intros fuel query. unfold Workflow.invoke.
  cbn [Workflow.run Workflow.step]. unfold bind at 1. unfold bind at 1.
  unfold Workflow.plan_node. cbn [initial_state tasks ReflectionAgent.nonempty negb orb].
  unfold bind at 1. rewrite Hp. reflexivity.
Qed.

(** ** Two runs that leave the specified behaviour *)

(** C3 at a failing input.  The planner's array has a non-task first
    entry, so the only planned task gets id 2.  The input extracted for
    it holds letters and the calculator refuses it; reflection modifies
    the task and adds one, which gets id [len(tasks) + 1 = 2] as well.
    The first now completes (the calculator computes [67 * 0.15]), the
    second fails, and the [modify] action for the second one finds the
    first: after seven stages the completed task is pending again with
    its result still set.  The calculator is the one of the repository;
    of [eval] only its value on [67 * 0.15] is used. *)
Theorem modify_resets_completed_task
        (price_expression : string -> option string)
        (evaluate : string -> tool_dict) (shown : string)
        (web_search weather : nat -> string -> Registry.tool_outcome) :
  evaluate "67 * 0.15" = Succeeded "10.05" ->
  let reachable :=
    Workflow.reachable Scenario.llm_gap Scenario.loads_gap web_search
                       (Calculator.tool price_expression evaluate shown)
                       weather Scenario.query in
  reachable Workflow.PLAN Scenario.after_second_reflection 8%nat /\
  exists t, In t (tasks Scenario.after_second_reflection) /\
            status t = "pending" /\ result t = Some "10.05" /\
            ~ task_invariant t.
Proof.
  intros Heval. cbv zeta. split.
  - apply (reachable_advance _ _ _ _ _ _ 7 Workflow.PLAN
             (initial_state Scenario.query) 0%nat).
    + apply Workflow.reach_init.
    + cbv. rewrite Heval. reflexivity.
  - eexists. split; [left; reflexivity|].
    cbn. repeat split.
    intros (Hp & _ & _). destruct (Hp eq_refl) as [Hr _]. discriminate Hr.
Qed.

(** C1 at a failing input.  One planned task completes; the adequacy
    question is answered "no", so the reflect stage decides to refine
    with nothing to modify or add; the routing result is "reflect",
    which the path map of the reflect stage does not hold, and the run
    ends with [KeyError] whatever the fuel. *)
Theorem reflect_routing_unhandled :
  let reachable :=
    Workflow.reachable Scenario.llm_one Scenario.loads_one Scenario.offline
                       (Scenario.succeeds "10.05") Scenario.offline Scenario.query in
  reachable Workflow.REFLECT Scenario.before_reflection 3%nat /\
  Workflow.reflect_node Scenario.llm_one Scenario.before_reflection 3
    = Ok (Scenario.after_reflection, 4%nat) /\
  Workflow.should_continue Scenario.after_reflection = "reflect" /\
  Dict.get Workflow.reflect_edges "reflect" = None /\
  forall fuel,
    Workflow.invoke Scenario.llm_one Scenario.loads_one Scenario.offline
                    (Scenario.succeeds "10.05") Scenario.offline
                    (3 + fuel) Scenario.query
    = Raise (KeyError "reflect").
Proof.
  cbv zeta. split; [| split; [| split; [| split]]].
  - apply (reachable_advance _ _ _ _ _ _ 2 Workflow.PLAN
             (initial_state Scenario.query) 0%nat).
    + apply Workflow.reach_init.
    + vm_compute. reflexivity.
  - vm_compute. reflexivity.
  - reflexivity.
  - reflexivity.
  - intros fuel. vm_compute. reflexivity.
Qed.

(** ** Termination of the loop *)

Lemma lex_lt_ind (P : nat -> nat -> nat -> Prop) :
  (forall a b p,
     (forall a' b' p', lex_lt (a', b', p') (a, b, p) -> P a' b' p') -> P a b p) ->
  forall a b p, P a b p.
Proof.
  intros step a.
  induction a as [a IHa] using lt_wf_ind. intros b.
  induction b as [b IHb] using lt_wf_ind. intros p.
  induction p as [p IHp] using lt_wf_ind.
  apply step. intros a' b' p' [Ha | [-> [Hb | [-> Hp]]]].
  - apply IHa. exact Ha.
  - apply IHb. exact Hb.
  - apply IHp. exact Hp.
Qed.

Section Termination.

Variable llm : nat -> string.
Variable json_loads : string -> option json_value.
Variables web_search calculator weather : nat -> string -> Registry.tool_outcome.

Local Abbreviation step := (Workflow.step llm json_loads web_search calculator weather).
Local Abbreviation run := (Workflow.run llm json_loads web_search calculator weather).

(** [execute_task] always returns, and the task it returns has left
    [pending]. *)
Lemma execute_task_returns reg task c :
  exists t' c',
    ToolAgent.execute_task llm reg task c = Ok (t', c') /\
    (status t' = "completed" \/ status t' = "failed").
Proof.
  unfold ToolAgent.execute_task.
  destruct (Registry.get_tool reg (tool_used task)) as [[tool|]|e].
  - unfold bind, call.
    destruct (Registry.execute tool (S c) _) as [d|msg].
    + destruct (ToolAgent.get_default true (Registry.success d));
        eexists; eexists; (split; [reflexivity|]); [left | right]; reflexivity.
    + eexists; eexists; split; [reflexivity | right; reflexivity].
  - eexists; eexists; split; [reflexivity | right; reflexivity].
  - eexists; eexists; split; [reflexivity | right; reflexivity].
Qed.

(** The execute stage always returns, and takes one task out of
    [pending] when there is one. *)
Lemma execute_first_pending ts c :
  exists ts' c',
    Workflow.execute_first llm web_search calculator weather ts c = Ok (ts', c') /\
    pending_count ts' = pred (pending_count ts).
Proof.
  induction ts as [|t ts IH]; cbn [Workflow.execute_first].
  - exists [], c. split; reflexivity.
  - unfold pending_count, with_status. cbn [filter].
    destruct (String.eqb (status t) "pending") eqn:E.
    + destruct (execute_task_returns
                  (Workflow.tool_registry web_search calculator weather) t c)
        as (t' & c' & Hex & Hst).
      unfold bind. rewrite Hex. eexists; eexists. split; [reflexivity|].
      cbn [filter status List.length pred].
      destruct Hst as [-> | ->]; reflexivity.
    + destruct IH as (ts' & c' & Hex & Hp).
      unfold bind. rewrite Hex. eexists; eexists. split; [reflexivity|].
      cbn [filter]. rewrite E. exact Hp.
Qed.

Lemma pending_count_nonempty ts :
  ReflectionAgent.nonempty (with_status "pending" ts) = true <->
  0 < pending_count ts.
Proof.
  unfold pending_count. destruct (with_status "pending" ts); cbn; split;
    intros H; try reflexivity; try discriminate; lia.
Qed.

(** Every stage but [DONE] that returns moves the run down the
    lexicographic order. *)
Lemma step_decreases n s c n' s' c' :
  n <> Workflow.DONE ->
  step n s c = Ok ((n', s'), c') ->
  lex_lt (measure n' s') (measure n s).
Proof.
  intros Hn H. unfold measure, lex_lt. destruct n; [| | | | contradiction].
  - (* PLAN *)
    unfold Workflow.step in H. unbind H. apply ret_ok in H. destruct H as [H _].
    inversion H; subst; clear H.
    assert (Hb : budget Workflow.EXECUTE s' = budget Workflow.PLAN s).
    { unfold Workflow.plan_node in Hm. destruct (negb _ || _).
      - unbind Hm. apply ret_ok in Hm. destruct Hm as [<- _]. reflexivity.
      - apply ret_ok in Hm. destruct Hm as [<- _]. reflexivity. }
    right. split; [exact Hb | left; cbn; lia].
  - (* EXECUTE *)
    unfold Workflow.step, Workflow.execute_node in H.
    destruct (execute_first_pending (tasks s) c) as (ts' & cx & Hex & Hp).
    unfold bind in H. rewrite Hex in H. cbn [ret] in H.
    unfold Workflow.branch, Workflow.should_continue in H.
    cbn [tasks set_tasks State.should_continue] in H.
    destruct (ReflectionAgent.nonempty (with_status "pending" ts')) eqn:E.
    + cbn in H. inversion H; subst; clear H.
      apply pending_count_nonempty in E.
      right. split; [reflexivity|]. right. split; [reflexivity|].
      cbn [tasks set_tasks]. lia.
    + destruct (Workflow.truthy (State.should_continue s)) eqn:F;
        cbn in H; inversion H; subst; clear H.
      * right. split; [cbn; rewrite F; reflexivity | left; cbn; lia].
      * right. split; [cbn; rewrite F; reflexivity | left; cbn; lia].
  - (* REFLECT *)
    unfold Workflow.step in H. unbind H. apply ret_ok in H. destruct H as [H _].
    inversion H; subst; clear H.
    left.
    assert (Hs : (State.should_continue s' = Some false /\
                  iteration_count s' = iteration_count s) \/
                 (State.should_continue s' = Some true /\
                  (iteration_count s < 3)%Z /\
                  iteration_count s' = (iteration_count s + 1)%Z)).
    { unfold Workflow.reflect_node in Hm. unbind Hm.
      destruct (a && (iteration_count s <? 3)%Z) eqn:E.
      - unbind Hm. apply ret_ok in Hm. destruct Hm as [<- _].
        apply andb_true_iff in E. destruct E as [_ E]. apply Z.ltb_lt in E.
        right. repeat split. exact E.
      - apply ret_ok in Hm. destruct Hm as [<- _]. left. split; reflexivity. }
    assert (Hn' : n' = Workflow.PLAN \/ n' = Workflow.FINALIZE).
    { unfold Workflow.branch in Hm0.
      destruct (Workflow.should_continue s') eqn:L; cbn in Hm0.
      - discriminate Hm0.
      - unfold Workflow.should_continue in L.
        destruct (ReflectionAgent.nonempty _);
          [| destruct (Workflow.truthy _)]; inversion L; subst; cbn in Hm0;
          apply ret_ok in Hm0 || discriminate Hm0;
          destruct Hm0 as [<- _]; auto. }
    destruct Hs as [[Hf Hi] | (Ht & Hlt & Hi)];
      destruct Hn' as [-> | ->]; cbn [budget fst]; rewrite ?Hf, ?Ht;
      cbn [Workflow.truthy]; rewrite ?Hi; lia.
  - (* FINALIZE *)
    unfold Workflow.step in H. unbind H. apply ret_ok in H. destruct H as [H _].
    inversion H; subst; clear H.
    assert (Hb : budget Workflow.DONE s' = budget Workflow.FINALIZE s).
    { unfold Workflow.finalize_node in Hm. destruct (ReflectionAgent.nonempty _).
      - unbind Hm. apply ret_ok in Hm. destruct Hm as [<- _]. reflexivity.
      - apply ret_ok in Hm. destruct Hm as [<- _]. reflexivity. }
    right. split; [exact Hb | left; cbn; lia].
Qed.

(** From every stage and state, whatever the collaborators answer, some
    amount of fuel is enough for the run to end: with a final state or
    with an exception. *)
Theorem run_ends n s c : exists fuel, ended (run fuel n s c).
Proof.
  remember (measure n s) as m eqn:Hm. destruct m as [[a b] p].
  revert n s c Hm. pattern a, b, p. apply lex_lt_ind. clear a b p.
  intros a b p IH n s c Hm.
  destruct (Workflow.node_eq_dec n Workflow.DONE) as [-> | Hn].
  - exists 0. exact I.
  - destruct (step n s c) as [[[n' s'] c']|e] eqn:Hs.
    + pose proof (step_decreases n s c n' s' c' Hn Hs) as Hlt.
      rewrite <- Hm in Hlt.
      destruct (measure n' s') as [[a' b'] p'] eqn:Hm'.
      destruct (IH a' b' p' Hlt n' s' c' (eq_sym Hm')) as [fuel Hf].
      exists (S fuel). destruct n; try contradiction;
        cbn [Workflow.run]; unfold bind at 1; rewrite Hs; exact Hf.
    + exists 1. destruct n; try contradiction;
        cbn [Workflow.run]; unfold bind at 1; rewrite Hs; exact I.
Qed.

(** A run started from the initial state ends. *)
Corollary invoke_ends query :
  exists fuel,
    ended (Workflow.invoke llm json_loads web_search calculator weather fuel query).
Proof. unfold Workflow.invoke. apply run_ends. Qed.

End Termination.

(** ** The exceptions that can end a run *)

Section Exceptions.

Variable llm : nat -> string.
Variable json_loads : string -> option json_value.
Variables web_search calculator weather : nat -> string -> Registry.tool_outcome.

Local Abbreviation step := (Workflow.step llm json_loads web_search calculator weather).
Local Abbreviation run := (Workflow.run llm json_loads web_search calculator weather).

Lemma should_refine_plan_returns s c :
  exists b c', ReflectionAgent.should_refine_plan llm s c = Ok (b, c').
Proof.
  unfold ReflectionAgent.should_refine_plan.
  repeat match goal with
         | |- context [if ?b then _ else _] => destruct b
         end; eexists; eexists; reflexivity.
Qed.

Lemma modify_failed_returns failed c :
  exists rs c', ReflectionAgent.modify_failed llm failed c = Ok (rs, c').
Proof.
  revert c. induction failed as [|t failed IH]; intros c.
  - eexists; eexists; reflexivity.
  - cbn [ReflectionAgent.modify_failed]. unfold bind at 1. cbn [call].
    destruct (IH (S c)) as (rs & c' & H). unfold bind. rewrite H.
    eexists; eexists; reflexivity.
Qed.

Lemma suggest_refinements_returns s c :
  exists rs c', ReflectionAgent.suggest_refinements llm s c = Ok (rs, c').
Proof.
  unfold ReflectionAgent.suggest_refinements.
  destruct (modify_failed_returns (with_status "failed" (tasks s)) c)
    as (rs & c' & H).
  unfold bind at 1. rewrite H.
  destruct (negb _); [| eexists; eexists; reflexivity].
  unfold bind, call.
  destruct (PyStr.contains _ _); [| eexists; eexists; reflexivity].
  destruct (PyStr.split _ _) as [|d [|t [|x l]]]; eexists; eexists; reflexivity.
Qed.

(** The reflect stage itself always returns; only the edge out of it
    can raise. *)
Lemma reflect_node_returns s c :
  exists s' c', Workflow.reflect_node llm s c = Ok (s', c').
Proof.
  unfold Workflow.reflect_node.
  destruct (should_refine_plan_returns s c) as (b & c1 & H1).
  unfold bind at 1. rewrite H1.
  destruct (b && _); [| eexists; eexists; reflexivity].
  destruct (suggest_refinements_returns s c1) as (rs & c2 & H2).
  unfold bind. rewrite H2. eexists; eexists; reflexivity.
Qed.

(** A stage raises in two places only: the plan stage lets a
    [TypeError] of [plan] through, and the edge out of the reflect stage
    raises [KeyError] on the routing result "reflect". *)
Lemma step_raises n s c e :
  step n s c = Raise e ->
  (n = Workflow.PLAN /\ exists msg, e = TypeError msg) \/
  (n = Workflow.REFLECT /\ e = KeyError "reflect").
Proof.
  intros H. destruct n; unfold Workflow.step in H.
  - left. split; [reflexivity|].
    unfold bind, Workflow.plan_node in H.
    destruct (negb _ || _); [| discriminate H].
    unfold PlanAgent.plan, bind, call in H.
    destruct (json_loads _) as [v|]; [| discriminate H].
    destruct v; cbn in H; try discriminate H;
      try (inversion H; eexists; reflexivity).
    + destruct (PlanAgent.collect 0 _); discriminate H.
    + destruct (PlanAgent.collect 0 _); discriminate H.
    + destruct (PlanAgent.collect 0 _); discriminate H.
  - exfalso. unfold Workflow.execute_node in H.
    destruct (execute_first_pending llm web_search calculator weather (tasks s) c)
      as (ts' & cx & Hex & _).
    unfold bind in H. rewrite Hex in H. cbn [ret] in H.
    destruct (branch_execute_total (set_tasks s ts') cx) as [n Hn].
    rewrite Hn in H. discriminate H.
  - right. split; [reflexivity|].
    destruct (reflect_node_returns s c) as (s' & c' & Hr).
    unfold bind in H. rewrite Hr in H.
    unfold Workflow.branch, Workflow.should_continue in H.
    destruct (ReflectionAgent.nonempty _); [discriminate H|].
    destruct (Workflow.truthy _); cbn in H; [| discriminate H].
    inversion H. reflexivity.
  - exfalso. unfold bind, Workflow.finalize_node in H.
    destruct (ReflectionAgent.nonempty _); discriminate H.
  - discriminate H.
Qed.

(** A run that ends with an exception ends with one of those two. *)
Lemma run_raises fuel : forall n s c e,
  run fuel n s c = Raise e ->
  (exists msg, e = TypeError msg) \/ e = KeyError "reflect".
Proof.
  induction fuel as [|fuel IH]; intros n s c e H.
  - destruct n; discriminate H.
  - destruct n; try discriminate H; cbn [Workflow.run] in H;
      unfold bind at 1 in H;
      match type of H with
      | context [Workflow.step _ _ _ _ _ ?n s c] =>
          destruct (Workflow.step llm json_loads web_search calculator weather n s c)
            as [[[n' s'] c']|e'] eqn:Hs
      end;
      try (apply IH in H; exact H);
      inversion H; subst;
      apply step_raises in Hs; destruct Hs as [[_ Hs] | [_ Hs]]; auto.
Qed.

Lemma branch_not_done edges s c n c' :
  edges = Workflow.execute_edges \/ edges = Workflow.reflect_edges ->
  Workflow.branch edges s c = Ok (n, c') -> n <> Workflow.DONE.
Proof.
  unfold Workflow.branch, Workflow.should_continue.
  intros [-> | ->] H;
    destruct (ReflectionAgent.nonempty _);
    [| destruct (Workflow.truthy _) | | destruct (Workflow.truthy _)];
    cbn in H; inversion H; discriminate.
Qed.

(** The only stage that leads to [DONE] is the finalize stage, and it
    has set [final_answer]. *)
Lemma step_done n s c s' c' :
  n <> Workflow.DONE ->
  step n s c = Ok ((Workflow.DONE, s'), c') ->
  final_answer s' <> None.
Proof.
  intros Hn H. unfold Workflow.step in H. destruct n; [| | | | contradiction].
  - unbind H. apply ret_ok in H. destruct H as [H _]. discriminate H.
  - unbind H. apply ret_ok in H. destruct H as [H _]. inversion H; subst.
    apply branch_not_done in Hm0; [contradiction | left; reflexivity].
  - unbind H. apply ret_ok in H. destruct H as [H _]. inversion H; subst.
    apply branch_not_done in Hm0; [contradiction | right; reflexivity].
  - unbind H. apply ret_ok in H. destruct H as [H _]. inversion H; subst.
    unfold Workflow.finalize_node in Hm.
    destruct (ReflectionAgent.nonempty _).
    + unbind Hm. apply ret_ok in Hm. destruct Hm as [<- _]. discriminate.
    + apply ret_ok in Hm. destruct Hm as [<- _]. discriminate.
Qed.

(** A run that ends with a state ends after the finalize stage, with
    [final_answer] set, unless it was started at [DONE]. *)
Lemma run_final_answer fuel : forall n s c s' c',
  n <> Workflow.DONE ->
  run fuel n s c = Ok (Some s', c') ->
  final_answer s' <> None.
Proof.
  induction fuel as [|fuel IH]; intros n s c s' c' Hn H.
  - destruct n; try discriminate H. contradiction.
  - assert (Hrun : run (S fuel) n s c =
                   bind (step n s) (fun ns => run fuel (fst ns) (snd ns)) c).
    { destruct n; try contradiction; reflexivity. }
    rewrite Hrun in H. clear Hrun. apply bind_ok in H.
    destruct H as ([n1 s1] & c1 & Hs & H). cbn [fst snd] in H.
    destruct (Workflow.node_eq_dec n1 Workflow.DONE) as [-> | Hn1].
    + assert (Hd : run fuel Workflow.DONE s1 c1 = Ok (Some s1, c1))
        by (destruct fuel; reflexivity).
      rewrite Hd in H. inversion H; subst.
      exact (step_done n s c s' c' Hn Hs).
    + exact (IH n1 s1 c1 s' c' Hn1 H).
Qed.

End Exceptions.

(** ** The task field invariant when planner ids are consecutive *)

Lemma fresh_invariant t : fresh t -> task_invariant t.
Proof.
  intros (Hs & Hr & He). unfold task_invariant. rewrite Hs, Hr, He.
  split; [intros _; split; reflexivity | split; intros H; discriminate H].
Qed.

Lemma consecutive_ids_inj ts t t0 :
  consecutive_ids ts -> In t ts -> In t0 ts -> id t = id t0 -> t = t0.
Proof.
  unfold consecutive_ids. intros Hc.
  assert (Hnd : NoDup (map id ts)).
  { rewrite Hc. apply Injective_map_NoDup; [| apply seq_NoDup].
    intros x y Hxy. apply Nat2Z.inj. exact Hxy. }
  clear Hc. induction ts as [|x ts IH]; intros Ht Ht0 Hid; [destruct Ht|].
  cbn [map] in Hnd. inversion Hnd as [|? ? Hx Hnd']; subst.
  destruct Ht as [<- | Ht]; destruct Ht0 as [<- | Ht0].
  - reflexivity.
  - exfalso. apply Hx. rewrite Hid. apply in_map. exact Ht0.
  - exfalso. apply Hx. rewrite <- Hid. apply in_map. exact Ht.
  - apply IH; assumption.
Qed.

Lemma consecutive_ids_same ts ts' :
  map id ts' = map id ts -> consecutive_ids ts -> consecutive_ids ts'.
Proof.
  unfold consecutive_ids. intros Hm Hc.
  assert (Hl : List.length ts' = List.length ts).
  { rewrite <- (length_map id ts'), Hm. apply length_map. }
  rewrite Hm, Hl. exact Hc.
Qed.

Lemma collect_fresh i items : Forall fresh (PlanAgent.collect i items).
Proof.
  revert i. induction items as [|x items IH]; intros i; cbn [PlanAgent.collect].
  - constructor.
  - destruct x as [| | | | | |members]; try apply IH.
    destruct (Dict.get members "description"); [| apply IH].
    destruct (Dict.get members "tool"); [| apply IH].
    constructor; [repeat split | apply IH].
Qed.

Lemma plan_fresh llm json_loads state tools c ts c' :
  PlanAgent.plan llm json_loads state tools c = Ok (ts, c') -> Forall fresh ts.
Proof.
  unfold PlanAgent.plan, bind, call. intros H.
  destruct (json_loads _) as [v|].
  - destruct (PlanAgent.iterate v) as [items|e]; [| discriminate H].
    pose proof (collect_fresh 0 items) as Hf.
    destruct (PlanAgent.collect 0 items) as [|t l];
      apply ret_ok in H; destruct H as [<- _]; [| exact Hf].
    constructor; [repeat split | constructor].
  - apply ret_ok in H. destruct H as [<- _].
    constructor; [repeat split | constructor].
Qed.

Lemma execute_task_invariant llm reg t c t' c' :
  ToolAgent.execute_task llm reg t c = Ok (t', c') ->
  fresh t -> task_invariant t' /\ id t' = id t.
Proof.
  intros H (_ & Hr & He). unfold ToolAgent.execute_task in H.
  assert (Hfail : forall msg, task_invariant (ToolAgent.failed_with t msg)).
  { intros msg. unfold task_invariant, ToolAgent.failed_with. cbn. rewrite Hr.
    split; [intros E; discriminate E | split; intros E; [discriminate E|]].
    split; [discriminate | reflexivity]. }
  assert (Hdone : forall r, task_invariant (ToolAgent.completed_with t r)).
  { intros r. unfold task_invariant, ToolAgent.completed_with. cbn. rewrite He.
    split; [intros E; discriminate E | split; intros E; [| discriminate E]].
    split; [discriminate | reflexivity]. }
  destruct (Registry.get_tool reg (tool_used t)) as [[tool|]|e].
  - unfold bind, call in H.
    destruct (Registry.execute tool (S c) _) as [d|msg].
    + destruct (ToolAgent.get_default true (Registry.success d));
        apply ret_ok in H; destruct H as [<- _]; split; auto.
    + apply ret_ok in H; destruct H as [<- _]; split; auto.
  - apply ret_ok in H; destruct H as [<- _]; split; auto.
  - apply ret_ok in H; destruct H as [<- _]; split; auto.
Qed.

Lemma execute_first_invariant llm web_search calculator weather ts :
  forall c ts' c',
    Workflow.execute_first llm web_search calculator weather ts c = Ok (ts', c') ->
    Forall task_invariant ts ->
    Forall task_invariant ts' /\ map id ts' = map id ts.
Proof.
  induction ts as [|t ts IH]; intros c ts' c' H Hall; cbn [Workflow.execute_first] in H.
  - apply ret_ok in H. destruct H as [<- _]. split; [constructor | reflexivity].
  - inversion Hall as [|? ? Ht Hts]; subst.
    destruct (String.eqb (status t) "pending") eqn:E.
    + apply String.eqb_eq in E. unbind H. apply ret_ok in H. destruct H as [<- _].
      destruct Ht as [Hp _]. destruct (Hp E) as [Hr He].
      apply execute_task_invariant in Hm; [| repeat split; assumption].
      destruct Hm as [Hinv _]. split; [| reflexivity].
      constructor; [| exact Hts].
      unfold task_invariant in *. cbn. exact Hinv.
    + unbind H. apply ret_ok in H. destruct H as [<- _].
      destruct (IH _ _ _ Hm Hts) as [Hall' Hid].
      split; [constructor; assumption | cbn [map]; rewrite Hid; reflexivity].
Qed.

Lemma modify_failed_aims llm failed :
  forall c rs c',
    ReflectionAgent.modify_failed llm failed c = Ok (rs, c') ->
    Forall (aims_at (map id failed)) rs.
Proof.
  induction failed as [|t failed IH]; intros c rs c' H;
    cbn [ReflectionAgent.modify_failed] in H.
  - apply ret_ok in H. destruct H as [<- _]. constructor.
  - unbind H. apply ret_ok in H. destruct H as [<- _].
    constructor; [left; reflexivity|].
    apply IH in Hm0. eapply Forall_impl; [| exact Hm0].
    intros r Hr. destruct r; [right; exact Hr | exact I].
Qed.

Lemma suggest_refinements_aims llm s c rs c' :
  ReflectionAgent.suggest_refinements llm s c = Ok (rs, c') ->
  Forall (aims_at (map id (with_status "failed" (tasks s)))) rs.
Proof.
  unfold ReflectionAgent.suggest_refinements. intros H. unbind H.
  apply modify_failed_aims in Hm.
  assert (Hadd : forall d t,
             Forall (aims_at (map id (with_status "failed" (tasks s))))
                    (a ++ [ReflectionAgent.Add d t])).
  { intros d t. apply Forall_app. split; [exact Hm|].
    constructor; [exact I | constructor]. }
  destruct (negb _); [| apply ret_ok in H; destruct H as [<- _]; exact Hm].
  unbind H. destruct (PyStr.contains _ _);
    [| apply ret_ok in H; destruct H as [<- _]; exact Hm].
  destruct (PyStr.split _ _) as [|d [|t [|x l]]];
    apply ret_ok in H; destruct H as [<- _]; auto.
Qed.

(** What the refinement loop keeps: consecutive ids, the field
    invariant, and no result on the tasks a [modify] may name. *)
Lemma modify_first_keeps targets task_id d ts :
  In task_id targets ->
  Forall task_invariant ts ->
  (forall t, In t ts -> In (id t) targets -> result t = None) ->
  Forall task_invariant (Workflow.modify_first task_id d ts) /\
  map id (Workflow.modify_first task_id d ts) = map id ts /\
  (forall t, In t (Workflow.modify_first task_id d ts) ->
             In (id t) targets -> result t = None).
Proof.
  intros Hin. induction ts as [|x ts IH]; intros Hall Hres; cbn [Workflow.modify_first].
  - repeat split; [constructor | intros t []].
  - inversion Hall as [|? ? Hx Hts]; subst.
    destruct (id x =? task_id)%Z eqn:E.
    + apply Z.eqb_eq in E.
      assert (Hr : result x = None).
      { apply Hres; [left; reflexivity | rewrite E; exact Hin]. }
      split; [| split].
      * constructor; [| exact Hts]. apply fresh_invariant. repeat split. exact Hr.
      * reflexivity.
      * intros t [<- | Ht] Hid; [exact Hr | apply Hres; [right; exact Ht | exact Hid]].
    + destruct IH as (H1 & H2 & H3); [exact Hts | |].
      { intros t Ht. apply Hres. right. exact Ht. }
      split; [| split].
      * constructor; assumption.
      * cbn [map]. rewrite H2. reflexivity.
      * intros t [<- | Ht] Hid; [apply Hres; [left; reflexivity | exact Hid]|].
        apply H3; assumption.
Qed.

Lemma apply_refinements_keep targets rs :
  Forall (aims_at targets) rs ->
  forall ts,
    consecutive_ids ts ->
    Forall task_invariant ts ->
    (forall t, In t ts -> In (id t) targets -> result t = None) ->
    consecutive_ids (fold_left Workflow.apply_refinement rs ts) /\
    Forall task_invariant (fold_left Workflow.apply_refinement rs ts).
Proof.
  induction 1 as [|r rs Hr _ IH]; intros ts Hc Hall Hres; cbn [fold_left].
  - split; assumption.
  - destruct r as [task_id d tool | d tool]; cbn [Workflow.apply_refinement aims_at] in *.
    + destruct (modify_first_keeps targets task_id d ts Hr Hall Hres) as (H1 & H2 & H3).
      apply IH; [exact (consecutive_ids_same _ _ H2 Hc) | exact H1 | exact H3].
    + apply IH.
      * unfold consecutive_ids in *. rewrite map_app, length_app, Hc.
        cbn [List.length map id]. rewrite Nat.add_1_r, seq_S, map_app.
        cbn [map]. repeat f_equal. lia.
      * apply Forall_app. split; [exact Hall|].
        constructor; [apply fresh_invariant; repeat split | constructor].
      * intros t Ht Hid. apply in_app_iff in Ht. destruct Ht as [Ht | [<- | []]];
          [apply Hres; assumption | reflexivity].
Qed.

Section TaskInvariant.

Variable llm : nat -> string.
Variable json_loads : string -> option json_value.
Variables web_search calculator weather : nat -> string -> Registry.tool_outcome.

Local Abbreviation step := (Workflow.step llm json_loads web_search calculator weather).

(** One stage keeps consecutive ids and the field invariant, provided
    the plan stage, when it does ask the planner, gets consecutive ids
    from it. *)
Lemma step_task_invariant n s c n' s' c' :
  step n s c = Ok ((n', s'), c') ->
  (n = Workflow.PLAN ->
   negb (ReflectionAgent.nonempty (tasks s)) || Workflow.truthy (needs_replan s)
     = true ->
   forall ts c1,
     PlanAgent.plan llm json_loads s
       (Registry.list_tools (Workflow.tool_registry web_search calculator weather)) c
       = Ok (ts, c1) ->
     consecutive_ids ts) ->
  consecutive_ids (tasks s) /\ Forall task_invariant (tasks s) ->
  consecutive_ids (tasks s') /\ Forall task_invariant (tasks s').
Proof.
  intros H Hplan [Hc Hall]. unfold Workflow.step in H.
  destruct n; unbind H; apply ret_ok in H; destruct H as [H _];
    inversion H; subst; clear H.
  - (* PLAN *)
    unfold Workflow.plan_node in Hm. destruct (negb _ || _) eqn:Ec.
    + unbind Hm. apply ret_ok in Hm. destruct Hm as [<- _]. cbn [tasks set_needs_replan set_tasks].
      split; [exact (Hplan eq_refl eq_refl _ _ Hm0)|].
      apply plan_fresh in Hm0. eapply Forall_impl; [| exact Hm0].
      exact fresh_invariant.
    + apply ret_ok in Hm. destruct Hm as [<- _]. split; assumption.
  - (* EXECUTE *)
    unfold Workflow.execute_node in Hm. unbind Hm.
    apply ret_ok in Hm. destruct Hm as [<- _]. cbn [tasks set_tasks].
    destruct (execute_first_invariant _ _ _ _ _ _ _ _ Hm1 Hall) as [Hall' Hid].
    split; [exact (consecutive_ids_same _ _ Hid Hc) | exact Hall'].
  - (* REFLECT *)
    unfold Workflow.reflect_node in Hm. unbind Hm.
    destruct (_ && _).
    + unbind Hm. apply ret_ok in Hm. destruct Hm as [<- _].
      cbn [tasks set_tasks set_iteration_count set_should_continue].
      apply suggest_refinements_aims in Hm2.
      apply (apply_refinements_keep _ _ Hm2); [exact Hc | exact Hall |].
      intros t Ht Hid. apply in_map_iff in Hid.
      destruct Hid as (t0 & Hid & Hf). unfold with_status in Hf.
      apply filter_In in Hf. destruct Hf as [Ht0 Hst]. apply String.eqb_eq in Hst.
      assert (t0 = t) by (apply (consecutive_ids_inj (tasks s)); assumption).
      subst t0. rewrite Forall_forall in Hall.
      destruct (Hall t Ht) as (_ & _ & Hfailed). apply Hfailed. exact Hst.
    + apply ret_ok in Hm. destruct Hm as [<- _]. split; assumption.
  - (* FINALIZE *)
    unfold Workflow.finalize_node in Hm. destruct (ReflectionAgent.nonempty _).
    + unbind Hm. apply ret_ok in Hm. destruct Hm as [<- _]. split; assumption.
    + apply ret_ok in Hm. destruct Hm as [<- _]. split; assumption.
  - split; assumption.
Qed.

End TaskInvariant.

(** ** The theorems above at concrete inputs *)

Lemma plan_node_frame_witness :
  tasks Scenario.one_completed <> [] /\
  Workflow.plan_node Scenario.llm_one Scenario.loads_one Scenario.offline
    (Scenario.succeeds "10.05") Scenario.offline Scenario.one_completed 4
    = Ok (Scenario.one_completed, 4%nat).
Proof.
  split; [discriminate|].
  apply (plan_node_frame Scenario.llm_one Scenario.loads_one Scenario.offline
           (Scenario.succeeds "10.05") Scenario.offline Scenario.one_completed 4).
  - discriminate.
  - left. reflexivity.
Defined.

Lemma finalize_node_answer_witness :
  (exists s',
     Workflow.finalize_node Scenario.llm_one Scenario.one_failed 4 = Ok (s', 4%nat) /\
     final_answer s' = Some Workflow.apology) /\
  (exists s',
     Workflow.finalize_node Scenario.llm_one Scenario.one_completed 1 = Ok (s', 2%nat) /\
     final_answer s' = Some "67 * 0.15").
Proof.
  split.
  - destruct (proj1 (finalize_node_answer Scenario.llm_one Scenario.one_failed 4))
      as (s' & H1 & H2 & _).
    + intros t [<- | []]. discriminate.
    + exists s'. split; [exact H1 | exact H2].
  - destruct (proj2 (finalize_node_answer Scenario.llm_one Scenario.one_completed 1))
      as (s' & H1 & H2 & _).
    + eexists. split; [left; reflexivity | reflexivity].
    + exists s'. split; [exact H1 | exact H2].
Defined.

Lemma iteration_ceiling_witness :
  ReflectionAgent.should_refine_plan Scenario.llm_one Scenario.one_completed 0
    = Ok (false, 0%nat) /\
  (0 <= iteration_count Scenario.before_reflection <= 3)%Z.
Proof.
  pose proof (iteration_ceiling Scenario.llm_one Scenario.loads_one Scenario.offline
                (Scenario.succeeds "10.05") Scenario.offline) as [H1 [_ H3]].
  split.
  - apply H1. cbn. lia.
  - apply (H3 Scenario.query Workflow.REFLECT Scenario.before_reflection 3%nat).
    apply (reachable_advance _ _ _ _ _ _ 2 Workflow.PLAN
             (initial_state Scenario.query) 0%nat).
    + apply Workflow.reach_init.
    + vm_compute. reflexivity.
Defined.

Lemma unresolved_tool_fails_witness :
  let registry :=
    Workflow.tool_registry Scenario.offline (Scenario.succeeds "10.05")
                           Scenario.offline in
  ToolAgent.execute_task Scenario.llm_one registry
    (mkTask 1 (JStr "translate it") "pending" (JStr "translate") None None) 1
  = Ok (mkTask 1 (JStr "translate it") "failed" (JStr "translate") None
               (Some "Tool 'translate' not available"), 1%nat) /\
  ToolAgent.execute_task Scenario.llm_one registry Scenario.list_task 1
  = Ok (mkTask 1 (JStr "67 * 0.15") "failed" (JArr [JStr "calculator"]) None
               (Some "Execution error: unhashable type: 'list'"), 1%nat).
Proof.
  cbv zeta.
  destruct (unresolved_tool_fails Scenario.llm_one Scenario.loads_one
              Scenario.offline (Scenario.succeeds "10.05") Scenario.offline)
    as (H1 & H2 & _).
  split.
  - apply (H2 _ (mkTask 1 (JStr "translate it") "pending" (JStr "translate")
                        None None) 1%nat "translate"); reflexivity.
  - apply (H1 _ Scenario.list_task 1%nat). intros tool H. discriminate H.
Defined.

(** The run of C3 with an [eval] known on the one expression it
    computes. *)
Lemma modify_resets_completed_task_witness :
  Workflow.reachable Scenario.llm_gap Scenario.loads_gap Scenario.offline
    (Calculator.tool (fun _ => None) evaluate_tip EmptyString)
    Scenario.offline Scenario.query
    Workflow.PLAN Scenario.after_second_reflection 8%nat.
Proof.
  apply (modify_resets_completed_task (fun _ => None) evaluate_tip EmptyString
           Scenario.offline Scenario.offline).
  reflexivity.
Defined.

Lemma needs_replan_protocol_witness :
  needs_replan Scenario.after_reflection = needs_replan Scenario.before_reflection /\
  needs_replan Scenario.before_reflection <> Some true.
Proof.
  pose proof (needs_replan_protocol Scenario.llm_one Scenario.loads_one Scenario.offline
                (Scenario.succeeds "10.05") Scenario.offline) as [H1 [_ H3]].
  split.
  - apply (H1 Scenario.before_reflection 3%nat Scenario.after_reflection 4%nat).
    vm_compute. reflexivity.
  - apply (H3 Scenario.query Workflow.REFLECT Scenario.before_reflection 3%nat).
    apply (reachable_advance _ _ _ _ _ _ 2 Workflow.PLAN
             (initial_state Scenario.query) 0%nat).
    + apply Workflow.reach_init.
    + vm_compute. reflexivity.
Defined.

Lemma plan_ids_skip_malformed_witness :
  PlanAgent.plan Scenario.llm_gap Scenario.loads_gap
    (initial_state Scenario.query) ["web_search"; "calculator"; "weather"] 0
  = Ok ([mkTask 2 (JStr "67 * 0.15") "pending" (JStr "calculator") None None],
        1%nat).
Proof.
  apply (plan_ids_skip_malformed Scenario.llm_gap Scenario.loads_gap).
  vm_compute. reflexivity.
Defined.

Lemma plan_raises_on_number_witness :
  PlanAgent.plan Scenario.llm_five Scenario.loads_five
    (initial_state Scenario.query) ["web_search"; "calculator"; "weather"] 0
  = Raise (TypeError "'int' object is not iterable") /\
  Workflow.invoke Scenario.llm_five Scenario.loads_five Scenario.offline
    Scenario.offline Scenario.offline 30 Scenario.query
  = Raise (TypeError "'int' object is not iterable").
Proof.
  assert (H : Scenario.loads_five (PlanAgent.clean (Scenario.llm_five 0%nat))
              = Some (JInt 5)) by (vm_compute; reflexivity).
  destruct (plan_raises_on_number Scenario.llm_five Scenario.loads_five
              Scenario.offline Scenario.offline Scenario.offline 5 H) as [H1 H2].
  split; [apply H1 | apply H2].
Defined.

(** * Further properties of the code *)

(** ** The tool registry *)

Lemma dict_get_set_same {A} (d : Dict.dict A) k v :
  Dict.get (Dict.set d k v) k = Some v.
Proof.
  induction d as [|[k' v'] d IH]; cbn [Dict.set Dict.get].
  - rewrite String.eqb_refl. reflexivity.
  - destruct (String.eqb k' k) eqn:E; cbn [Dict.get]; rewrite E;
      [reflexivity | exact IH].
Qed.

Lemma dict_get_set_other {A} (d : Dict.dict A) k v k0 :
  k0 <> k -> Dict.get (Dict.set d k v) k0 = Dict.get d k0.
Proof.
  intros Hne. induction d as [|[k' v'] d IH]; cbn [Dict.set Dict.get].
  - destruct (String.eqb k k0) eqn:E; [| reflexivity].
    apply String.eqb_eq in E. congruence.
  - destruct (String.eqb k' k) eqn:E; cbn [Dict.get].
    + apply String.eqb_eq in E. subst k'.
      destruct (String.eqb k k0) eqn:E0; [| reflexivity].
      apply String.eqb_eq in E0. congruence.
    + destruct (String.eqb k' k0); [reflexivity | exact IH].
Qed.

Lemma dict_get_in_keys {A} (d : Dict.dict A) k :
  Dict.get d k <> None <-> In k (Dict.keys d).
Proof.
  induction d as [|[k' v'] d IH]; cbn [Dict.get Dict.keys map fst].
  - split; [intros H; congruence | intros []].
  - destruct (String.eqb k' k) eqn:E.
    + apply String.eqb_eq in E. split; [intros _; left; exact E | discriminate].
    + apply String.eqb_neq in E. rewrite IH. unfold Dict.keys.
      split; [intros H; right; exact H | intros [H | H]; [congruence | exact H]].
Qed.

Lemma dict_keys_set {A} (d : Dict.dict A) k v :
  Dict.keys (Dict.set d k v) =
  if Dict.mem d k then Dict.keys d else (Dict.keys d ++ [k])%list.
Proof.
  unfold Dict.mem.
  induction d as [|[k' v'] d IH]; cbn [Dict.set Dict.get Dict.keys map fst app].
  - reflexivity.
  - destruct (String.eqb k' k) eqn:E; cbn [Dict.keys map fst].
    + reflexivity.
    + unfold Dict.keys in IH. rewrite IH.
      destruct (Dict.get d k); reflexivity.
Qed.

Lemma dict_get_remove_same {A} (d : Dict.dict A) k :
  Dict.wf d -> Dict.get (Dict.remove d k) k = None.
Proof.
  unfold Dict.wf. induction d as [|[k' v'] d IH]; intros Hwf;
    cbn [Dict.remove Dict.get].
  - reflexivity.
  - cbn [Dict.keys map fst] in Hwf. inversion Hwf as [|? ? Hnin Hwf']; subst.
    destruct (String.eqb k' k) eqn:E.
    + apply String.eqb_eq in E. subst k'.
      destruct (Dict.get d k) eqn:G; [| reflexivity].
      exfalso. apply Hnin. apply dict_get_in_keys. congruence.
    + cbn [Dict.get]. rewrite E. apply IH. exact Hwf'.
Qed.

Lemma dict_get_remove_other {A} (d : Dict.dict A) k k0 :
  k0 <> k -> Dict.get (Dict.remove d k) k0 = Dict.get d k0.
Proof.
  intros Hne. induction d as [|[k' v'] d IH]; cbn [Dict.remove Dict.get].
  - reflexivity.
  - destruct (String.eqb k' k) eqn:E.
    + apply String.eqb_eq in E. subst k'.
      destruct (String.eqb k k0) eqn:E0; [| reflexivity].
      apply String.eqb_eq in E0. congruence.
    + cbn [Dict.get]. destruct (String.eqb k' k0); [reflexivity | exact IH].
Qed.

Lemma dict_keys_remove_incl {A} (d : Dict.dict A) k k0 :
  In k0 (Dict.keys (Dict.remove d k)) -> In k0 (Dict.keys d).
Proof.
  induction d as [|[k' v'] d IH]; cbn [Dict.remove Dict.keys map fst].
  - intros [].
  - destruct (String.eqb k' k); cbn [map fst].
    + intros H. right. exact H.
    + intros [H | H]; [left; exact H | right; apply IH; exact H].
Qed.

Lemma dict_wf_remove {A} (d : Dict.dict A) k :
  Dict.wf d -> Dict.wf (Dict.remove d k).
Proof.
  unfold Dict.wf. induction d as [|[k' v'] d IH]; intros Hwf;
    cbn [Dict.remove Dict.keys map fst].
  - constructor.
  - cbn [Dict.keys map fst] in Hwf. inversion Hwf as [|? ? Hnin Hwf']; subst.
    destruct (String.eqb k' k); [exact Hwf'|].
    cbn [map fst]. constructor; [| apply IH; exact Hwf'].
    intros H. apply Hnin. exact (dict_keys_remove_incl d k k' H).
Qed.

(** X1. After [register_tool] the tool is found under its name, and the
    lookup of every other name is as before. *)
Theorem register_tool_get_tool (r : Registry.ToolRegistry) (t : Registry.BaseTool) :
  Registry.get_tool (Registry.register_tool r t) (JStr (Registry.name t))
    = Ok (Some t) /\
  (forall k, k <> Registry.name t ->
     Registry.get_tool (Registry.register_tool r t) (JStr k)
       = Registry.get_tool r (JStr k)).
Proof.
  unfold Registry.register_tool, Registry.get_tool. split.
  - rewrite dict_get_set_same. reflexivity.
  - intros k Hk. rewrite dict_get_set_other; [reflexivity | exact Hk].
Qed.

(** X2. Registering under a name that is already there replaces the
    tool in place: the list of names and the size stay as they are.
    Registering a new name appends it to the list of names.  Either way
    the names stay distinct. *)
Theorem register_tool_list_tools (r : Registry.ToolRegistry) (t : Registry.BaseTool) :
  (Registry.contains r (Registry.name t) = true ->
     Registry.list_tools (Registry.register_tool r t) = Registry.list_tools r /\
     Registry.len (Registry.register_tool r t) = Registry.len r) /\
  (Registry.contains r (Registry.name t) = false ->
     Registry.list_tools (Registry.register_tool r t)
       = (Registry.list_tools r ++ [Registry.name t])%list /\
     Registry.len (Registry.register_tool r t) = S (Registry.len r)) /\
  (Dict.wf r -> Dict.wf (Registry.register_tool r t)).
Proof.
  unfold Registry.contains, Registry.list_tools, Registry.register_tool, Registry.len.
  assert (Hlen : forall d : Registry.ToolRegistry,
             List.length d = List.length (Dict.keys d)).
  { intros d. unfold Dict.keys. symmetry. apply length_map. }
  pose proof (dict_keys_set r (Registry.name t) t) as Hk.
  split; [| split].
  - intros Hc. rewrite Hc in Hk. split; [exact Hk|].
    rewrite (Hlen (Dict.set _ _ _)), Hk, <- Hlen. reflexivity.
  - intros Hc. rewrite Hc in Hk. split; [exact Hk|].
    rewrite (Hlen (Dict.set _ _ _)), Hk, length_app, <- Hlen. cbn. lia.
  - unfold Dict.wf. intros Hwf. rewrite Hk.
    destruct (Dict.mem r (Registry.name t)) eqn:Hc; [exact Hwf|].
    apply NoDup_app; [exact Hwf | constructor; [intros [] | constructor] |].
    intros k Hin [<- | []].
    apply dict_get_in_keys in Hin. unfold Dict.mem in Hc.
    destruct (Dict.get r (Registry.name t)); [discriminate Hc | congruence].
Qed.

(** X3. [remove_tool] answers whether the name was registered; after it
    the name is not found, every other name is found as before, and
    the names are still distinct. *)
Theorem remove_tool_get_tool (r : Registry.ToolRegistry) (k : string) :
  Dict.wf r ->
  fst (Registry.remove_tool r k) = Registry.contains r k /\
  Registry.get_tool (snd (Registry.remove_tool r k)) (JStr k) = Ok None /\
  (forall k0, k0 <> k ->
     Registry.get_tool (snd (Registry.remove_tool r k)) (JStr k0)
       = Registry.get_tool r (JStr k0)) /\
  Dict.wf (snd (Registry.remove_tool r k)).
Proof.
  intros Hwf. unfold Registry.remove_tool, Registry.contains, Registry.get_tool.
  destruct (Dict.mem r k) eqn:Hc; cbn [fst snd].
  - split; [reflexivity|]. split; [| split].
    + rewrite dict_get_remove_same; [reflexivity | exact Hwf].
    + intros k0 Hk0. rewrite dict_get_remove_other; [reflexivity | exact Hk0].
    + apply dict_wf_remove. exact Hwf.
  - split; [reflexivity|]. split; [| split].
    + unfold Dict.mem in Hc. destruct (Dict.get r k); [discriminate Hc | reflexivity].
    + intros k0 _. reflexivity.
    + exact Hwf.
Qed.

(** ** The tool agent *)

Lemma execute_task_frame llm reg task c :
  exists t' c',
    ToolAgent.execute_task llm reg task c = Ok (t', c') /\
    id t' = id task /\ description t' = description task /\
    tool_used t' = tool_used task /\
    (status t' = "completed" \/ status t' = "failed").
Proof.
  unfold ToolAgent.execute_task.
  destruct (Registry.get_tool reg (tool_used task)) as [[tool|]|e];
    [unfold bind, call; destruct (Registry.execute tool (S c) _) as [d|msg];
     [destruct (ToolAgent.get_default true (Registry.success d))|] | |];
    eexists; eexists; (split; [reflexivity|]); cbn;
    repeat (split; [reflexivity|]); auto.
Qed.

(** X4. [execute_task] never raises, whatever the tool name and
    whatever the tool does.  The task it returns has the same id,
    description and tool, has left [pending], and holds a result when
    completed and an error when failed; at most two external calls are
    made (the extraction and the tool). *)
Theorem execute_task_contract
        (llm : nat -> string) (reg : Registry.ToolRegistry) (task : Task) (c : nat) :
  exists t' c',
    ToolAgent.execute_task llm reg task c = Ok (t', c') /\
    id t' = id task /\ description t' = description task /\
    tool_used t' = tool_used task /\
    (c' = c \/ c' = S (S c)) /\
    ((status t' = "completed" /\ result t' <> None /\ error t' = error task) \/
     (status t' = "failed" /\ error t' <> None /\ result t' = result task)).
Proof.
  unfold ToolAgent.execute_task.
  destruct (Registry.get_tool reg (tool_used task)) as [[tool|]|e].
  - unfold bind, call.
    destruct (Registry.execute tool (S c) _) as [d|msg].
    + destruct (ToolAgent.get_default true (Registry.success d));
        eexists; eexists; (split; [reflexivity|]); cbn;
        repeat (split; [reflexivity|]); (split; [right; reflexivity|]);
        [left | right]; repeat split; discriminate.
    + eexists; eexists; (split; [reflexivity|]); cbn;
        repeat (split; [reflexivity|]); (split; [right; reflexivity|]).
      right. repeat split. discriminate.
  - eexists; eexists; (split; [reflexivity|]); cbn;
      repeat (split; [reflexivity|]); (split; [left; reflexivity|]).
    right. repeat split. discriminate.
  - eexists; eexists; (split; [reflexivity|]); cbn;
      repeat (split; [reflexivity|]); (split; [left; reflexivity|]).
    right. repeat split. discriminate.
Qed.

(** X5. When the tool is registered, [execute_task] asks the LLM for
    the input, strips it and calls the tool once with it.  A reply
    without [success: False] completes the task with the reply's
    [result], or with the text of the whole reply when it has none; a
    reply with [success: False] fails it with the reply's [error], or
    with "Tool execution failed"; an exception of the tool fails it with
    "Execution error: " and the exception's text. *)
Theorem execute_task_tool_reply
        (llm : nat -> string) (reg : Registry.ToolRegistry) (task : Task) (c : nat)
        (tool : Registry.BaseTool) :
  Registry.get_tool reg (tool_used task) = Ok (Some tool) ->
  let answer := Registry.execute tool (S c) (PyStr.strip (llm c)) in
  (forall d, answer = Registry.Replied d -> Registry.success d <> Some false ->
     ToolAgent.execute_task llm reg task c =
       Ok (mkTask (id task) (description task) "completed" (tool_used task)
                  (Some (match Registry.reply_result d with
                         | Some r => r
                         | None => Registry.shown d
                         end))
                  (error task), S (S c))) /\
  (forall d, answer = Registry.Replied d -> Registry.success d = Some false ->
     ToolAgent.execute_task llm reg task c =
       Ok (mkTask (id task) (description task) "failed" (tool_used task)
                  (result task)
                  (Some (match Registry.reply_error d with
                         | Some e => e
                         | None => "Tool execution failed"
                         end)), S (S c))) /\
  (forall msg, answer = Registry.Raised msg ->
     ToolAgent.execute_task llm reg task c =
       Ok (mkTask (id task) (description task) "failed" (tool_used task)
                  (result task) (Some ("Execution error: " ++ msg)), S (S c))).
Proof.
  intros Hget. cbv zeta. unfold ToolAgent.execute_task. rewrite Hget.
  unfold bind, call. split; [| split].
  - intros d -> Hs. unfold ToolAgent.get_default, ToolAgent.completed_with.
    destruct (Registry.success d) as [[|]|]; [| congruence |];
      destruct (Registry.reply_result d); reflexivity.
  - intros d -> Hs. rewrite Hs.
    unfold ToolAgent.get_default, ToolAgent.failed_with.
    destruct (Registry.reply_error d); reflexivity.
  - intros msg ->. reflexivity.
Qed.

(** ** The reflection agent *)

(** X6. [should_refine_plan] decides without the LLM whenever no task
    is completed: it answers true exactly when a task has failed and
    fewer than two iterations were made, or when nothing is pending and
    no iteration was made. *)
Theorem should_refine_plan_without_llm
        (llm : nat -> string) (state : WorkflowState) (c : nat) :
  with_status "completed" (tasks state) = [] ->
  ReflectionAgent.should_refine_plan llm state c =
    Ok ((ReflectionAgent.nonempty (with_status "failed" (tasks state))
           && (iteration_count state <? 2)%Z)
        || (negb (ReflectionAgent.nonempty (with_status "pending" (tasks state)))
              && (iteration_count state <? 1)%Z), c).
Proof.
  intros Hc. unfold ReflectionAgent.should_refine_plan. rewrite Hc.
  cbn [ReflectionAgent.nonempty negb andb].
  destruct (3 <=? iteration_count state)%Z eqn:E3.
  - apply Z.leb_le in E3.
    assert (E2 : (iteration_count state <? 2)%Z = false) by (apply Z.ltb_ge; lia).
    assert (E1 : (iteration_count state <? 1)%Z = false) by (apply Z.ltb_ge; lia).
    rewrite E2, E1, !andb_false_r. reflexivity.
  - destruct (ReflectionAgent.nonempty (with_status "failed" (tasks state))
              && (iteration_count state <? 2)%Z); [reflexivity|].
    cbn [orb].
    destruct (negb (ReflectionAgent.nonempty (with_status "pending" (tasks state)))
              && (iteration_count state <? 1)%Z); reflexivity.
Qed.

(** With a completed task and fewer than three iterations,
    [should_refine_plan] answers true without the LLM when a task has
    failed and fewer than two iterations were made; otherwise it asks
    the LLM once and answers true exactly when the lower-cased answer
    contains "no". *)
Lemma should_refine_plan_with_completed
        (llm : nat -> string) (state : WorkflowState) (c : nat) :
  with_status "completed" (tasks state) <> [] ->
  (iteration_count state < 3)%Z ->
  ReflectionAgent.should_refine_plan llm state c =
    if ReflectionAgent.nonempty (with_status "failed" (tasks state))
       && (iteration_count state <? 2)%Z
    then Ok (true, c)
    else Ok (PyStr.contains "no" (PyStr.lower (llm c)), S c).
Proof.
  intros Hc Hi. unfold ReflectionAgent.should_refine_plan.
  assert (E3 : (3 <=? iteration_count state)%Z = false) by (apply Z.leb_gt; exact Hi).
  rewrite E3.
  destruct (ReflectionAgent.nonempty (with_status "failed" (tasks state))
            && (iteration_count state <? 2)%Z); [reflexivity|].
  destruct (with_status "completed" (tasks state)) as [|t l]; [contradiction|].
  reflexivity.
Qed.

Lemma prefix_app (p s : string) : String.prefix p (p ++ s) = true.
Proof.
  induction p as [|c p IH]; cbn [append].
  - destruct s; reflexivity.
  - cbn [String.prefix].
    destruct (ascii_dec c c) as [_ | Hne]; [exact IH | congruence].
Qed.

Lemma contains_prefix (sub s : string) :
  String.prefix sub s = true -> PyStr.contains sub s = true.
Proof. intros H. destruct s; cbn [PyStr.contains]; rewrite H; reflexivity. Qed.

Lemma contains_app (sub a b : string) :
  PyStr.contains sub (a ++ sub ++ b) = true.
Proof.
  induction a as [|c a IH]; cbn [append].
  - apply contains_prefix, prefix_app.
  - cbn [PyStr.contains]. rewrite IH. apply orb_true_r.
Qed.

Lemma lower_app (a b : string) :
  PyStr.lower (a ++ b) = PyStr.lower a ++ PyStr.lower b.
Proof.
  induction a as [|c a IH]; cbn [append PyStr.lower]; [reflexivity|].
  rewrite IH. reflexivity.
Qed.

(** X7. The adequacy answer is searched for the letters "no" in any
    casing and anywhere in the text: when the LLM is asked (a completed
    task, fewer than three iterations, no failed task), every answer
    that holds them, "I do not know" as much as "No", makes
    [should_refine_plan] answer true. *)
Theorem adequacy_answer_is_a_substring_test
        (llm : nat -> string) (state : WorkflowState) (c : nat)
        (before word after : string) :
  with_status "completed" (tasks state) <> [] ->
  with_status "failed" (tasks state) = [] ->
  (iteration_count state < 3)%Z ->
  PyStr.lower word = "no" ->
  llm c = before ++ word ++ after ->
  ReflectionAgent.should_refine_plan llm state c = Ok (true, S c).
Proof.
  intros Hc Hf Hi Hw Hans.
  rewrite (should_refine_plan_with_completed llm state c Hc Hi).
  rewrite Hf. cbn [ReflectionAgent.nonempty andb].
  rewrite Hans, !lower_app, Hw, contains_app. reflexivity.
Qed.

Lemma modify_failed_spec llm failed :
  forall c, exists modifies,
    ReflectionAgent.modify_failed llm failed c
      = Ok (modifies, c + List.length failed) /\
    List.length modifies = List.length failed /\
    (forall k t, nth_error failed k = Some t ->
       nth_error modifies k =
         Some (ReflectionAgent.Modify (id t) (PyStr.strip (llm (c + k)))
                                      (tool_used t))).
Proof.
  induction failed as [|t failed IH]; intros c; cbn [ReflectionAgent.modify_failed].
  - exists []. split; [unfold ret; rewrite Nat.add_0_r; reflexivity|].
    split; [reflexivity|]. intros k t H. destruct k; discriminate H.
  - destruct (IH (S c)) as (ms & Hm & Hl & Hn).
    unfold bind at 1. cbn [call]. unfold bind. rewrite Hm.
    eexists. split; [cbn [ret List.length]; rewrite Nat.add_succ_r; reflexivity|].
    split; [cbn [List.length]; rewrite Hl; reflexivity|].
    intros k t0 H. destruct k as [|k].
    + cbn in H. inversion H; subst. rewrite Nat.add_0_r. reflexivity.
    + cbn [nth_error] in *. rewrite (Hn k t0 H), Nat.add_succ_r. reflexivity.
Qed.

(** X9. [suggest_refinements] never raises.  It returns one [modify]
    per failed task, in the order of the task list, each with the id
    and tool of its task and the stripped answer of its own LLM call,
    followed by at most one [add], which it considers only when no task
    is completed; it makes one LLM call per failed task and one more
    when no task is completed. *)
Theorem suggest_refinements_shape
        (llm : nat -> string) (state : WorkflowState) (c : nat) :
  let failed := with_status "failed" (tasks state) in
  let completed := with_status "completed" (tasks state) in
  exists modifies adds,
    ReflectionAgent.suggest_refinements llm state c =
      Ok ((modifies ++ adds)%list,
          c + List.length failed + (if ReflectionAgent.nonempty completed then 0 else 1)) /\
    List.length modifies = List.length failed /\
    (forall k t, nth_error failed k = Some t ->
       nth_error modifies k =
         Some (ReflectionAgent.Modify (id t) (PyStr.strip (llm (c + k)))
                                      (tool_used t))) /\
    (adds = [] \/
     (completed = [] /\ exists d t, adds = [ReflectionAgent.Add d t])).
Proof.
  cbv zeta. unfold ReflectionAgent.suggest_refinements.
  destruct (modify_failed_spec llm (with_status "failed" (tasks state)) c)
    as (ms & Hm & Hl & Hn).
  unfold bind at 1. rewrite Hm.
  destruct (with_status "completed" (tasks state)) as [|t0 l0] eqn:Hc;
    cbn [ReflectionAgent.nonempty negb].
  - unfold bind, call.
    destruct (PyStr.contains "|" _).
    + destruct (PyStr.split _ _) as [|d [|t [|x l]]].
      * exists ms, []. rewrite app_nil_r, Nat.add_1_r. unfold ret. auto.
      * exists ms, []. rewrite app_nil_r, Nat.add_1_r. unfold ret. auto.
      * exists ms, [ReflectionAgent.Add (PyStr.strip d) (PyStr.strip t)].
        rewrite Nat.add_1_r. unfold ret.
        split; [reflexivity|]. split; [exact Hl|]. split; [exact Hn|].
        right. split; [reflexivity|]. eexists; eexists; reflexivity.
      * exists ms, []. rewrite app_nil_r, Nat.add_1_r. unfold ret. auto.
    + exists ms, []. rewrite app_nil_r, Nat.add_1_r. unfold ret. auto.
  - exists ms, []. rewrite app_nil_r, Nat.add_0_r. unfold ret. auto.
Qed.

Lemma split_length sep s :
  List.length (PyStr.split sep s) = S (PyStr.count sep s).
Proof.
  induction s as [|c s IH]; cbn [PyStr.split PyStr.count]; [reflexivity|].
  destruct (Ascii.eqb c sep).
  - cbn [List.length]. rewrite IH. reflexivity.
  - destruct (PyStr.split sep s) as [|p ps]; [discriminate IH|].
    cbn [List.length] in *. exact IH.
Qed.

Lemma count_lstrip sep s :
  PyStr.is_space sep = false ->
  PyStr.count sep (PyStr.lstrip s) = PyStr.count sep s.
Proof.
  intros Hsep. induction s as [|c s IH]; cbn [PyStr.lstrip]; [reflexivity|].
  destruct (PyStr.is_space c) eqn:E; [| reflexivity].
  rewrite IH. cbn [PyStr.count].
  destruct (Ascii.eqb c sep) eqn:Ec; [| reflexivity].
  apply Ascii.eqb_eq in Ec. congruence.
Qed.

Lemma count_rstrip sep s :
  PyStr.is_space sep = false ->
  PyStr.count sep (PyStr.rstrip s) = PyStr.count sep s.
Proof.
  intros Hsep. induction s as [|c s IH]; cbn [PyStr.rstrip]; [reflexivity|].
  destruct (PyStr.rstrip s) as [|c' r'] eqn:E.
  - destruct (PyStr.is_space c) eqn:Ec.
    + cbn [PyStr.count] in *. rewrite <- IH.
      destruct (Ascii.eqb c sep) eqn:Es; [| reflexivity].
      apply Ascii.eqb_eq in Es. congruence.
    + cbn [PyStr.count] in *. rewrite <- IH. reflexivity.
  - cbn [PyStr.count] in *. rewrite <- IH. reflexivity.
Qed.

Lemma count_strip sep s :
  PyStr.is_space sep = false ->
  PyStr.count sep (PyStr.strip s) = PyStr.count sep s.
Proof.
  intros Hsep. unfold PyStr.strip.
  rewrite count_rstrip, count_lstrip; [reflexivity | exact Hsep | exact Hsep].
Qed.

Lemma contains_char_count sep s :
  PyStr.contains (String sep EmptyString) s = true <-> 0 < PyStr.count sep s.
Proof.
  induction s as [|c s IH]; cbn [PyStr.contains PyStr.count String.prefix].
  - split; [discriminate | lia].
  - destruct (ascii_dec sep c) as [<- | Hne].
    + rewrite Ascii.eqb_refl.
      assert (Hp : String.prefix EmptyString s = true) by (destruct s; reflexivity).
      rewrite Hp. cbn. split; [lia | reflexivity].
    + assert (Ec : Ascii.eqb c sep = false).
      { apply Ascii.eqb_neq. congruence. }
      rewrite Ec. cbn [orb plus]. exact IH.
Qed.

Lemma modify_failed_only_modifies llm failed :
  forall c rs c' d t,
    ReflectionAgent.modify_failed llm failed c = Ok (rs, c') ->
    ~ In (ReflectionAgent.Add d t) rs.
Proof.
  induction failed as [|x failed IH]; intros c rs c' d t H;
    cbn [ReflectionAgent.modify_failed] in H.
  - apply ret_ok in H. destruct H as [<- _]. intros [].
  - unbind H. apply ret_ok in H. destruct H as [<- _].
    intros [Hin | Hin]; [discriminate Hin | exact (IH _ _ _ d t Hm0 Hin)].
Qed.

(** X10. With no completed task, [suggest_refinements] adds a task
    exactly when the answer to its last LLM call holds the character
    "|" once; the new task's description and tool are the two sides of
    it, stripped.  An answer with no bar or with several adds
    nothing. *)
Theorem suggest_refinements_add
        (llm : nat -> string) (state : WorkflowState) (c : nat)
        (rs : list ReflectionAgent.refinement) (c' : nat) :
  with_status "completed" (tasks state) = [] ->
  ReflectionAgent.suggest_refinements llm state c = Ok (rs, c') ->
  let answer := llm (c + List.length (with_status "failed" (tasks state))) in
  (PyStr.count "|" answer = 1 ->
     exists d t, PyStr.split "|" (PyStr.strip answer) = [d; t] /\
                 In (ReflectionAgent.Add (PyStr.strip d) (PyStr.strip t)) rs) /\
  (PyStr.count "|" answer <> 1 ->
     forall d t, ~ In (ReflectionAgent.Add d t) rs).
Proof.
  intros Hc H. cbv zeta. unfold ReflectionAgent.suggest_refinements in H.
  rewrite Hc in H. cbn [ReflectionAgent.nonempty negb] in H.
  apply bind_ok in H. destruct H as (ms & c1 & Hm & H).
  destruct (modify_failed_spec llm (with_status "failed" (tasks state)) c)
    as (ms' & Hm' & _). rewrite Hm' in Hm. inversion Hm; subst ms' c1. clear Hm.
  assert (Hno : forall d t, ~ In (ReflectionAgent.Add d t) ms).
  { intros d t. exact (modify_failed_only_modifies llm _ _ _ _ d t Hm'). }
  unfold bind, call in H.
  set (answer := llm (c + List.length (with_status "failed" (tasks state)))) in *.
  pose proof (split_length "|" (PyStr.strip answer)) as Hlen.
  rewrite count_strip in Hlen by reflexivity.
  pose proof (contains_char_count "|" answer) as Hcont.
  destruct (PyStr.contains "|" answer) eqn:E.
  - destruct (PyStr.split "|" (PyStr.strip answer)) as [|d [|t [|x l]]];
      cbn [List.length] in Hlen; apply ret_ok in H; destruct H as [<- _].
    + discriminate Hlen.
    + split; [intros H1; lia | intros _ d0 t0; apply Hno].
    + split.
      * intros _. exists d, t. split; [reflexivity|].
        apply in_or_app. right. left. reflexivity.
      * intros H1. lia.
    + split; [intros H1; lia | intros _ d0 t0; apply Hno].
  - apply ret_ok in H. destruct H as [<- _].
    split; [| intros _ d t; apply Hno].
    intros H1. assert (0 < PyStr.count "|" answer) by lia.
    apply Hcont in H. discriminate H.
Qed.

(** ** The stages of the graph *)





Lemma reflect_node_ceiling llm state c :
  (3 <= iteration_count state)%Z ->
  Workflow.reflect_node llm state c = Ok (set_should_continue state (Some false), c).
Proof.
  intros Hi. unfold Workflow.reflect_node, bind, ReflectionAgent.should_refine_plan.
  apply Z.leb_le in Hi. rewrite Hi. reflexivity.
Qed.

Lemma suggest_refinements_head llm s c t0 failed :
  with_status "failed" (tasks s) = t0 :: failed ->
  exists rs c',
    ReflectionAgent.suggest_refinements llm s c =
      Ok (ReflectionAgent.Modify (id t0) (PyStr.strip (llm c)) (tool_used t0) :: rs, c').
Proof.
  intros Hf. unfold ReflectionAgent.suggest_refinements. rewrite Hf.
  cbn [ReflectionAgent.modify_failed].
  destruct (modify_failed_returns llm failed (S c)) as (ms & c1 & Hm).
  unfold bind at 1. unfold bind at 1. cbn [call]. unfold bind at 1. rewrite Hm.
  cbn [ret]. destruct (negb _); [| eexists; eexists; reflexivity].
  unfold bind, call. destruct (PyStr.contains _ _); [| eexists; eexists; reflexivity].
  destruct (PyStr.split _ _) as [|d [|t [|x l]]]; eexists; eexists; reflexivity.
Qed.

(** X12. At the iteration ceiling the reflect stage asks nobody and
    changes nothing but [should_continue], which it sets to false; the
    graph then goes to FINALIZE, or back to PLAN when a task is still
    pending. *)
Theorem reflect_node_at_ceiling
        (llm : nat -> string) (json_loads : string -> option json_value)
        (web_search calculator weather : nat -> string -> Registry.tool_outcome)
        (state : WorkflowState) (c : nat) :
  (3 <= iteration_count state)%Z ->
  Workflow.reflect_node llm state c = Ok (set_should_continue state (Some false), c) /\
  Workflow.step llm json_loads web_search calculator weather
                Workflow.REFLECT state c =
    Ok ((if ReflectionAgent.nonempty (with_status "pending" (tasks state))
         then Workflow.PLAN else Workflow.FINALIZE,
         set_should_continue state (Some false)), c).
Proof.
  intros Hi.
  pose proof (reflect_node_ceiling llm state c Hi) as Hr.
  split; [exact Hr|].
  unfold Workflow.step. unfold bind at 1. rewrite Hr.
  unfold bind, Workflow.branch, Workflow.should_continue.
  cbn [tasks set_should_continue State.should_continue Workflow.truthy].
  destruct (ReflectionAgent.nonempty _); reflexivity.
Qed.

(** X13. The finalize stage changes [final_answer] only.  Run a second
    time it is not idempotent when a task is completed: it asks the LLM
    again and the second answer replaces the first.  Without a completed
    task both runs store the apology and make no call. *)
Theorem finalize_node_twice
        (llm : nat -> string) (state : WorkflowState) (c : nat) :
  let answered (a : string) :=
    mkState (original_query state) (tasks state) (current_task_id state)
            (iteration_count state) (Some a) (State.should_continue state)
            (feedback state) (needs_replan state) in
  if ReflectionAgent.nonempty (with_status "completed" (tasks state))
  then
    Workflow.finalize_node llm state c = Ok (answered (llm c), S c) /\
    Workflow.finalize_node llm (answered (llm c)) (S c)
      = Ok (answered (llm (S c)), S (S c))
  else
    Workflow.finalize_node llm state c = Ok (answered Workflow.apology, c) /\
    Workflow.finalize_node llm (answered Workflow.apology) c
      = Ok (answered Workflow.apology, c).
Proof.
  cbv zeta. unfold Workflow.finalize_node.
  cbn [tasks].
  destruct (ReflectionAgent.nonempty (with_status "completed" (tasks state)));
    split; reflexivity.
Qed.

Lemma kept_refl t : kept t t.
Proof. unfold kept. auto. Qed.

Lemma kept_trans t1 t2 t3 : kept t1 t2 -> kept t2 t3 -> kept t1 t3.
Proof.
  unfold kept. intros (Hi & Ht & Hr & H12) (Hi' & Ht' & Hr' & H23).
  repeat split; try congruence.
  destruct H23 as [-> | H23]; [exact H12 | right; exact H23].
Qed.

Lemma extends_refl ts : extends ts ts.
Proof. intros k t H. exists t. split; [exact H | apply kept_refl]. Qed.

Lemma extends_trans ts1 ts2 ts3 :
  extends ts1 ts2 -> extends ts2 ts3 -> extends ts1 ts3.
Proof.
  intros H12 H23 k t H. destruct (H12 k t H) as (t2 & H2 & K2).
  destruct (H23 k t2 H2) as (t3 & H3 & K3).
  exists t3. split; [exact H3 | exact (kept_trans _ _ _ K2 K3)].
Qed.

Lemma modify_first_extends task_id d ts :
  extends ts (Workflow.modify_first task_id d ts) /\
  List.length (Workflow.modify_first task_id d ts) = List.length ts.
Proof.
  induction ts as [|x ts [IH IHl]]; cbn [Workflow.modify_first].
  - split; [apply extends_refl | reflexivity].
  - destruct (id x =? task_id)%Z.
    + split; [| reflexivity]. intros k t H. destruct k as [|k].
      * cbn in H. inversion H; subst. eexists. split; [reflexivity|].
        unfold kept. cbn. repeat (split; [reflexivity|]).
        right. split; reflexivity.
      * cbn [nth_error] in *. exists t. split; [exact H | apply kept_refl].
    + split; [| cbn [List.length]; rewrite IHl; reflexivity].
      intros k t H. destruct k as [|k].
      * cbn in H. inversion H; subst. exists t. split; [reflexivity | apply kept_refl].
      * cbn [nth_error] in *. exact (IH k t H).
Qed.

Lemma apply_refinement_extends ts r :
  extends ts (Workflow.apply_refinement ts r) /\
  List.length (Workflow.apply_refinement ts r)
    = List.length ts + (if is_add r then 1 else 0).
Proof.
  destruct r as [task_id d tool | d tool]; cbn [Workflow.apply_refinement is_add].
  - destruct (modify_first_extends task_id d ts) as [He Hl].
    split; [exact He | rewrite Hl; lia].
  - split; [| rewrite length_app; reflexivity].
    intros k t H. exists t. split; [| apply kept_refl].
    rewrite nth_error_app1; [exact H|].
    apply nth_error_Some. congruence.
Qed.

Lemma apply_refinements_extend rs :
  forall ts,
    extends ts (fold_left Workflow.apply_refinement rs ts) /\
    List.length (fold_left Workflow.apply_refinement rs ts)
      = List.length ts + List.length (filter is_add rs).
Proof.
  induction rs as [|r rs IH]; intros ts; cbn [fold_left filter].
  - split; [apply extends_refl | cbn; lia].
  - destruct (apply_refinement_extends ts r) as [He Hl].
    destruct (IH (Workflow.apply_refinement ts r)) as [He' Hl'].
    split; [exact (extends_trans _ _ _ He He')|].
    rewrite Hl', Hl. destruct (is_add r); cbn [List.length]; lia.
Qed.

Lemma modify_failed_no_add llm failed :
  forall c rs c',
    ReflectionAgent.modify_failed llm failed c = Ok (rs, c') ->
    filter is_add rs = [].
Proof.
  induction failed as [|x failed IH]; intros c rs c' H;
    cbn [ReflectionAgent.modify_failed] in H.
  - apply ret_ok in H. destruct H as [<- _]. reflexivity.
  - unbind H. apply ret_ok in H. destruct H as [<- _].
    cbn [filter is_add]. exact (IH _ _ _ Hm0).
Qed.

Lemma suggest_refinements_one_add llm s c rs c' :
  ReflectionAgent.suggest_refinements llm s c = Ok (rs, c') ->
  List.length (filter is_add rs) <= 1.
Proof.
  unfold ReflectionAgent.suggest_refinements. intros H.
  apply bind_ok in H. destruct H as (ms & c1 & Hm & H).
  apply modify_failed_no_add in Hm.
  assert (Hadd : forall d t,
             List.length (filter is_add (ms ++ [ReflectionAgent.Add d t])) <= 1).
  { intros d t. rewrite filter_app, Hm. cbn. lia. }
  assert (Hms : List.length (filter is_add ms) <= 1) by (rewrite Hm; cbn; lia).
  destruct (negb _); [| apply ret_ok in H; destruct H as [<- _]; exact Hms].
  unfold bind, call in H. destruct (PyStr.contains _ _);
    [| apply ret_ok in H; destruct H as [<- _]; exact Hms].
  destruct (PyStr.split _ _) as [|d [|t [|x l]]];
    apply ret_ok in H; destruct H as [<- _]; auto.
Qed.

Lemma reflect_node_frame llm state c s' c' :
  Workflow.reflect_node llm state c = Ok (s', c') ->
  extends (tasks state) (tasks s') /\
  List.length (tasks state) <= List.length (tasks s')
    <= S (List.length (tasks state)) /\
  original_query s' = original_query state /\
  final_answer s' = final_answer state /\
  needs_replan s' = needs_replan state /\
  current_task_id s' = current_task_id state /\
  feedback s' = feedback state.
Proof.
  intros H. unfold Workflow.reflect_node in H. unbind H.
  destruct (_ && _).
  - unbind H. apply ret_ok in H. destruct H as [<- _].
    cbn [tasks set_tasks set_iteration_count set_should_continue original_query
         final_answer needs_replan current_task_id feedback].
    destruct (apply_refinements_extend a0 (tasks state)) as [He Hl].
    pose proof (suggest_refinements_one_add _ _ _ _ _ Hm0) as H1.
    split; [exact He|]. split; [lia|]. repeat split.
  - apply ret_ok in H. destruct H as [<- _].
    cbn [tasks set_should_continue original_query final_answer needs_replan
         current_task_id feedback].
    split; [apply extends_refl|]. split; [lia|]. repeat split.
Qed.

(** X14. The reflect stage never raises and never deletes a task: every
    task stays at its position with its id, tool and result, either
    untouched or reset to pending with its error cleared, and at most
    one task is appended.  Of the other fields it writes
    [iteration_count] and [should_continue] only. *)
Theorem reflect_node_keeps_tasks
        (llm : nat -> string) (state : WorkflowState) (c : nat) :
  exists s' c',
    Workflow.reflect_node llm state c = Ok (s', c') /\
    extends (tasks state) (tasks s') /\
    List.length (tasks state) <= List.length (tasks s')
      <= S (List.length (tasks state)) /\
    original_query s' = original_query state /\
    final_answer s' = final_answer state /\
    needs_replan s' = needs_replan state /\
    current_task_id s' = current_task_id state /\
    feedback s' = feedback state.
Proof.
  destruct (reflect_node_returns llm state c) as (s' & c' & H).
  exists s', c'. split; [exact H|].
  exact (reflect_node_frame llm state c s' c' H).
Qed.

(** ** What holds along every run *)

Lemma execute_first_valid llm web_search calculator weather ts :
  forall c ts' c',
    Workflow.execute_first llm web_search calculator weather ts c = Ok (ts', c') ->
    Forall valid_status ts ->
    Forall valid_status ts' /\ List.length ts' = List.length ts.
Proof.
  induction ts as [|t ts IH]; intros c ts' c' H Hv; cbn [Workflow.execute_first] in H.
  - apply ret_ok in H. destruct H as [<- _]. split; [constructor | reflexivity].
  - inversion Hv as [|? ? Ht Hts]; subst.
    destruct (String.eqb (status t) "pending").
    + unbind H. apply ret_ok in H. destruct H as [<- _].
      split; [| reflexivity]. constructor; [| exact Hts].
      destruct (execute_task_frame llm
                  (Workflow.tool_registry web_search calculator weather) t c)
        as (t2 & c2 & Hex & _ & _ & _ & Hst).
      rewrite Hex in Hm. inversion Hm; subst a c0.
      unfold valid_status. cbn [status].
      destruct Hst as [Hs | Hs]; rewrite Hs; auto.
    + unbind H. apply ret_ok in H. destruct H as [<- _].
      destruct (IH _ _ _ Hm Hts) as [Hv' Hl].
      split; [constructor; assumption | cbn [List.length]; rewrite Hl; reflexivity].
Qed.

Lemma modify_first_valid task_id d ts :
  Forall valid_status ts -> Forall valid_status (Workflow.modify_first task_id d ts).
Proof.
  induction 1 as [|t ts Ht Hts IH]; cbn [Workflow.modify_first]; [constructor|].
  destruct (id t =? task_id)%Z; constructor; try assumption.
  left. reflexivity.
Qed.

Lemma apply_refinements_valid rs :
  forall ts, Forall valid_status ts ->
             Forall valid_status (fold_left Workflow.apply_refinement rs ts).
Proof.
  induction rs as [|r rs IH]; intros ts Hv; cbn [fold_left]; [exact Hv|].
  apply IH. destruct r as [task_id d tool | d tool]; cbn [Workflow.apply_refinement].
  - apply modify_first_valid. exact Hv.
  - apply Forall_app. split; [exact Hv|].
    constructor; [left; reflexivity | constructor].
Qed.

Lemma no_pending_routing s :
  ReflectionAgent.nonempty (with_status "pending" (tasks s)) = false ->
  no_pending s.
Proof.
  intros E t Hin Hst. apply empty_with_status in E. apply E.
  exists t. split; assumption.
Qed.

Section AlongARun.

Variable llm : nat -> string.
Variable json_loads : string -> option json_value.
Variables web_search calculator weather : nat -> string -> Registry.tool_outcome.

Local Abbreviation step := (Workflow.step llm json_loads web_search calculator weather).
Local Abbreviation reachable :=
  (Workflow.reachable llm json_loads web_search calculator weather).

(** The facts a stage hands on to the next one. *)
Lemma reachable_facts query n s c :
  reachable query n s c ->
  (original_query s = query /\ current_task_id s = None /\ feedback s = []) /\
  Forall valid_status (tasks s) /\
  (n = Workflow.REFLECT \/ n = Workflow.FINALIZE \/ n = Workflow.DONE ->
   no_pending s) /\
  (n = Workflow.REFLECT -> State.should_continue s = Some true) /\
  (State.should_continue s <> None) /\
  (n = Workflow.DONE <-> final_answer s <> None) /\
  ((n = Workflow.PLAN /\ c = 0 /\ s = initial_state query) \/ tasks s <> []).
Proof.
  induction 1 as [|n s c n' s' c' _ IH Hs].
  - split; [repeat split|]. split; [constructor|].
    split; [intros [H | [H | H]]; discriminate H|].
    split; [discriminate|]. split; [discriminate|].
    split; [split; [discriminate | intros H; exfalso; apply H; reflexivity]|].
    left. repeat split.
  - destruct IH as ((Hq & Hid & Hfb) & Hv & Hnp & Hre & Hsc & Hfa & Hne).
    unfold Workflow.step in Hs. destruct n.
    + (* PLAN *)
      unbind Hs. apply ret_ok in Hs. destruct Hs as [Hs _].
      inversion Hs; subst n' a. clear Hs.
      assert (Hfa0 : final_answer s = None).
      { destruct (final_answer s) eqn:E; [| reflexivity].
        assert (Workflow.PLAN = Workflow.DONE) by (apply Hfa; discriminate).
        discriminate. }
      unfold Workflow.plan_node in Hm. destruct (negb _ || _) eqn:Ec.
      * unbind Hm. apply ret_ok in Hm. destruct Hm as [<- _].
        cbn [original_query current_task_id feedback tasks final_answer
             State.should_continue set_needs_replan set_tasks].
        pose proof (plan_fresh _ _ _ _ _ _ _ Hm0) as Hf.
        apply plan_returns_nonempty in Hm0. destruct Hm0 as [Hne' _].
        split; [repeat split; assumption|].
        split; [eapply Forall_impl; [| exact Hf]; intros t (Hst & _); left; exact Hst|].
        split; [intros [H | [H | H]]; discriminate H|].
        split; [discriminate|]. split; [exact Hsc|].
        split; [split; [discriminate | intros H; congruence]|].
        right. exact Hne'.
      * apply ret_ok in Hm. destruct Hm as [<- _].
        split; [repeat split; assumption|]. split; [exact Hv|].
        split; [intros [H | [H | H]]; discriminate H|].
        split; [discriminate|]. split; [exact Hsc|].
        split; [split; [discriminate | intros H; congruence]|].
        right. apply orb_false_iff in Ec. destruct Ec as [Ec _].
        destruct (tasks s); [discriminate Ec | discriminate].
    + (* EXECUTE *)
      unbind Hs. apply ret_ok in Hs. destruct Hs as [Hs _].
      inversion Hs; subst n' a. clear Hs.
      assert (Hfa0 : final_answer s = None).
      { destruct (final_answer s) eqn:E; [| reflexivity].
        assert (Workflow.EXECUTE = Workflow.DONE) by (apply Hfa; discriminate).
        discriminate. }
      unfold Workflow.execute_node in Hm. unbind Hm.
      apply ret_ok in Hm. destruct Hm as [<- _].
      destruct (execute_first_valid _ _ _ _ _ _ _ _ Hm1 Hv) as [Hv' Hl].
      unfold Workflow.branch, Workflow.should_continue in Hm0.
      cbn [tasks set_tasks State.should_continue] in Hm0.
      cbn [original_query current_task_id feedback tasks final_answer
           State.should_continue set_tasks].
      split; [repeat split; assumption|]. split; [exact Hv'|].
      assert (Hne' : a <> []).
      { destruct Hne as [(H & _) | Hne]; [discriminate H|].
        intros ->. destruct (tasks s); [congruence | discriminate Hl]. }
      destruct (ReflectionAgent.nonempty (with_status "pending" a)) eqn:E.
      * apply ret_ok in Hm0. destruct Hm0 as [<- _].
        split; [intros [H | [H | H]]; discriminate H|].
        split; [discriminate|]. split; [exact Hsc|].
        split; [split; [discriminate | intros H; congruence]|].
        right. exact Hne'.
      * assert (Hnp' : no_pending (set_tasks s a)) by (apply no_pending_routing; exact E).
        destruct (State.should_continue s) as [[|]|] eqn:F; cbn in Hm0;
          apply ret_ok in Hm0; destruct Hm0 as [<- _];
          (split; [intros _; exact Hnp'|]);
          (split; [intros H; try reflexivity; try discriminate H|]);
          (split; [discriminate || congruence|]);
          (split; [split; [discriminate | intros H; congruence]|]);
          right; exact Hne'.
    + (* REFLECT *)
      unbind Hs. apply ret_ok in Hs. destruct Hs as [Hs _].
      inversion Hs; subst n' a. clear Hs.
      assert (Hfa0 : final_answer s = None).
      { destruct (final_answer s) eqn:E; [| reflexivity].
        assert (Workflow.REFLECT = Workflow.DONE) by (apply Hfa; discriminate).
        discriminate. }
      pose proof Hm as Hr.
      destruct (reflect_node_frame llm s c s' c0 Hm)
        as (_ & [Hlen _] & Hq' & Hfa' & _ & Hid' & Hfb').
      assert (Hv' : Forall valid_status (tasks s')).
      { unfold Workflow.reflect_node in Hr. unbind Hr. destruct (_ && _).
        - unbind Hr. apply ret_ok in Hr. destruct Hr as [<- _].
          cbn [tasks set_tasks set_iteration_count set_should_continue].
          apply apply_refinements_valid. exact Hv.
        - apply ret_ok in Hr. destruct Hr as [<- _]. exact Hv. }
      assert (Hsc' : State.should_continue s' <> None).
      { unfold Workflow.reflect_node in Hr. unbind Hr. destruct (_ && _).
        - unbind Hr. apply ret_ok in Hr. destruct Hr as [<- _]. discriminate.
        - apply ret_ok in Hr. destruct Hr as [<- _]. discriminate. }
      assert (Hne' : tasks s' <> []).
      { destruct Hne as [(H & _) | Hne]; [discriminate H|].
        intros E. rewrite E in Hlen. destruct (tasks s); [congruence | cbn in Hlen; lia]. }
      split; [repeat split; congruence|]. split; [exact Hv'|].
      unfold Workflow.branch, Workflow.should_continue in Hm0.
      destruct (ReflectionAgent.nonempty (with_status "pending" (tasks s'))) eqn:E.
      * cbn in Hm0. apply ret_ok in Hm0. destruct Hm0 as [<- _].
        split; [intros [H | [H | H]]; discriminate H|].
        split; [discriminate|]. split; [exact Hsc'|].
        split; [split; [discriminate | intros H; congruence]|].
        right. exact Hne'.
      * destruct (Workflow.truthy (State.should_continue s')); cbn in Hm0;
          [discriminate Hm0|].
        apply ret_ok in Hm0. destruct Hm0 as [<- _].
        split; [intros _; apply no_pending_routing; exact E|].
        split; [discriminate|]. split; [exact Hsc'|].
        split; [split; [discriminate | intros H; congruence]|].
        right. exact Hne'.
    + (* FINALIZE *)
      unbind Hs. apply ret_ok in Hs. destruct Hs as [Hs _].
      inversion Hs; subst n' a. clear Hs.
      assert (Hs' : exists ans, s' = set_final_answer s (Some ans)).
      { unfold Workflow.finalize_node in Hm. destruct (ReflectionAgent.nonempty _).
        - unbind Hm. apply ret_ok in Hm. destruct Hm as [<- _]. eexists; reflexivity.
        - apply ret_ok in Hm. destruct Hm as [<- _]. eexists; reflexivity. }
      destruct Hs' as [ans ->].
      cbn [original_query current_task_id feedback tasks final_answer
           State.should_continue set_final_answer].
      split; [repeat split; assumption|]. split; [exact Hv|].
      split; [intros _; apply Hnp; right; left; reflexivity|].
      split; [discriminate|]. split; [exact Hsc|].
      split; [split; [discriminate | reflexivity]|].
      destruct Hne as [(H & _) | Hne]; [discriminate H | right; exact Hne].
    + (* DONE *)
      apply ret_ok in Hs. destruct Hs as [Hs _]. inversion Hs; subst n' s'.
      assert (Hne' : (Workflow.DONE = Workflow.PLAN /\ c' = 0 /\
                      s = initial_state query) \/ tasks s <> []).
      { destruct Hne as [(H & _) | Hne]; [discriminate H | right; exact Hne]. }
      exact (conj (conj Hq (conj Hid Hfb))
               (conj Hv (conj Hnp (conj Hre (conj Hsc (conj Hfa Hne')))))).
Qed.

End AlongARun.

(** X15. Along a run the query never changes, [current_task_id] and
    [feedback] are never written, and [final_answer] is set exactly
    when the run has reached the end of the graph. *)
Theorem run_fields
        (llm : nat -> string) (json_loads : string -> option json_value)
        (web_search calculator weather : nat -> string -> Registry.tool_outcome)
        (query : string) (n : Workflow.node) (s : WorkflowState) (c : nat) :
  Workflow.reachable llm json_loads web_search calculator weather query n s c ->
  original_query s = query /\
  current_task_id s = None /\ feedback s = [] /\
  (n = Workflow.DONE <-> final_answer s <> None).
Proof.
  intros H. apply reachable_facts in H.
  destruct H as ((Hq & Hid & Hfb) & _ & _ & _ & _ & Hfa & _).
  repeat split; try assumption; apply Hfa.
Qed.

(** X16. The reflect stage is entered only with no task pending and
    [should_continue] true, and the finalize stage only with no task
    pending; since a status is never anything but pending, completed or
    failed, every task of a finished run is completed or failed. *)
Theorem stage_entry_conditions
        (llm : nat -> string) (json_loads : string -> option json_value)
        (web_search calculator weather : nat -> string -> Registry.tool_outcome)
        (query : string) (n : Workflow.node) (s : WorkflowState) (c : nat) :
  Workflow.reachable llm json_loads web_search calculator weather query n s c ->
  (forall t, In t (tasks s) -> valid_status t) /\
  (n = Workflow.REFLECT ->
     no_pending s /\ State.should_continue s = Some true) /\
  (n = Workflow.FINALIZE \/ n = Workflow.DONE ->
     forall t, In t (tasks s) -> status t = "completed" \/ status t = "failed").
Proof.
  intros H. apply reachable_facts in H.
  destruct H as (_ & Hv & Hnp & Hre & _ & _ & _).
  rewrite Forall_forall in Hv. split; [exact Hv|]. split.
  - intros Hn. split; [apply Hnp; left; exact Hn | apply Hre; exact Hn].
  - intros Hn t Hin.
    assert (Hp : no_pending s) by (apply Hnp; right; exact Hn).
    destruct (Hv t Hin) as [Hs | Hs]; [exfalso; exact (Hp t Hin Hs) | exact Hs].
Qed.

(** X17. Once the plan stage has run the task list is never empty
    again: every later stage of the run sees at least one task. *)
Theorem tasks_never_empty_after_plan
        (llm : nat -> string) (json_loads : string -> option json_value)
        (web_search calculator weather : nat -> string -> Registry.tool_outcome)
        (query : string) (n : Workflow.node) (s : WorkflowState) (c : nat) :
  Workflow.reachable llm json_loads web_search calculator weather query n s c ->
  n <> Workflow.PLAN \/ 0 < c ->
  tasks s <> [].
Proof.
  intros H Hn. apply reachable_facts in H.
  destruct H as (_ & _ & _ & _ & _ & _ & [(Hp & Hc & _) | Hne]); [| exact Hne].
  destruct Hn as [Hn | Hn]; [contradiction | lia].
Qed.

(** ** When the edge out of the reflect stage raises *)

Lemma modify_first_pending task_id d ts :
  In task_id (map id ts) -> has_pending (Workflow.modify_first task_id d ts).
Proof.
  induction ts as [|x ts IH]; intros Hin; [destruct Hin|].
  cbn [Workflow.modify_first]. destruct (id x =? task_id)%Z eqn:E.
  - eexists. split; [left; reflexivity | reflexivity].
  - destruct Hin as [Hin | Hin]; [apply Z.eqb_neq in E; contradiction|].
    destruct (IH Hin) as (t & Ht & Hst). exists t. split; [right; exact Ht | exact Hst].
Qed.

Lemma modify_first_keeps_pending task_id d ts :
  has_pending ts -> has_pending (Workflow.modify_first task_id d ts).
Proof.
  induction ts as [|x ts IH]; intros (t & Hin & Hst); [destruct Hin|].
  cbn [Workflow.modify_first]. destruct (id x =? task_id)%Z.
  - eexists. split; [left; reflexivity | reflexivity].
  - destruct Hin as [<- | Hin].
    + exists x. split; [left; reflexivity | exact Hst].
    + destruct IH as (t' & Ht' & Hst'); [exists t; split; assumption|].
      exists t'. split; [right; exact Ht' | exact Hst'].
Qed.

Lemma apply_refinements_keep_pending rs :
  forall ts, has_pending ts ->
             has_pending (fold_left Workflow.apply_refinement rs ts).
Proof.
  induction rs as [|r rs IH]; intros ts Hp; cbn [fold_left]; [exact Hp|].
  apply IH. destruct r as [task_id d tool | d tool]; cbn [Workflow.apply_refinement].
  - apply modify_first_keeps_pending. exact Hp.
  - destruct Hp as (t & Hin & Hst). exists t.
    split; [apply in_or_app; left; exact Hin | exact Hst].
Qed.

Lemma has_pending_routing ts :
  has_pending ts -> ReflectionAgent.nonempty (with_status "pending" ts) = true.
Proof. intros H. apply nonempty_with_status. exact H. Qed.

(** X19. In a run, the edge out of the reflect stage raises exactly
    when no task has failed, fewer than three iterations were made and
    the adequacy answer holds "no": the reflection then asks for a
    refinement, has nothing to modify or add, and the routing result
    "reflect" has no edge.  In every other case the stage hands over to
    PLAN or FINALIZE. *)
Theorem reflect_stage_raises_iff
        (llm : nat -> string) (json_loads : string -> option json_value)
        (web_search calculator weather : nat -> string -> Registry.tool_outcome)
        (query : string) (s : WorkflowState) (c : nat) :
  Workflow.reachable llm json_loads web_search calculator weather
                     query Workflow.REFLECT s c ->
  (Workflow.step llm json_loads web_search calculator weather Workflow.REFLECT s c
     = Raise (KeyError "reflect") <->
   with_status "failed" (tasks s) = [] /\
   (iteration_count s < 3)%Z /\
   PyStr.contains "no" (PyStr.lower (llm c)) = true) /\
  (forall e,
     Workflow.step llm json_loads web_search calculator weather Workflow.REFLECT s c
       = Raise e -> e = KeyError "reflect").
Proof.
  intros Hreach. split.
  2:{ intros e He. apply step_raises in He.
      destruct He as [[He _] | [_ He]]; [discriminate He | exact He]. }
  pose proof (reachable_facts _ _ _ _ _ _ _ _ _ Hreach)
    as (_ & Hv & Hnp & _ & _ & _ & Hne).
  assert (Hnp' : no_pending s) by (apply Hnp; left; reflexivity). clear Hnp.
  destruct Hne as [(Hn & _) | Hne]; [discriminate Hn|].
  assert (Epend : ReflectionAgent.nonempty (with_status "pending" (tasks s)) = false).
  { apply empty_with_status. intros (t & Hin & Hst). exact (Hnp' t Hin Hst). }
  destruct (Z_lt_le_dec (iteration_count s) 3) as [Hlt | Hge].
  2:{ unfold Workflow.step. unfold bind at 1.
      rewrite (reflect_node_ceiling llm s c Hge).
      unfold bind, Workflow.branch, Workflow.should_continue.
      cbn [tasks set_should_continue State.should_continue Workflow.truthy].
      rewrite Epend. cbn. split; [discriminate | intros (_ & H & _); lia]. }
  destruct (with_status "failed" (tasks s)) as [|t0 failed] eqn:Hfailed.
  - (* no failed task: every task is completed *)
    assert (Hcompl : with_status "completed" (tasks s) <> []).
    { destruct (tasks s) as [|t ts] eqn:Ets; [congruence|].
      rewrite Forall_forall in Hv.
      destruct (Hv t (or_introl eq_refl)) as [Hs | [Hs | Hs]].
      - exfalso. apply (Hnp' t); [rewrite Ets; left; reflexivity | exact Hs].
      - unfold with_status. cbn [filter]. rewrite Hs. discriminate.
      - exfalso. unfold with_status in Hfailed. cbn [filter] in Hfailed.
        rewrite Hs in Hfailed. discriminate Hfailed. }
    pose proof (should_refine_plan_with_completed llm s c Hcompl Hlt) as Hsr.
    rewrite Hfailed in Hsr. cbn [ReflectionAgent.nonempty andb] in Hsr.
    unfold Workflow.step, Workflow.reflect_node.
    unfold bind at 1. unfold bind at 1. unfold bind at 1. rewrite Hsr.
    rewrite (proj2 (Z.ltb_lt _ _) Hlt).
    destruct (PyStr.contains "no" (PyStr.lower (llm c))); cbn [andb].
    + unfold ReflectionAgent.suggest_refinements. rewrite Hfailed.
      cbn [ReflectionAgent.modify_failed]. unfold bind at 1. unfold bind at 1.
      cbn [ret].
      destruct (with_status "completed" (tasks s)) as [|x l]; [congruence|].
      cbn [ReflectionAgent.nonempty negb ret fold_left].
      unfold bind, Workflow.branch, Workflow.should_continue.
      cbn [tasks set_tasks set_iteration_count set_should_continue
           State.should_continue Workflow.truthy].
      rewrite Epend. cbn.
      split; [intros _; split; [reflexivity | split; [exact Hlt | reflexivity]]
             | reflexivity].
    + cbn [ret]. unfold bind, Workflow.branch, Workflow.should_continue.
      cbn [tasks set_should_continue State.should_continue Workflow.truthy].
      rewrite Epend. cbn. split; [discriminate | intros (_ & _ & H); discriminate H].
  - (* a failed task: the stage returns *)
    split; [| intros (H & _); discriminate H]. intros Hraise. exfalso.
    unfold Workflow.step, Workflow.reflect_node, bind in Hraise.
    destruct (should_refine_plan_returns llm s c) as (b & c1 & Hb).
    rewrite Hb in Hraise.
    destruct (b && (iteration_count s <? 3)%Z).
    + destruct (suggest_refinements_head llm s c1 t0 failed Hfailed)
        as (rs & c2 & Hs).
      rewrite Hs in Hraise. cbn [ret] in Hraise.
      assert (Hp : has_pending
                     (fold_left Workflow.apply_refinement
                        (ReflectionAgent.Modify (id t0) (PyStr.strip (llm c1))
                                                (tool_used t0) :: rs) (tasks s))).
      { cbn [fold_left Workflow.apply_refinement].
        apply apply_refinements_keep_pending. apply modify_first_pending.
        apply in_map.
        assert (Hin : In t0 (with_status "failed" (tasks s)))
          by (rewrite Hfailed; left; reflexivity).
        unfold with_status in Hin. apply filter_In in Hin. apply Hin. }
      apply has_pending_routing in Hp.
      unfold Workflow.branch, Workflow.should_continue in Hraise.
      cbn [tasks set_tasks set_iteration_count set_should_continue] in Hraise.
      rewrite Hp in Hraise. discriminate Hraise.
    + cbn [ret] in Hraise.
      unfold Workflow.branch, Workflow.should_continue in Hraise.
      cbn [tasks set_should_continue State.should_continue Workflow.truthy] in Hraise.
      rewrite Epend in Hraise. discriminate Hraise.
Qed.

(** ** More on planning *)

Lemma collect_increasing i items :
  StronglySorted (fun a b => (id a < id b)%Z) (PlanAgent.collect i items) /\
  Forall (fun t => (i < id t)%Z) (PlanAgent.collect i items).
Proof.
  revert i. induction items as [|x items IH]; intros i; cbn [PlanAgent.collect].
  - split; constructor.
  - destruct (IH (i + 1)%Z) as [Hs Hf].
    assert (Hskip : StronglySorted (fun a b => (id a < id b)%Z)
                      (PlanAgent.collect (i + 1) items) /\
                    Forall (fun t => (i < id t)%Z) (PlanAgent.collect (i + 1) items)).
    { split; [exact Hs|]. eapply Forall_impl; [| exact Hf]. cbn. intros t Ht. lia. }
    destruct x as [| | | | | |members]; try exact Hskip.
    destruct (Dict.get members "description"); [| exact Hskip].
    destruct (Dict.get members "tool"); [| exact Hskip].
    split.
    + constructor; [exact Hs|]. eapply Forall_impl; [| exact Hf].
      cbn. intros t Ht. exact Ht.
    + constructor; [cbn; lia|]. eapply Forall_impl; [| exact Hf].
      cbn. intros t Ht. lia.
Qed.

(** X20. Whenever [plan] returns, it has made one LLM call and its list
    is not empty; every task in it is pending with no result and no
    error, and the ids are positive and strictly increasing along the
    list, hence distinct. *)
Theorem plan_returns_fresh_tasks
        (llm : nat -> string) (json_loads : string -> option json_value)
        (state : WorkflowState) (tools : list string) (c : nat)
        (ts : list Task) (c' : nat) :
  PlanAgent.plan llm json_loads state tools c = Ok (ts, c') ->
  c' = S c /\ ts <> [] /\
  Forall fresh ts /\
  Forall (fun t => (1 <= id t)%Z) ts /\
  StronglySorted (fun a b => (id a < id b)%Z) ts.
Proof.
  intros H. pose proof (plan_fresh _ _ _ _ _ _ _ H) as Hf.
  destruct (plan_returns_nonempty _ _ _ _ _ _ _ H) as [Hne Hc].
  split; [exact Hc|]. split; [exact Hne|]. split; [exact Hf|].
  unfold PlanAgent.plan, bind, call in H.
  assert (Hfb : Forall (fun t => (1 <= id t)%Z) (PlanAgent.create_fallback_task state) /\
                StronglySorted (fun a b => (id a < id b)%Z)
                               (PlanAgent.create_fallback_task state)).
  { unfold PlanAgent.create_fallback_task. split.
    - constructor; [cbn; lia | constructor].
    - constructor; constructor. }
  destruct (json_loads _) as [v|].
  - destruct (PlanAgent.iterate v) as [items|e]; [| discriminate H].
    destruct (collect_increasing 0 items) as [Hs Hpos].
    destruct (PlanAgent.collect 0 items) as [|t l];
      apply ret_ok in H; destruct H as [<- _]; [exact Hfb|].
    split; [| exact Hs]. eapply Forall_impl; [| exact Hpos].
    cbn. intros x Hx. lia.
  - apply ret_ok in H. destruct H as [<- _]. exact Hfb.
Qed.

Lemma collect_all_valid items :
  Forall valid_entry items ->
  forall i,
    List.length (PlanAgent.collect i items) = List.length items /\
    (forall k members,
       nth_error items k = Some (JObj members) ->
       exists d t,
         Dict.get members "description" = Some d /\
         Dict.get members "tool" = Some t /\
         nth_error (PlanAgent.collect i items) k
           = Some (mkTask (i + Z.of_nat k + 1) d "pending" t None None)).
Proof.
  induction 1 as [|x items (members & d & t & -> & Hd & Ht) _ IH]; intros i.
  - split; [reflexivity|]. intros k m H. destruct k; discriminate H.
  - cbn [PlanAgent.collect]. rewrite Hd, Ht.
    destruct (IH (i + 1)%Z) as [Hl Hn]. split.
    + cbn [List.length]. rewrite Hl. reflexivity.
    + intros k m H. destruct k as [|k].
      * cbn in H. inversion H; subst m. exists d, t.
        split; [exact Hd|]. split; [exact Ht|]. cbn [nth_error].
        replace (i + Z.of_nat 0 + 1)%Z with (i + 1)%Z by lia. reflexivity.
      * cbn [nth_error] in *. destruct (Hn k m H) as (d' & t' & Hd' & Ht' & Hk).
        exists d', t'. split; [exact Hd'|]. split; [exact Ht'|].
        rewrite Hk.
        replace (i + 1 + Z.of_nat k + 1)%Z with (i + Z.of_nat (S k) + 1)%Z by lia.
        reflexivity.
Qed.

(** X21. When the response parses to a non-empty array in which every
    entry is an object with the keys "description" and "tool", [plan]
    returns one task per entry, in the order of the array: the k-th
    (from 1) has id k, the entry's description and tool, and is pending. *)
Theorem plan_of_valid_array
        (llm : nat -> string) (json_loads : string -> option json_value)
        (state : WorkflowState) (tools : list string) (c : nat)
        (items : list json_value) :
  json_loads (PlanAgent.clean (llm c)) = Some (JArr items) ->
  items <> [] ->
  Forall valid_entry items ->
  exists ts,
    PlanAgent.plan llm json_loads state tools c = Ok (ts, S c) /\
    List.length ts = List.length items /\
    (forall k members,
       nth_error items k = Some (JObj members) ->
       exists d t,
         Dict.get members "description" = Some d /\
         Dict.get members "tool" = Some t /\
         nth_error ts k
           = Some (mkTask (Z.of_nat k + 1) d "pending" t None None)).
Proof.
  intros Hj Hne Hv. destruct (collect_all_valid items Hv 0%Z) as [Hl Hn].
  exists (PlanAgent.collect 0 items). split; [| split; [exact Hl | exact Hn]].
  unfold PlanAgent.plan, bind, call. rewrite Hj. cbn [PlanAgent.iterate].
  destruct (PlanAgent.collect 0 items) as [|t l] eqn:E; [| reflexivity].
  destruct items; [congruence | discriminate Hl].
Qed.

Lemma collect_strings i l : PlanAgent.collect i (map JStr l) = [].
Proof.
  revert i. induction l as [|x l IH]; intros i; cbn [map PlanAgent.collect];
    [reflexivity | apply IH].
Qed.

(** X22. A response that does not parse, that parses to an empty
    array, to a JSON object or to a JSON string, makes [plan] return the
    single fallback task: id 1, pending, bound to "web_search", its
    description ending in the query. *)
Theorem plan_falls_back
        (llm : nat -> string) (json_loads : string -> option json_value)
        (state : WorkflowState) (tools : list string) (c : nat) :
  (json_loads (PlanAgent.clean (llm c)) = None \/
   json_loads (PlanAgent.clean (llm c)) = Some (JArr []) \/
   (exists members, json_loads (PlanAgent.clean (llm c)) = Some (JObj members)) \/
   (exists text, json_loads (PlanAgent.clean (llm c)) = Some (JStr text))) ->
  PlanAgent.plan llm json_loads state tools c =
    Ok ([mkTask 1 (JStr ("Search for information about: " ++ original_query state))
                "pending" (JStr "web_search") None None], S c).
Proof.
  intros H. apply plan_fallback.
  destruct H as [H | [H | [(m & H) | (text & H)]]].
  - left. exact H.
  - right. exists (JArr []), []. repeat split. exact H.
  - right. eexists. eexists. split; [exact H|]. split; [reflexivity|].
    apply collect_strings.
  - right. eexists. eexists. split; [exact H|]. split; [reflexivity|].
    apply collect_strings.
Qed.

(** ** The web search tool *)

Lemma substring_0_idem n : forall s,
  String.substring 0 n (String.substring 0 n s) = String.substring 0 n s.
Proof.
  induction n as [|n IH]; intros s.
  - destruct s; cbn; [reflexivity|]. reflexivity.
  - destruct s as [|c s]; cbn [String.substring]; [reflexivity|].
    rewrite IH. reflexivity.
Qed.

Lemma substring_0_length n : forall s,
  String.length (String.substring 0 n s) <= n.
Proof.
  induction n as [|n IH]; intros s.
  - destruct s; cbn; lia.
  - destruct s as [|c s]; cbn [String.substring String.length]; [lia|].
    specialize (IH s). lia.
Qed.

(** X23. [WebSearchTool.execute] shows the first three results only
    and of each content its first 200 characters: later results and
    later characters do not change its answer.  A response with an empty
    result list is a success whose text is empty; only a response
    without results is answered "No search results found". *)
Theorem web_search_shows_top_three
        (search search' : string -> WebSearch.search_response) (query : string)
        (hits : list WebSearch.hit) :
  search query = WebSearch.Results hits ->
  (search' query = WebSearch.Results (firstn 3 hits) ->
   WebSearch.execute search' query = WebSearch.execute search query) /\
  (search' query =
     WebSearch.Results
       (map (fun h => WebSearch.mkHit (WebSearch.title h)
                        (Some (String.substring 0 200
                                 (WebSearch.get_or "N/A" (WebSearch.content h))))
                        (WebSearch.url h)) hits) ->
   WebSearch.execute search' query = WebSearch.execute search query) /\
  (hits = [] -> WebSearch.execute search query = Succeeded EmptyString) /\
  (forall e, WebSearch.execute search query <> Failed e).
Proof.
  intros Hs. unfold WebSearch.execute. rewrite Hs. split; [| split; [| split]].
  - intros ->. rewrite firstn_firstn. reflexivity.
  - intros ->. rewrite firstn_map, map_map. do 2 f_equal.
    apply map_ext. intros h. unfold WebSearch.format_hit.
    cbn [WebSearch.title WebSearch.content WebSearch.url WebSearch.get_or].
    rewrite substring_0_idem. reflexivity.
  - intros ->. reflexivity.
  - intros e. discriminate.
Qed.

(** X24. In the workflow, a web search task whose search returns an
    empty result list is completed, with the empty text as its result;
    a search that raises fails the task with "Search failed: " and the
    exception's text. *)
Theorem web_search_task_outcome
        (llm : nat -> string)
        (search : nat -> string -> WebSearch.search_response)
        (calculator weather : nat -> string -> Registry.tool_outcome)
        (shown : string) (task : Task) (c : nat) :
  tool_used task = JStr "web_search" ->
  let web_search := fun n q =>
    Registry.Replied (to_reply shown (WebSearch.execute (search n) q)) in
  let reg := Workflow.tool_registry web_search calculator weather in
  (search (S c) (PyStr.strip (llm c)) = WebSearch.Results [] ->
   ToolAgent.execute_task llm reg task c =
     Ok (mkTask (id task) (description task) "completed" (tool_used task)
                (Some EmptyString) (error task), S (S c))) /\
  (forall msg,
     search (S c) (PyStr.strip (llm c)) = WebSearch.SearchRaised msg ->
     ToolAgent.execute_task llm reg task c =
       Ok (mkTask (id task) (description task) "failed" (tool_used task)
                  (result task) (Some ("Search failed: " ++ msg)), S (S c))).
Proof.
  intros Htool. cbv zeta.
  unfold ToolAgent.execute_task. rewrite Htool.
  cbn [Registry.get_tool Workflow.tool_registry Registry.register_tool
       Registry.empty Dict.set Dict.get Registry.name Workflow.WebSearchTool
       Workflow.CalculatorTool Workflow.WeatherTool String.eqb Ascii.eqb Bool.eqb].
  unfold bind, call, Workflow.WebSearchTool. cbn [Registry.execute].
  unfold WebSearch.execute. split.
  - intros H. rewrite H. cbn.
    unfold ToolAgent.completed_with. rewrite Htool. reflexivity.
  - intros msg H. rewrite H. cbn.
    unfold ToolAgent.failed_with. rewrite Htool. reflexivity.
Qed.

(** ** The calculator *)

Lemma occurs_app c a b :
  PyStr.occurs c (a ++ b) = PyStr.occurs c a || PyStr.occurs c b.
Proof.
  induction a as [|x a IH]; cbn [append PyStr.occurs]; [reflexivity|].
  rewrite IH. apply orb_assoc.
Qed.

Lemma occurs_lstrip c s :
  PyStr.is_space c = false ->
  PyStr.occurs c (PyStr.lstrip s) = PyStr.occurs c s.
Proof.
  intros Hc. induction s as [|x s IH]; cbn [PyStr.lstrip]; [reflexivity|].
  destruct (PyStr.is_space x) eqn:E; [| reflexivity].
  rewrite IH. cbn [PyStr.occurs].
  destruct (Ascii.eqb x c) eqn:Ex; [| reflexivity].
  apply Ascii.eqb_eq in Ex. congruence.
Qed.

Lemma occurs_rstrip c s :
  PyStr.is_space c = false ->
  PyStr.occurs c (PyStr.rstrip s) = PyStr.occurs c s.
Proof.
  intros Hc. induction s as [|x s IH]; cbn [PyStr.rstrip]; [reflexivity|].
  destruct (PyStr.rstrip s) as [|y r] eqn:E.
  - cbn [PyStr.occurs] in *. rewrite <- IH.
    destruct (PyStr.is_space x) eqn:Ex; [| reflexivity].
    cbn [PyStr.occurs].
    destruct (Ascii.eqb x c) eqn:Exc; [| reflexivity].
    apply Ascii.eqb_eq in Exc. congruence.
  - cbn [PyStr.occurs] in *. rewrite <- IH. reflexivity.
Qed.

Lemma occurs_replace1 c old new s :
  c <> old ->
  PyStr.occurs c s = true -> PyStr.occurs c (PyStr.replace1 old new s) = true.
Proof.
  intros Hne. induction s as [|x s IH]; cbn [PyStr.replace1 PyStr.occurs];
    [discriminate|].
  intros H. destruct (Ascii.eqb x old) eqn:Eo.
  - apply Ascii.eqb_eq in Eo. subst x.
    destruct (Ascii.eqb old c) eqn:Ec.
    + apply Ascii.eqb_eq in Ec. congruence.
    + rewrite occurs_app, IH; [apply orb_true_r | exact H].
  - cbn [PyStr.occurs]. destruct (Ascii.eqb x c); [reflexivity | exact (IH H)].
Qed.

Lemma occurs_replace2 c a b new s :
  c <> a -> c <> b ->
  (PyStr.occurs c s = true ->
   PyStr.occurs c (PyStr.replace2 a b new s) = true) /\
  (forall x, PyStr.occurs c (String x s) = true ->
             PyStr.occurs c (PyStr.replace2 a b new (String x s)) = true).
Proof.
  intros Ha Hb. induction s as [|y r [IH1 IH2]].
  - split; [discriminate | intros x H; exact H].
  - split; [exact (IH2 y)|]. intros x H.
    cbn [PyStr.replace2].
    destruct (Ascii.eqb x a && Ascii.eqb y b) eqn:E.
    + apply andb_true_iff in E. destruct E as [Ex Ey].
      apply Ascii.eqb_eq in Ex. apply Ascii.eqb_eq in Ey. subst x y.
      cbn [PyStr.occurs] in H.
      assert (Ea : Ascii.eqb a c = false) by (apply Ascii.eqb_neq; congruence).
      assert (Eb : Ascii.eqb b c = false) by (apply Ascii.eqb_neq; congruence).
      rewrite Ea, Eb in H. cbn [orb] in H.
      rewrite occurs_app, (IH1 H). apply orb_true_r.
    + cbn [PyStr.occurs] in *. destruct (Ascii.eqb x c); [reflexivity|].
      cbn [orb] in *. apply (IH2 y). exact H.
Qed.

Lemma occurs_has_ident c s :
  Calculator.is_ident c = true -> PyStr.occurs c s = true ->
  Calculator.has_ident s = true.
Proof.
  intros Hc. induction s as [|x s IH]; cbn [PyStr.occurs Calculator.has_ident];
    [discriminate|].
  destruct (Ascii.eqb x c) eqn:E.
  - apply Ascii.eqb_eq in E. subst x. rewrite Hc. reflexivity.
  - cbn [orb]. intros H. rewrite (IH H). apply orb_true_r.
Qed.

Lemma is_ident_not_space c :
  Calculator.is_ident c = true -> PyStr.is_space c = false.
Proof.
  unfold Calculator.is_ident, PyStr.is_space. cbv zeta.
  generalize (nat_of_ascii c). intros n H.
  repeat match goal with
         | H : (_ || _) = true |- _ => apply orb_true_iff in H; destruct H as [H | H]
         | H : (_ && _) = true |- _ => apply andb_true_iff in H; destruct H
         | H : (_ <=? _)%nat = true |- _ => apply Nat.leb_le in H
         | H : (_ =? _)%nat = true |- _ => apply Nat.eqb_eq in H
         end;
    repeat (apply orb_false_iff; split);
    try (apply andb_false_iff; (left; apply Nat.leb_gt; lia) || (right; apply Nat.leb_gt; lia));
    try (apply Nat.eqb_neq; lia).
Qed.

Lemma calculator_refuses_letter price_expression evaluate expression c :
  Calculator.is_ident c = true ->
  c <> "e"%char -> c <> "p"%char -> c <> "i"%char ->
  PyStr.occurs c expression = true ->
  Calculator.price_words (Calculator.prepare expression) = false ->
  Calculator.execute price_expression evaluate expression
    = Failed Calculator.invalid_characters.
Proof.
  intros Hid He Hp Hi Hocc Hprice.
  unfold Calculator.execute. cbv zeta. rewrite Hprice.
  assert (Hprep : PyStr.occurs c (Calculator.prepare expression) = true).
  { unfold Calculator.prepare. cbv zeta.
    apply occurs_replace1.
    { intros ->. discriminate Hid. }
    apply occurs_replace1; [exact He|].
    apply (occurs_replace2 c "p" "i"); [exact Hp | exact Hi |].
    unfold PyStr.strip.
    rewrite occurs_rstrip, occurs_lstrip;
      [exact Hocc | apply is_ident_not_space; exact Hid
                  | apply is_ident_not_space; exact Hid]. }
  rewrite (occurs_has_ident c _ Hid Hprep). reflexivity.
Qed.

(** X25. The calculator refuses every expression that holds a letter
    or an underscore: the text it passes to [eval] has none, the names
    of the functions it lists as allowed included.  In particular an
    expression with a letter other than "e", "p" and "i", or with an
    underscore, that is not rewritten as a priced expression is answered
    "Invalid characters in expression". *)
Theorem calculator_refuses_identifiers
        (price_expression : string -> option string)
        (evaluate : string -> tool_dict) (expression : string) :
  (Calculator.execute price_expression evaluate expression
     = Failed Calculator.invalid_characters \/
   exists clean_exp,
     Calculator.has_ident clean_exp = false /\
     Calculator.execute price_expression evaluate expression = evaluate clean_exp) /\
  (forall c,
     Calculator.is_ident c = true ->
     c <> "e"%char -> c <> "p"%char -> c <> "i"%char ->
     PyStr.occurs c expression = true ->
     Calculator.price_words (Calculator.prepare expression) = false ->
     Calculator.execute price_expression evaluate expression
       = Failed Calculator.invalid_characters).
Proof.
  split.
  - unfold Calculator.execute. cbv zeta.
    match goal with
    | |- context [Calculator.has_ident ?e] =>
        destruct (Calculator.has_ident e) eqn:E; [left; reflexivity|];
        right; exists e; split; [exact E | reflexivity]
    end.
  - intros c Hid He Hp Hi Hocc Hprice.
    exact (calculator_refuses_letter price_expression evaluate expression c
             Hid He Hp Hi Hocc Hprice).
Qed.

(** X26. In the workflow, a calculator task whose extracted input
    holds such a letter, "sqrt(16)" for one, fails with the error
    "Invalid characters in expression": [eval] is not reached. *)
Theorem calculator_task_with_function_fails
        (llm : nat -> string)
        (price_expression : nat -> string -> option string)
        (evaluate : nat -> string -> tool_dict)
        (web_search weather : nat -> string -> Registry.tool_outcome)
        (shown : string) (task : Task) (c : nat) (letter : ascii) :
  tool_used task = JStr "calculator" ->
  Calculator.is_ident letter = true ->
  letter <> "e"%char -> letter <> "p"%char -> letter <> "i"%char ->
  PyStr.occurs letter (PyStr.strip (llm c)) = true ->
  Calculator.price_words (Calculator.prepare (PyStr.strip (llm c))) = false ->
  let calculator := fun n input =>
    Registry.Replied
      (to_reply shown
         (Calculator.execute (price_expression n) (evaluate n) input)) in
  ToolAgent.execute_task llm
    (Workflow.tool_registry web_search calculator weather) task c =
  Ok (mkTask (id task) (description task) "failed" (tool_used task)
             (result task) (Some Calculator.invalid_characters), S (S c)).
Proof.
  intros Htool Hid He Hp Hi Hocc Hprice. cbv zeta.
  unfold ToolAgent.execute_task. rewrite Htool.
  cbn [Registry.get_tool Workflow.tool_registry Registry.register_tool
       Registry.empty Dict.set Dict.get Registry.name Workflow.WebSearchTool
       Workflow.CalculatorTool Workflow.WeatherTool String.eqb Ascii.eqb Bool.eqb].
  unfold bind, call, Workflow.CalculatorTool. cbn [Registry.execute].
  rewrite (calculator_refuses_letter (price_expression (S c)) (evaluate (S c))
             (PyStr.strip (llm c)) letter Hid He Hp Hi Hocc Hprice). cbn.
  unfold ToolAgent.failed_with. rewrite Htool. reflexivity.
Qed.

(** ** The markdown fence around a planner answer *)

Lemma str_app_assoc (a b c : string) : (a ++ b) ++ c = a ++ b ++ c.
Proof.
  induction a as [|x a IH]; cbn [append]; [reflexivity | rewrite IH; reflexivity].
Qed.

Lemma str_length_app (a b : string) :
  String.length (a ++ b) = String.length a + String.length b.
Proof.
  induction a as [|x a IH]; cbn [append String.length];
    [reflexivity | rewrite IH; reflexivity].
Qed.

Lemma substring_0_app (a b : string) :
  String.substring 0 (String.length a) (a ++ b) = a.
Proof.
  induction a as [|x a IH]; cbn [append String.length String.substring].
  - destruct b; reflexivity.
  - rewrite IH. reflexivity.
Qed.

Lemma rstrip_nonspace_end (a : string) (c : ascii) :
  PyStr.is_space c = false ->
  PyStr.rstrip (a ++ String c EmptyString) = a ++ String c EmptyString.
Proof.
  intros Hc. induction a as [|x a IH]; cbn [append PyStr.rstrip].
  - rewrite Hc. reflexivity.
  - rewrite IH. destruct a; reflexivity.
Qed.

Lemma strip_between (x y : ascii) (p a q : string) :
  PyStr.is_space x = false -> PyStr.is_space y = false ->
  PyStr.strip (String x p ++ a ++ q ++ String y EmptyString)
    = String x p ++ a ++ q ++ String y EmptyString.
Proof.
  intros Hx Hy. unfold PyStr.strip.
  assert (Hl : PyStr.lstrip (String x p ++ a ++ q ++ String y EmptyString)
               = String x p ++ a ++ q ++ String y EmptyString).
  { cbn [append PyStr.lstrip]. rewrite Hx. reflexivity. }
  rewrite Hl.
  assert (E : String x p ++ a ++ q ++ String y EmptyString
              = (String x p ++ a ++ q) ++ String y EmptyString).
  { rewrite !str_app_assoc. reflexivity. }
  rewrite E. apply rstrip_nonspace_end. exact Hy.
Qed.

(** X27. The fence removal of [plan] gives back the text between a
    "```json" fence and a closing "```", and likewise between two plain
    "```" fences when the text does not start with "json".  The closing
    fence is not checked: of an answer that only opens a fence the last
    three characters are dropped all the same. *)
Theorem clean_removes_fence (body : string) :
  PlanAgent.clean ("```json" ++ body ++ "```") = body /\
  (String.prefix "json" body = false ->
   PlanAgent.clean ("```" ++ body ++ "```") = body) /\
  (forall b c, body = b ++ String c EmptyString -> PyStr.is_space c = false ->
     PlanAgent.clean ("```json" ++ body)
       = String.substring 0 (String.length body - 3) body).
Proof.
  split; [| split].
  - unfold PlanAgent.clean.
    assert (Hs : PyStr.strip ("```json" ++ body ++ "```")
                 = "```json" ++ body ++ "```").
    { exact (strip_between "`" "`" "``json" body "``" eq_refl eq_refl). }
    rewrite Hs. cbv zeta.
    unfold PyStr.startswith. rewrite prefix_app.
    unfold PyStr.slice. rewrite !str_length_app. cbn [String.length].
    replace (7 + (String.length body + 3) - 3 - 7) with (String.length body) by lia.
    cbn [append String.substring]. apply substring_0_app.
  - intros Hj. unfold PlanAgent.clean.
    assert (Hs : PyStr.strip ("```" ++ body ++ "```") = "```" ++ body ++ "```").
    { exact (strip_between "`" "`" "``" body "``" eq_refl eq_refl). }
    rewrite Hs. cbv zeta. unfold PyStr.startswith.
    assert (Hno : String.prefix "```json" ("```" ++ body ++ "```") = false).
    { cbn [append String.prefix].
      repeat (destruct (ascii_dec "`" "`") as [_ | Hne]; [| congruence]).
      destruct body as [|c0 body]; [reflexivity|].
      cbn [append String.prefix] in *.
      destruct (ascii_dec "j" c0) as [<- | Hne]; [| reflexivity].
      destruct body as [|c1 body]; [reflexivity|].
      cbn [append String.prefix] in *.
      destruct (ascii_dec "s" c1) as [<- | Hne]; [| reflexivity].
      destruct body as [|c2 body]; [reflexivity|].
      cbn [append String.prefix] in *.
      destruct (ascii_dec "o" c2) as [<- | Hne]; [| reflexivity].
      destruct body as [|c3 body]; [reflexivity|].
      cbn [append String.prefix] in *.
      destruct (ascii_dec "n" c3) as [<- | Hne]; [| reflexivity].
      exfalso. revert Hj. cbn [String.prefix].
      repeat (destruct (ascii_dec _ _) as [_ | Hne]; [| congruence]).
      destruct body; discriminate. }
    rewrite Hno, prefix_app.
    unfold PyStr.slice. rewrite !str_length_app. cbn [String.length].
    replace (3 + (String.length body + 3) - 3 - 3) with (String.length body) by lia.
    cbn [append String.substring]. apply substring_0_app.
  - intros b c -> Hc. unfold PlanAgent.clean.
    assert (Hs : PyStr.strip ("```json" ++ b ++ String c EmptyString)
                 = "```json" ++ b ++ String c EmptyString).
    { exact (strip_between "`" c "``json" b EmptyString eq_refl Hc). }
    rewrite Hs. cbv zeta. unfold PyStr.startswith. rewrite prefix_app.
    unfold PyStr.slice. rewrite str_length_app.
    cbn [String.length append String.substring].
    replace (7 + String.length (b ++ String c EmptyString) - 3 - 7)
      with (String.length (b ++ String c EmptyString) - 3) by lia.
    reflexivity.
Qed.

(** ** The further properties at concrete inputs *)

Lemma register_tool_get_tool_witness :
  Registry.get_tool
    (Registry.register_tool
       (Workflow.tool_registry Scenario.offline Scenario.offline Scenario.offline)
       (Workflow.CalculatorTool (Scenario.succeeds "10.05")))
    (JStr "weather")
  = Registry.get_tool
      (Workflow.tool_registry Scenario.offline Scenario.offline Scenario.offline)
      (JStr "weather").
Proof.
  apply (proj2 (register_tool_get_tool
                  (Workflow.tool_registry Scenario.offline Scenario.offline
                                          Scenario.offline)
                  (Workflow.CalculatorTool (Scenario.succeeds "10.05")))).
  discriminate.
Defined.

Lemma register_tool_list_tools_witness :
  Registry.list_tools
    (Registry.register_tool
       (Workflow.tool_registry Scenario.offline Scenario.offline Scenario.offline)
       (Workflow.CalculatorTool (Scenario.succeeds "10.05")))
  = ["web_search"; "calculator"; "weather"].
Proof.
  apply (proj1 (register_tool_list_tools
                  (Workflow.tool_registry Scenario.offline Scenario.offline
                                          Scenario.offline)
                  (Workflow.CalculatorTool (Scenario.succeeds "10.05")))).
  reflexivity.
Defined.

Lemma remove_tool_get_tool_witness :
  Registry.get_tool
    (snd (Registry.remove_tool
            (Workflow.tool_registry Scenario.offline Scenario.offline Scenario.offline)
            "calculator"))
    (JStr "calculator") = Ok None.
Proof.
  apply (remove_tool_get_tool
           (Workflow.tool_registry Scenario.offline Scenario.offline Scenario.offline)
           "calculator").
  unfold Dict.wf. vm_compute.
  repeat (constructor; [cbn; intuition discriminate|]). constructor.
Defined.

Lemma execute_task_tool_reply_witness :
  ToolAgent.execute_task Scenario.llm_one
    (Workflow.tool_registry Scenario.offline (Scenario.succeeds "10.05")
                            Scenario.offline)
    (mkTask 1 (JStr "67 * 0.15") "pending" (JStr "calculator") None None) 1
  = Ok (mkTask 1 (JStr "67 * 0.15") "completed" (JStr "calculator")
               (Some "10.05") None, 3).
Proof.
  apply (proj1 (execute_task_tool_reply Scenario.llm_one
                  (Workflow.tool_registry Scenario.offline (Scenario.succeeds "10.05")
                                          Scenario.offline)
                  (mkTask 1 (JStr "67 * 0.15") "pending" (JStr "calculator") None None)
                  1 (Workflow.CalculatorTool (Scenario.succeeds "10.05")) eq_refl)
               (Registry.mkReply (Some true) (Some "10.05") None EmptyString)).
  - reflexivity.
  - discriminate.
Defined.

Lemma should_refine_plan_without_llm_witness :
  ReflectionAgent.should_refine_plan Scenario.llm_retry Scenario.one_failed 0
  = Ok (true, 0).
Proof.
  apply (should_refine_plan_without_llm Scenario.llm_retry Scenario.one_failed 0).
  reflexivity.
Defined.

Lemma adequacy_answer_is_a_substring_test_witness :
  ReflectionAgent.should_refine_plan (fun _ => "I do not know")
    Scenario.before_reflection 3 = Ok (true, 4).
Proof.
  apply (adequacy_answer_is_a_substring_test (fun _ => "I do not know")
           Scenario.before_reflection 3 "I do " "no" "t know").
  - discriminate.
  - reflexivity.
  - cbn. lia.
  - reflexivity.
  - reflexivity.
Defined.

Lemma suggest_refinements_shape_witness :
  exists modifies adds,
    ReflectionAgent.suggest_refinements Scenario.llm_retry Scenario.one_failed 0
      = Ok ((modifies ++ adds)%list, 2) /\
    List.length modifies = 1.
Proof.
  destruct (suggest_refinements_shape Scenario.llm_retry Scenario.one_failed 0)
    as (modifies & adds & H & Hl & _).
  exists modifies, adds. split; [exact H | exact Hl].
Defined.

Lemma suggest_refinements_add_witness :
  exists d t,
    PyStr.split "|" (PyStr.strip "retry|web_search") = [d; t] /\
    In (ReflectionAgent.Add (PyStr.strip d) (PyStr.strip t))
       [ReflectionAgent.Modify 1 "retry|web_search" (JStr "translate");
        ReflectionAgent.Add "retry" "web_search"].
Proof.
  apply (proj1 (suggest_refinements_add Scenario.llm_retry Scenario.one_failed 0
                  [ReflectionAgent.Modify 1 "retry|web_search" (JStr "translate");
                   ReflectionAgent.Add "retry" "web_search"] 2
                  eq_refl eq_refl)).
  reflexivity.
Defined.


Lemma reflect_node_at_ceiling_witness :
  Workflow.reflect_node Scenario.llm_one Scenario.one_completed 5
  = Ok (set_should_continue Scenario.one_completed (Some false), 5).
Proof.
  apply (reflect_node_at_ceiling Scenario.llm_one Scenario.loads_one Scenario.offline
           (Scenario.succeeds "10.05") Scenario.offline Scenario.one_completed 5).
  cbn. lia.
Defined.

Lemma scenario_reaches_reflect :
  Workflow.reachable Scenario.llm_one Scenario.loads_one Scenario.offline
    (Scenario.succeeds "10.05") Scenario.offline Scenario.query
    Workflow.REFLECT Scenario.before_reflection 3.
Proof.
  apply (reachable_advance _ _ _ _ _ _ 2 Workflow.PLAN
           (initial_state Scenario.query) 0%nat).
  - apply Workflow.reach_init.
  - vm_compute. reflexivity.
Defined.

Lemma run_fields_witness :
  original_query Scenario.before_reflection = Scenario.query /\
  current_task_id Scenario.before_reflection = None /\
  feedback Scenario.before_reflection = [] /\
  (Workflow.REFLECT = Workflow.DONE <->
   final_answer Scenario.before_reflection <> None).
Proof.
  exact (run_fields _ _ _ _ _ _ _ _ _ scenario_reaches_reflect).
Defined.

Lemma stage_entry_conditions_witness :
  no_pending Scenario.before_reflection /\
  State.should_continue Scenario.before_reflection = Some true.
Proof.
  apply (proj1 (proj2 (stage_entry_conditions _ _ _ _ _ _ _ _ _
                         scenario_reaches_reflect))).
  reflexivity.
Defined.

Lemma tasks_never_empty_after_plan_witness :
  tasks Scenario.before_reflection <> [].
Proof.
  apply (tasks_never_empty_after_plan _ _ _ _ _ _ _ _ _ scenario_reaches_reflect).
  left. discriminate.
Defined.

Lemma reflect_stage_raises_iff_witness :
  Workflow.step Scenario.llm_one Scenario.loads_one Scenario.offline
    (Scenario.succeeds "10.05") Scenario.offline
    Workflow.REFLECT Scenario.before_reflection 3
  = Raise (KeyError "reflect").
Proof.
  apply (proj1 (reflect_stage_raises_iff _ _ _ _ _ _ _ _ scenario_reaches_reflect)).
  split; [reflexivity|]. split; [cbn; lia | reflexivity].
Defined.

Lemma plan_returns_fresh_tasks_witness :
  Forall fresh [mkTask 2 (JStr "67 * 0.15") "pending" (JStr "calculator") None None].
Proof.
  apply (plan_returns_fresh_tasks Scenario.llm_gap Scenario.loads_gap
           (initial_state Scenario.query) [] 0
           [mkTask 2 (JStr "67 * 0.15") "pending" (JStr "calculator") None None] 1).
  vm_compute. reflexivity.
Defined.

Lemma plan_of_valid_array_witness :
  exists ts,
    PlanAgent.plan Scenario.llm_one Scenario.loads_one
      (initial_state Scenario.query) [] 0 = Ok (ts, 1) /\
    List.length ts = 1.
Proof.
  destruct (plan_of_valid_array Scenario.llm_one Scenario.loads_one
              (initial_state Scenario.query) [] 0
              [Scenario.entry_value "67 * 0.15" "calculator"])
    as (ts & H & Hl & _).
  - vm_compute. reflexivity.
  - discriminate.
  - constructor; [| constructor].
    eexists. eexists. eexists. split; [reflexivity|]. split; reflexivity.
  - exists ts. split; [exact H | exact Hl].
Defined.

Lemma plan_falls_back_witness :
  PlanAgent.plan Scenario.llm_retry Scenario.loads_one
    (initial_state Scenario.query) [] 0
  = Ok ([mkTask 1 (JStr "Search for information about: What is 15% tip on $67?")
                "pending" (JStr "web_search") None None], 1).
Proof.
  apply (plan_falls_back Scenario.llm_retry Scenario.loads_one
           (initial_state Scenario.query) [] 0).
  left. vm_compute. reflexivity.
Defined.

Lemma web_search_shows_top_three_witness :
  WebSearch.execute (fun _ => WebSearch.Results []) "tip" = Succeeded EmptyString.
Proof.
  apply (web_search_shows_top_three (fun _ => WebSearch.Results [])
           (fun _ => WebSearch.Results []) "tip" [] eq_refl).
  reflexivity.
Defined.

Lemma web_search_task_outcome_witness :
  ToolAgent.execute_task Scenario.llm_one
    (Workflow.tool_registry
       (fun n q => Registry.Replied
                     (to_reply EmptyString
                        (WebSearch.execute (fun _ => WebSearch.Results []) q)))
       Scenario.offline Scenario.offline)
    (mkTask 1 (JStr "search tips") "pending" (JStr "web_search") None None) 1
  = Ok (mkTask 1 (JStr "search tips") "completed" (JStr "web_search")
               (Some EmptyString) None, 3).
Proof.
  apply (proj1 (web_search_task_outcome Scenario.llm_one
                  (fun _ _ => WebSearch.Results []) Scenario.offline Scenario.offline
                  EmptyString
                  (mkTask 1 (JStr "search tips") "pending" (JStr "web_search") None None)
                  1 eq_refl)).
  reflexivity.
Defined.

Lemma calculator_refuses_identifiers_witness :
  Calculator.execute (fun _ => None) (fun _ => Succeeded "4") "sqrt(16)"
  = Failed Calculator.invalid_characters.
Proof.
  apply (proj2 (calculator_refuses_identifiers (fun _ => None)
                  (fun _ => Succeeded "4") "sqrt(16)") "s"%char);
    try discriminate; reflexivity.
Defined.

Lemma calculator_task_with_function_fails_witness :
  ToolAgent.execute_task (fun _ => "sqrt(16)")
    (Workflow.tool_registry Scenario.offline
       (fun n input =>
          Registry.Replied
            (to_reply EmptyString
               (Calculator.execute (fun _ => None) (fun _ => Succeeded "4") input)))
       Scenario.offline)
    (mkTask 1 (JStr "root of 16") "pending" (JStr "calculator") None None) 1
  = Ok (mkTask 1 (JStr "root of 16") "failed" (JStr "calculator") None
               (Some Calculator.invalid_characters), 3).
Proof.
  apply (calculator_task_with_function_fails (fun _ => "sqrt(16)")
           (fun _ _ => None) (fun _ _ => Succeeded "4")
           Scenario.offline Scenario.offline EmptyString
           (mkTask 1 (JStr "root of 16") "pending" (JStr "calculator") None None)
           1 "s"%char);
    try discriminate; reflexivity.
Defined.

Lemma clean_removes_fence_witness :
  PlanAgent.clean ("```" ++ "[1]" ++ "```") = "[1]" /\
  PlanAgent.clean ("```json" ++ "[1, 2]") = "[1,".
Proof.
  destruct (clean_removes_fence "[1]") as (_ & H2 & _).
  destruct (clean_removes_fence "[1, 2]") as (_ & _ & H3).
  split.
  - apply H2. reflexivity.
  - apply (H3 "[1, 2" "]"%char); reflexivity.
Defined.

(** ** Two more facts *)

(** X28. [get_tool_descriptions] lists exactly the registered names,
    in the order of [list_tools], and gives under each name the
    description of the tool [get_tool] finds there. *)
Theorem get_tool_descriptions_agree (r : Registry.ToolRegistry) :
  Dict.keys (Registry.get_tool_descriptions r) = Registry.list_tools r /\
  (forall k,
     Dict.get (Registry.get_tool_descriptions r) k =
       match Registry.get_tool r (JStr k) with
       | Ok (Some tool) => Some (Registry.tool_description tool)
       | _ => None
       end).
Proof.
  unfold Registry.get_tool_descriptions, Registry.list_tools, Registry.get_tool,
    Dict.keys.
  split.
  - rewrite map_map. apply map_ext. intros [k t]. reflexivity.
  - intros k. induction r as [|[k' t] r IH]; cbn [map Dict.get fst snd].
    + reflexivity.
    + destruct (String.eqb k' k); [reflexivity | exact IH].
Qed.

Lemma reachable_needs_replan llm json_loads web_search calculator weather
      query n s c :
  Workflow.reachable llm json_loads web_search calculator weather query n s c ->
  needs_replan s <> Some true.
Proof.
  induction 1 as [|n s c n' s' c' _ IH Hs].
  - discriminate.
  - apply step_fields in Hs. destruct Hs as [_ [Hr | Hr]]; congruence.
Qed.

(** X8. When the task list the planner returns at the start of the
    run, its one planning call, numbers the tasks 1, 2, ..., the field
    invariant of the specification holds for every task of every
    configuration of the run, and the ids stay 1, 2, ... *)
Theorem task_invariant_holds
        (llm : nat -> string) (json_loads : string -> option json_value)
        (web_search calculator weather : nat -> string -> Registry.tool_outcome)
        (query : string) :
  (forall ts c',
     PlanAgent.plan llm json_loads (initial_state query)
       (Registry.list_tools (Workflow.tool_registry web_search calculator weather))
       0 = Ok (ts, c') ->
     consecutive_ids ts) ->
  forall n s c,
    Workflow.reachable llm json_loads web_search calculator weather query n s c ->
    consecutive_ids (tasks s) /\ Forall task_invariant (tasks s).
Proof.
  intros Hplan n s c H.
  induction H as [|n s c n' s' c' Hr IH Hs].
  - split; [reflexivity | constructor].
  - apply (step_task_invariant _ _ _ _ _ _ _ _ _ _ _ Hs); [| exact IH].
    intros Hn Hcond ts c1 Hp.
    pose proof (reachable_needs_replan _ _ _ _ _ _ _ _ _ Hr) as Hflag.
    pose proof (reachable_facts _ _ _ _ _ _ _ _ _ Hr) as (_ & _ & _ & _ & _ & _ & Hne).
    destruct Hne as [(_ & -> & ->) | Hne]; [exact (Hplan ts c1 Hp)|].
    exfalso. destruct (tasks s) as [|t l]; [congruence|].
    cbn [ReflectionAgent.nonempty negb orb] in Hcond.
    destruct (needs_replan s) as [[|]|]; [congruence | discriminate | discriminate].
Qed.

(** The planner of scenario A numbers its one task 1, so the field
    invariant holds along its run. *)
Lemma task_invariant_holds_witness :
  Forall task_invariant (tasks Scenario.before_reflection).
Proof.
  apply (task_invariant_holds Scenario.llm_one Scenario.loads_one Scenario.offline
           (Scenario.succeeds "10.05") Scenario.offline Scenario.query)
    with (n := Workflow.REFLECT) (c := 3%nat).
  - intros ts c' H. vm_compute in H. inversion H. reflexivity.
  - apply (reachable_advance _ _ _ _ _ _ 2 Workflow.PLAN
             (initial_state Scenario.query) 0%nat).
    + apply Workflow.reach_init.
    + vm_compute. reflexivity.
Defined.

(** X29. In a run the planner is asked once, at the start: every later
    visit of the plan stage, on the way back from the reflect stage,
    returns the state as it is and makes no external call, so the
    refinements of the reflection are what the execute stage sees. *)
Theorem plan_stage_plans_once
        (llm : nat -> string) (json_loads : string -> option json_value)
        (web_search calculator weather : nat -> string -> Registry.tool_outcome)
        (query : string) (s : WorkflowState) (c : nat) :
  Workflow.reachable llm json_loads web_search calculator weather
                     query Workflow.PLAN s c ->
  0 < c ->
  Workflow.step llm json_loads web_search calculator weather Workflow.PLAN s c
    = Ok ((Workflow.EXECUTE, s), c).
Proof.
  intros Hr Hc.
  pose proof (reachable_needs_replan _ _ _ _ _ _ _ _ _ Hr) as Hflag.
  pose proof (reachable_facts _ _ _ _ _ _ _ _ _ Hr) as (_ & _ & _ & _ & _ & _ & Hne).
  destruct Hne as [(_ & H0 & _) | Hne]; [lia|].
  unfold Workflow.step, Workflow.plan_node.
  destruct (tasks s) as [|t ts] eqn:Ets; [congruence|].
  cbn [ReflectionAgent.nonempty negb orb].
  destruct (needs_replan s) as [[|]|]; [congruence | reflexivity | reflexivity].
Qed.

Lemma plan_stage_plans_once_witness :
  exists s,
    Workflow.step Scenario.llm_gap Scenario.loads_gap Scenario.offline
      (Calculator.tool (fun _ => None) evaluate_tip EmptyString)
      Scenario.offline Workflow.PLAN s 5
    = Ok ((Workflow.EXECUTE, s), 5).
Proof.
  assert (H : exists s,
             Workflow.reachable Scenario.llm_gap Scenario.loads_gap Scenario.offline
               (Calculator.tool (fun _ => None) evaluate_tip EmptyString)
               Scenario.offline Scenario.query
               Workflow.PLAN s 5).
  { eexists.
    apply (reachable_advance _ _ _ _ _ _ 3 Workflow.PLAN
             (initial_state Scenario.query) 0%nat).
    - apply Workflow.reach_init.
    - vm_compute. reflexivity. }
  destruct H as [s H]. exists s.
  apply (plan_stage_plans_once _ _ _ _ _ _ _ _ H). lia.
Defined.
